(** * The e-commerce product assistant: a shallow embedding and its properties

    The development follows the Python sources module by module.

    - [Text]      the [str] operations the program uses ([lower], [strip],
                  [len], [in], [join]).  A Python string is modelled by the
                  Rocq [string] of its UTF-8 encoding; [chars] gives its
                  characters, on which [len], [isspace] and [strip] work.
                  [lower] follows Python on the ASCII range and leaves the
                  other characters alone.
    - [Py]        exceptions, results and the effect monad: a computation
                  yields the events it performed and either a value or the
                  exception it raised.  Only exceptions derived from
                  [Exception] are modelled.
    - [Workflow]  workflow/agentic_workflow_with_mcp_websearch.py
    - [Server]    mcp_servers/product_search_server.py
    - [Client]    mcp_servers/client.py
    - [Csv], [Pandas], [Scrapper], [Ingestion]
                  etl/data_scrapper.py and etl/data_ingestion.py with the two
                  library calls they rest on ([csv.writer], [pandas.read_csv])
    - [Retrieval] retriever/retrieval.py
    - [RagasEval] evaluation/ragas_eval.py

    External services (the language model, the MCP tools, the vector store,
    the evaluation library) are parameters of the sections that use them. *)

From Stdlib Require Import Ascii String NArith ZArith.
From stdpp Require Import base strings list gmap pretty.

(* ===================================================================== *)
(** * Part I: the embedding                                               *)
(* ===================================================================== *)

(** ** Python text *)
Module Text.

(** The line feed, written as a backslash and n in the sources. *)
Definition NL : string := String "010" "".

(** [c.lower()] on one character: [A]..[Z] move to [a]..[z]. *)
Definition lower_char (c : ascii) : ascii :=
  let n := N_of_ascii c in
  if ((65 <=? n) && (n <=? 90))%N then ascii_of_N (n + 32) else c.

(** [s.lower()] *)
Fixpoint lower (s : string) : string :=
  match s with
  | "" => ""
  | String c t => String (lower_char c) (lower t)
  end.

(** *** Characters

    A string stands for a Python [str] through its UTF-8 encoding.  A
    character is a byte that does not continue another one, with the
    continuation bytes behind it. *)
Definition is_continuation (c : ascii) : bool :=
  let n := N_of_ascii c in ((128 <=? n) && (n <? 192))%N.

(** [s] goes on with a continuation byte. *)
Definition continues (s : string) : bool :=
  match s with
  | "" => false
  | String d _ => is_continuation d
  end.

(** The characters of [s], in order. *)
Fixpoint chars (s : string) : list string :=
  match s with
  | "" => []
  | String c t =>
      match chars t with
      | ch :: rest =>
          if continues t then String c ch :: rest else String c "" :: ch :: rest
      | [] => [String c ""]
      end
  end.

(** The string of a list of characters. *)
Fixpoint unchars (l : list string) : string :=
  match l with
  | [] => ""
  | ch :: rest => ch +:+ unchars rest
  end.

(** [len(s)] *)
Definition len (s : string) : nat := length (chars s).

(** The string of a list of bytes. *)
Definition utf8 (bytes : list N) : string :=
  foldr (λ b s, String (ascii_of_N b) s) "" bytes.

(** The characters for which [isspace()] holds: U+0009 to U+000D, U+001C
    to U+001F, the space, U+0085, U+00A0, U+1680, U+2000 to U+200A, U+2028,
    U+2029, U+202F, U+205F and U+3000. *)
Definition whitespace : list string :=
  utf8 <$> [ [9]; [10]; [11]; [12]; [13]; [28]; [29]; [30]; [31]; [32];
             [194; 133]; [194; 160]; [225; 154; 128];
             [226; 128; 128]; [226; 128; 129]; [226; 128; 130]; [226; 128; 131];
             [226; 128; 132]; [226; 128; 133]; [226; 128; 134]; [226; 128; 135];
             [226; 128; 136]; [226; 128; 137]; [226; 128; 138];
             [226; 128; 168]; [226; 128; 169]; [226; 128; 175];
             [226; 129; 159]; [227; 128; 128] ]%N.

(** [ch.isspace()] for one character. *)
Definition isspace (ch : string) : bool := bool_decide (ch ∈ whitespace).

Fixpoint lstrip_chars (l : list string) : list string :=
  match l with
  | [] => []
  | ch :: t => if isspace ch then lstrip_chars t else l
  end.

(** A character is kept at the right end when it is not a space or when
    something survives to its right. *)
Fixpoint rstrip_chars (l : list string) : list string :=
  match l with
  | [] => []
  | ch :: t =>
      match rstrip_chars t with
      | [] => if isspace ch then [] else [ch]
      | t' => ch :: t'
      end
  end.

Definition lstrip (s : string) : string := unchars (lstrip_chars (chars s)).
Definition rstrip (s : string) : string := unchars (rstrip_chars (chars s)).

(** [s.strip()] *)
Definition strip (s : string) : string :=
  unchars (rstrip_chars (lstrip_chars (chars s))).

(** Every character of [s] is a space; the empty string has none. *)
Definition all_space (s : string) : bool := forallb isspace (chars s).

(** [s.startswith(p)] *)
Fixpoint startswith (p s : string) : bool :=
  match p, s with
  | "", _ => true
  | String a p', String b s' => if decide (a = b) then startswith p' s' else false
  | String _ _, "" => false
  end.

(** [needle in hay] *)
Fixpoint contains (needle hay : string) : bool :=
  startswith needle hay
  || match hay with
     | "" => false
     | String _ t => contains needle t
     end.

(** [sep.join(parts)] *)
Fixpoint join (sep : string) (parts : list string) : string :=
  match parts with
  | [] => ""
  | [p] => p
  | p :: rest => p +:+ sep +:+ join sep rest
  end.

(** Truthiness of a string: [bool(s)]. *)
Definition truthy (s : string) : bool :=
  match s with "" => false | _ => true end.

(** Every character of [s] satisfies [p]. *)
Fixpoint all_chars (p : ascii → bool) (s : string) : bool :=
  match s with
  | "" => true
  | String c t => p c && all_chars p t
  end.

(** *** [repr(s)]

    The text is put between single quotes, or between double quotes when it
    holds a single quote and no double one.  The quote in use and the
    backslash get a backslash in front; tab, line feed and carriage return
    are written with their letters and the other control characters of
    ASCII with two hexadecimal digits.  Every other character stands for
    itself, which is what Python does for the printable ones. *)
Definition SQ : ascii := "039"%char.
Definition DQ : ascii := "034"%char.
Definition BS : ascii := "092"%char.

Definition hex_digit (n : N) : ascii :=
  default "0"%char (list_ascii_of_string "0123456789abcdef" !! N.to_nat n).

Definition quote_for (s : string) : ascii :=
  if contains (String SQ "") s && negb (contains (String DQ "") s) then DQ else SQ.

Definition escape (quote c : ascii) : string :=
  let n := N_of_ascii c in
  if bool_decide (c = quote) || bool_decide (c = BS) then String BS (String c "")
  else if (n =? 9)%N then String BS "t"
  else if (n =? 10)%N then String BS "n"
  else if (n =? 13)%N then String BS "r"
  else if ((n <? 32) || (n =? 127))%N
  then String BS (String "x" (String (hex_digit (n / 16)) (String (hex_digit (n mod 16)) "")))
  else String c "".

Fixpoint escape_all (quote : ascii) (s : string) : string :=
  match s with
  | "" => ""
  | String c t => escape quote c +:+ escape_all quote t
  end.

Definition repr (s : string) : string :=
  let quote := quote_for s in
  String quote (escape_all quote s +:+ String quote "").

(** [text] mentions [token] when a segment of it spells [token] up to the
    case of its letters. *)
Definition mentions_ci (token text : string) : Prop :=
  ∃ pre mid post, text = pre +:+ mid +:+ post ∧ lower mid = lower token.

End Text.

(** ** Exceptions and effects *)
Module Py.

(** An exception: its class name and [str(e)]. *)
Record Exc := mkExc { exc_class : string; exc_str : string }.

#[global] Instance Exc_eq_dec : EqDecision Exc.
Proof. solve_decision. Defined.

Inductive res (A : Type) :=
| Ok (a : A)
| Raise (e : Exc).
Arguments Ok {A} a.
Arguments Raise {A} e.

(** A computation over events [E]: what it did, and how it ended. *)
Definition M (E A : Type) : Type := list E * res A.

Definition ret {E A} (a : A) : M E A := ([], Ok a).
Definition raise {E A} (e : Exc) : M E A := ([], Raise e).
Definition tell {E} (ev : E) : M E () := ([ev], Ok ()).
Definition lift {E A} (r : res A) : M E A := ([], r).

Definition bind {E A B} (f : A → M E B) (m : M E A) : M E B :=
  match m with
  | (ev, Ok a) => let '(ev', r) := f a in (ev ++ ev', r)
  | (ev, Raise e) => (ev, Raise e)
  end.

(** [try: body  except Exception as e: handler(e)] *)
Definition try_except {E A} (body : M E A) (handler : Exc → M E A) : M E A :=
  match body with
  | (ev, Ok a) => (ev, Ok a)
  | (ev, Raise e) => let '(ev', r) := handler e in (ev ++ ev', r)
  end.

#[global] Instance M_ret {E} : MRet (M E) := @ret E.
#[global] Instance M_bind {E} : MBind (M E) := @bind E.

Definition events {E A} (m : M E A) : list E := fst m.
Definition result {E A} (m : M E A) : res A := snd m.

(** The value a computation returned, if it returned. *)
Definition result_value {E A} (m : M E A) : option A :=
  match snd m with
  | Ok a => Some a
  | Raise _ => None
  end.

(** [seq[-1]] and [seq[0]] raise [IndexError] on an empty sequence. *)
Definition index_last {E A} (l : list A) : M E A :=
  match last l with
  | Some a => ret a
  | None => raise (mkExc "IndexError" "list index out of range")
  end.

Definition index_first {E A} (l : list A) : M E A :=
  match l with
  | a :: _ => ret a
  | [] => raise (mkExc "IndexError" "list index out of range")
  end.

End Py.

(** ** workflow/agentic_workflow_with_mcp_websearch.py *)
Module Workflow.
Import Text Py.

(** [HumanMessage(content=...)]; every message of the workflow is one. *)
Record Message := HumanMessage { content : string }.

(** [AgentState]: the [messages] channel. *)
Abbreviation AgentState := (list Message).

(** A node returns [{"messages": [...]}], an update of the channel. *)
Abbreviation Update := (list Message).

(** The [add_messages] reducer: messages created without an id receive a
    fresh one, so an update is always appended. *)
Definition add_messages (left : AgentState) (right : Update) : AgentState :=
  left ++ right.

Inductive Node := START | Assistant | Retriever | Generator | Rewriter | WebSearch | END.

(** The return type of [_grade_documents]. *)
Inductive Decision := generator | rewriter.

(** What a run does: it enters a node (which prints its banner), calls
    the language model, invokes a tool, and takes a grading decision. *)
Inductive Event :=
| Visit (n : Node)
| LLMCall (prompt : string)
| ToolCall (name query : string)
| Grade (d : Decision).

#[global] Instance Node_eq_dec : EqDecision Node.
Proof. solve_decision. Defined.
#[global] Instance Decision_eq_dec : EqDecision Decision.
Proof. solve_decision. Defined.
#[global] Instance Message_eq_dec : EqDecision Message.
Proof. solve_decision. Defined.
#[global] Instance Event_eq_dec : EqDecision Event.
Proof. solve_decision. Defined.

(** An MCP tool: its name and what [ainvoke({"query": q})] answers. *)
Record Tool := mkTool { name : string; ainvoke : string → res string }.

(** Prompt templates, with their placeholders filled in. *)
Definition assistant_prompt (question : string) : string :=
  "You are a helpful assistant. Answer the user directly." +:+ NL +:+ NL +:+
  "Question: " +:+ question +:+ NL +:+ "Answer:".

Definition grader_prompt (question docs : string) : string :=
  "You are a grader. Question: " +:+ question +:+ NL +:+ "Docs: " +:+ docs +:+ NL +:+ NL +:+
  "            Are docs relevant to the question? Answer yes or no.".

Definition rewrite_prompt (question : string) : string :=
  "Rewrite this user query to make it more clear and specific for a search engine. " +:+
  "Do NOT answer the query. Only rewrite it." +:+ NL +:+ NL +:+
  "Query: " +:+ question +:+ NL +:+ "Rewritten Query:".

(** [PROMPT_REGISTRY[PromptType.PRODUCT_BOT].template], already stripped. *)
Definition product_bot_prompt (context question : string) : string :=
  "You are an expert EcommerceBot specialized in product recommendations and handling customer queries." +:+ NL +:+
  "        Analyze the provided product titles, ratings, and reviews to provide accurate, helpful responses." +:+ NL +:+
  "        Stay relevant to the context, and keep your answers concise and informative." +:+ NL +:+ NL +:+
  "        CONTEXT:" +:+ NL +:+
  "        " +:+ context +:+ NL +:+ NL +:+
  "        QUESTION: " +:+ question +:+ NL +:+ NL +:+
  "        YOUR ANSWER:".

Definition keywords : list string := ["price"; "review"; "product"].

Section AgenticRAG.

(** [self.llm] behind [prompt | self.llm | StrOutputParser()]: the reply to a
    formatted prompt, or the exception of the call. *)
Variable llm : string → res string.

(** [self.mcp_tools] after [async_init]. *)
Variable mcp_tools : list Tool.

Definition chain_invoke (prompt : string) : M Event string :=
  tell (LLMCall prompt);; lift (llm prompt).

(** [next(t for t in self.mcp_tools if t.name == wanted)] in a node; an
    exhausted generator raises [StopIteration].  It leaves a coroutine node
    as [RuntimeError("coroutine raised StopIteration")]; a plain node is run
    by [ainvoke] in an executor, whose wrapper raises a [RuntimeError]
    without message in its place. *)
Definition find_tool (wanted : string) (in_coroutine : bool) : M Event Tool :=
  match List.find (λ t, bool_decide (name t = wanted)) mcp_tools with
  | Some t => ret t
  | None =>
      if in_coroutine
      then raise (mkExc "RuntimeError" "coroutine raised StopIteration")
      else raise (mkExc "RuntimeError" "")
  end.

Definition tool_ainvoke (t : Tool) (query : string) : M Event string :=
  tell (ToolCall (name t) query);; lift (ainvoke t query).

Definition last_content (state : AgentState) : M Event string :=
  m ← index_last state; ret (content m).

Definition first_content (state : AgentState) : M Event string :=
  m ← index_first state; ret (content m).

(** *** Nodes *)

Definition _ai_assistant (state : AgentState) : M Event Update :=
  last_message ← last_content state;
  if existsb (λ word, contains word (lower last_message)) keywords
  then ret [HumanMessage "TOOL: retriever"]
  else
    response ← chain_invoke (assistant_prompt last_message);
    ret [HumanMessage response].

Definition _vector_retriever (state : AgentState) : M Event Update :=
  query ← last_content state;
  tool ← find_tool "get_product_info" true;
  result ← tool_ainvoke tool query;
  let context := if truthy result then result else "No data" in
  ret [HumanMessage context].

Definition _web_search (state : AgentState) : M Event Update :=
  query ← last_content state;
  tool ← find_tool "web_search" false;
  result ← tool_ainvoke tool query;
  let context := if truthy result then result else "No data from web" in
  ret [HumanMessage context].

Definition _grade_documents (state : AgentState) : M Event Decision :=
  question ← first_content state;
  docs ← last_content state;
  score ← chain_invoke (grader_prompt question docs);
  ret (if contains "yes" (lower score) then generator else rewriter).

Definition _generate (state : AgentState) : M Event Update :=
  question ← first_content state;
  docs ← last_content state;
  response ← chain_invoke (product_bot_prompt docs question);
  ret [HumanMessage response].

Definition _rewrite (state : AgentState) : M Event Update :=
  question ← first_content state;
  new_q ← chain_invoke (rewrite_prompt question);
  ret [HumanMessage (strip new_q)].

(** *** [_build_workflow] *)

(** [add_node]: the body of each node; [START] and [END] have none. *)
Definition node_body (n : Node) : option (AgentState → M Event Update) :=
  match n with
  | Assistant => Some _ai_assistant
  | Retriever => Some _vector_retriever
  | Generator => Some _generate
  | Rewriter => Some _rewrite
  | WebSearch => Some _web_search
  | START | END => None
  end.

(** The routing function of the conditional edge leaving [Assistant]. *)
Definition assistant_route (state : AgentState) : M Event Node :=
  c ← last_content state;
  ret (if contains "TOOL" c then Retriever else END).

(** The mapping [{"generator": "Generator", "rewriter": "Rewriter"}]. *)
Definition grade_target (d : Decision) : Node :=
  match d with
  | generator => Generator
  | rewriter => Rewriter
  end.

(** [add_edge] and [add_conditional_edges]: the node that follows [n] in
    state [state]. *)
Definition route (n : Node) (state : AgentState) : M Event Node :=
  match n with
  | START => ret Assistant
  | Assistant => assistant_route state
  | Retriever => d ← _grade_documents state; tell (Grade d);; ret (grade_target d)
  | Generator => ret END
  | Rewriter => ret WebSearch
  | WebSearch => ret Generator
  | END => ret END
  end.

(** Every edge the builder declares, both branches of a conditional edge
    included. *)
Definition transitions : list (Node * Node) :=
  [ (START, Assistant);
    (Assistant, Retriever); (Assistant, END);
    (Retriever, Generator); (Retriever, Rewriter);
    (Generator, END);
    (Rewriter, WebSearch);
    (WebSearch, Generator) ].

(** *** The compiled graph *)

(** LangGraph's default bound on the number of steps of one invocation. *)
Definition recursion_limit : nat := 25.

(** What one invocation leaves behind: the events, the state reached (which
    is what the checkpointer keeps), and how it ended. *)
Record Run := mkRun {
  run_events : list Event;
  run_state : AgentState;
  run_outcome : res ()
}.

(** One step: the body of the node runs, its update is merged into the
    state by the reducer, and the routing function of the outgoing edge
    reads the merged state.  The step is one task: an exception of the body
    or of the routing function discards its update. *)
Definition superstep (n : Node) (state : AgentState) : M Event (Node * AgentState) :=
  state' ← match node_body n with
           | Some body => tell (Visit n);; upd ← body state; ret (add_messages state upd)
           | None => ret state
           end;
  n' ← route n state';
  ret (n', state').

Fixpoint pregel (fuel : nat) (n : Node) (state : AgentState) : Run :=
  match n with
  | END => mkRun [] state (Ok ())
  | _ =>
    match fuel with
    | 0 => mkRun [] state (Raise (mkExc "GraphRecursionError" "Recursion limit reached"))
    | S fuel' =>
      match superstep n state with
      | (ev, Raise e) => mkRun ev state (Raise e)
      | (ev, Ok (n', state')) =>
        let r := pregel fuel' n' state' in
        mkRun (ev ++ run_events r) (run_state r) (run_outcome r)
      end
    end
  end.

(** The configurations an invocation passes through. *)
Inductive reachable (c0 : Node * AgentState) : Node * AgentState → Prop :=
| reach_start : reachable c0 c0
| reach_step n state ev c' :
    reachable c0 (n, state) → n ≠ END →
    superstep n state = (ev, Ok c') → reachable c0 c'.

(** [self.app.ainvoke({"messages": [...]}, config)] with the [MemorySaver]
    checkpointer: the input is merged into the state saved for the thread,
    the graph runs from [START] (which is not counted as a step), and the
    state reached is saved for the thread. *)
Definition app_ainvoke (checkpoints : gmap string AgentState)
    (input : Update) (thread_id : string) : gmap string AgentState * Run :=
  let saved := default [] (checkpoints !! thread_id) in
  let r := pregel (S recursion_limit) START (add_messages saved input) in
  (<[thread_id := run_state r]> checkpoints, r).

(** [run(query, thread_id)]: the events of the invocation, the checkpoints
    after it and the answer (the content of the last message). *)
Definition run (checkpoints : gmap string AgentState) (query thread_id : string)
  : gmap string AgentState * list Event * res string :=
  let '(checkpoints', r) := app_ainvoke checkpoints [HumanMessage query] thread_id in
  (checkpoints', run_events r,
   match run_outcome r with
   | Raise e => Raise e
   | Ok _ => result (last_content (run_state r))
   end).

End AgenticRAG.

Definition default_thread : string := "default_thread".

(** The nodes an invocation entered, in order. *)
Definition visited (evs : list Event) : list Node :=
  omap (λ e, match e with Visit n => Some n | _ => None end) evs.

(** The tool invocations of a run, in order. *)
Definition tool_calls (evs : list Event) : list (string * string) :=
  omap (λ e, match e with ToolCall n q => Some (n, q) | _ => None end) evs.

(** The decisions the grader took during a run, in order. *)
Definition grades (evs : list Event) : list Decision :=
  omap (λ e, match e with Grade d => Some d | _ => None end) evs.

(** A segment of a run: the grader is not consulted, the nodes visited
    start with [n] and follow [n :: tail] as far as the run gets, to its
    end when no node raises. *)
Definition straight (n : Node) (tail : list Node) (r : Run) : Prop :=
  grades (run_events r) = []
  ∧ [n] `prefix_of` visited (run_events r)
  ∧ visited (run_events r) `prefix_of` n :: tail
  ∧ (run_outcome r = Ok () → visited (run_events r) = n :: tail).

(** The state an invocation for [query] on thread [thread_id] starts from. *)
Definition initial_state (checkpoints : gmap string AgentState)
    (query thread_id : string) : AgentState :=
  add_messages (default [] (checkpoints !! thread_id)) [HumanMessage query].

(** The reading of the state invariant in which the first message is the
    query of the current invocation. *)
Definition first_message_is_query (llm : string → res string) (mcp_tools : list Tool)
    (checkpoints : gmap string AgentState) (query thread_id : string) : Prop :=
  ∀ n state,
    reachable llm mcp_tools (START, initial_state checkpoints query thread_id) (n, state) →
    head state = Some (HumanMessage query).

(** Concrete services for the examples: a tool server that answers every
    query, two language models with a fixed reply, and one that answers
    each of the four prompts in its own way. *)
Definition echo_tools : list Tool :=
  [ mkTool "get_product_info" (λ q, Ok ("Title: N/A" +:+ NL +:+ "Reviews: " +:+ q));
    mkTool "web_search" (λ q, Ok ("web: " +:+ q)) ].
Definition llm_yes : string → res string := λ _, Ok "Yes.".
Definition llm_no : string → res string := λ _, Ok "No.".
Definition llm_tool : string → res string := λ prompt,
  if startswith "You are a helpful assistant." prompt
  then Ok "TOOL is an American rock band."
  else if startswith "You are a grader." prompt then Ok "no"
  else if startswith "Rewrite this user query" prompt then Ok " Lateralus album artist "
  else Ok "I could not find that product.".

(** The two tools of [echo_tools]. *)
Definition echo_retriever : Tool :=
  mkTool "get_product_info" (λ q, Ok ("Title: N/A" +:+ NL +:+ "Reviews: " +:+ q)).
Definition echo_web : Tool := mkTool "web_search" (λ q, Ok ("web: " +:+ q)).

(** A web search tool whose call fails. *)
Definition failing_web : Tool :=
  mkTool "web_search" (λ _, Raise (mkExc "ToolException" "web search failed")).

(** The rewrite branch in the words of the specification: a run in which
    the grader decides [rewriter] goes through Rewriter, WebSearch and
    Generator and ends at [END]. *)
Definition rewrite_branch_traversed (r : Run) : Prop :=
  rewriter ∈ grades (run_events r) →
  visited (run_events r) = [Assistant; Retriever; Rewriter; WebSearch; Generator]
  ∧ run_outcome r = Ok ().

(** A path of one or more declared edges. *)
Inductive path : Node → Node → Prop :=
| path_edge a b : (a, b) ∈ transitions → path a b
| path_step a b c : (a, b) ∈ transitions → path b c → path a c.

(** Distance to [END] along the longest way. *)
Definition rank (n : Node) : nat :=
  match n with
  | START => 6
  | Assistant => 5
  | Retriever => 4
  | Rewriter => 3
  | WebSearch => 2
  | Generator => 1
  | END => 0
  end.

End Workflow.

(** ** mcp_servers/product_search_server.py *)
Module Server.
Import Text Py.

(** A retrieved document.  The values of the metadata are taken in the
    form in which an f-string renders them; [metadata] may be [None]. *)
Record Document := mkDocument {
  page_content : string;
  metadata : option (gmap string string)
}.

Inductive Event :=
| Print (text : string)
| PrintExc.

Definition sentinel : string := "No local results found.".

(** [meta.get(key, 'N/A')] *)
Definition get_or_na (meta : gmap string string) (key : string) : string :=
  default "N/A" (meta !! key).

(** One chunk of [format_docs]. *)
Definition format_doc (d : Document) : string :=
  let meta := default ∅ (metadata d) in
  "Title: " +:+ get_or_na meta "product_title" +:+ NL +:+
  "Price: " +:+ get_or_na meta "price" +:+ NL +:+
  "Rating: " +:+ get_or_na meta "rating" +:+ NL +:+
  "Reviews:" +:+ NL +:+ strip (page_content d).

Definition format_docs (docs : list Document) : string :=
  match docs with
  | [] => ""
  | _ => join (NL +:+ NL +:+ "---" +:+ NL +:+ NL) (format_doc <$> docs)
  end.

Section Tools.

(** [retriever.invoke] and [duckduckgo.run]. *)
Variable retriever_invoke : string → res (list Document).
Variable duckduckgo_run : string → res string.

Definition get_product_info (query : string) : M Event string :=
  try_except
    (tell (Print ("Server: Starting retrieval for query: " +:+ query));;
     docs ← lift (retriever_invoke query);
     tell (Print ("Server: Retrieved " +:+ pretty (length docs) +:+ " documents"));;
     let context := format_docs docs in
     if negb (truthy (strip context)) then
       tell (Print "Server: No context found, returning 'No local results found.'");;
       mret sentinel
     else
       tell (Print ("Server: Returning context of length "
                    +:+ pretty (len context)));;
       mret context)
    (λ e,
       tell (Print ("Server: Error in get_product_info: " +:+ exc_str e));;
       tell PrintExc;;
       mret ("Error retrieving product info: " +:+ exc_str e)).

Definition web_search (query : string) : M Event string :=
  try_except
    (lift (duckduckgo_run query))
    (λ e, mret ("Error during web search: " +:+ exc_str e)).

End Tools.

End Server.

(** ** mcp_servers/client.py *)
Module Client.
Import Text Py.

(** A tool as the client sees it: [ainvoke] answers, raises, or raises
    [TimeoutError] when [asyncio.wait_for] gives up. *)
Record Tool := mkTool { name : string; ainvoke : string → res string }.

(** The arguments of a call of [print], kept apart, and the tool calls. *)
Inductive Arg := Str (s : string) | Names (l : list string) | Error (e : Exc).
Inductive Event :=
| Print (args : list Arg)
| PrintExc
| Invoke (tool query : string).

#[global] Instance Arg_eq_dec : EqDecision Arg.
Proof. solve_decision. Defined.
#[global] Instance Event_eq_dec : EqDecision Event.
Proof. solve_decision. Defined.

(** [next(t for t in tools if t.name == wanted)] inside the [try] block of
    [main]: an exhausted generator raises [StopIteration], whose [str] is
    empty, and the handler of [main] catches it as such. *)
Definition pick (tools : list Tool) (wanted : string) : M Event Tool :=
  match List.find (λ t, bool_decide (name t = wanted)) tools with
  | Some t => mret t
  | None => raise (mkExc "StopIteration" "")
  end.

Definition tool_ainvoke (t : Tool) (query : string) : M Event string :=
  tell (Invoke (name t) query);; lift (ainvoke t query).

(** [try: body  except asyncio.TimeoutError: handler] *)
Definition except_timeout {A} (body handler : M Event A) : M Event A :=
  match body with
  | (ev, Raise e) =>
      if decide (exc_class e = "TimeoutError")
      then let '(ev', r) := handler in (ev ++ ev', r)
      else (ev, Raise e)
  | done => done
  end.

Definition query : string := "Dell Laptop?".

Section Main.

(** [client.get_tools()] *)
Variable get_tools : res (list Tool).

Definition main : M Event () :=
  try_except
    (tell (Print [Str "Creating MCP client..."]);;
     tell (Print [Str "Connecting to MCP server and discovering tools..."]);;
     tools ← lift get_tools;
     tell (Print [Str "Available tools:"; Names (name <$> tools)]);;
     retriever_tool ← pick tools "get_product_info";
     web_tool ← pick tools "web_search";
     tell (Print [Str ("Querying retriever with: " +:+ query)]);;
     retriever_result ←
       except_timeout
         (retriever_result ← tool_ainvoke retriever_tool query;
          tell (Print [Str (NL +:+ "Retriever Result:" +:+ NL); Str retriever_result]);;
          mret retriever_result)
         (tell (Print [Str "Retriever timed out after 30 seconds"]);;
          mret "Timeout error");
     if negb (truthy (strip retriever_result))
        || contains "No local results found." retriever_result
     then
       tell (Print [Str (NL +:+ " No local results, falling back to web search..." +:+ NL)]);;
       web_result ← tool_ainvoke web_tool query;
       tell (Print [Str ("Web Search Result:" +:+ NL); Str web_result])
     else mret ())
    (λ e,
       tell (Print [Str "Error occurred: "; Error e]);;
       tell PrintExc).

End Main.

(** The queries with which [tool] was invoked. *)
Definition invocations (tool : string) (evs : list Event) : list string :=
  omap (λ e, match e with
             | Invoke t q => if decide (t = tool) then Some q else None
             | _ => None
             end) evs.

(** Every tool invocation of a run, in order: the tool and the query. *)
Definition invoked (evs : list Event) : list (string * string) :=
  omap (λ e, match e with Invoke t q => Some (t, q) | _ => None end) evs.

(** A server whose retriever finds nothing for the query. *)
Definition silent_retriever : Tool := mkTool "get_product_info" (λ _, Ok "").
Definition web_tool : Tool := mkTool "web_search" (λ q, Ok ("Results for " +:+ q)).

(** A retriever tool that does not answer in time. *)
Definition slow_retriever : Tool :=
  mkTool "get_product_info" (λ _, Raise (mkExc "TimeoutError" "")).

(** The condition of the fallback, in the words of the specification: the
    result is empty or all whitespace, or contains the sentinel. *)
Definition no_local_result (retriever_result : string) : Prop :=
  Forall (λ ch, ch ∈ whitespace) (chars retriever_result)
  ∨ ∃ pre post, retriever_result = pre +:+ "No local results found." +:+ post.

(** The second half of the fallback as the specification words it: the
    web search is not invoked for a result that is not empty and does not
    contain the sentinel. *)
Definition nonempty_result_kept (run : list Event) (retriever_result : string) : Prop :=
  retriever_result ≠ ""
  → (¬ ∃ pre post, retriever_result = pre +:+ "No local results found." +:+ post)
  → invocations "web_search" run = [].

(** A retriever tool that answers with a single space. *)
Definition space_retriever : Tool := mkTool "get_product_info" (λ _, Ok " ").

End Client.

(** ** The server behind its callers

    The client and the workflow reach the two tool functions of the server
    through MCP.  When the transport itself does not fail, [ainvoke] of a
    tool gives what the tool function returns. *)
Module Deployment.
Import Py.

Section Served.

Variable retriever_invoke : string → res (list Server.Document).
Variable duckduckgo_run : string → res string.

Definition served_get_product_info (query : string) : res string :=
  result (Server.get_product_info retriever_invoke query).

Definition served_web_search (query : string) : res string :=
  result (Server.web_search duckduckgo_run query).

(** [client.get_tools()] in [main]. *)
Definition client_tools : list Client.Tool :=
  [ Client.mkTool "get_product_info" served_get_product_info;
    Client.mkTool "web_search" served_web_search ].

(** [self.mcp_tools] after [async_init]. *)
Definition workflow_tools : list Workflow.Tool :=
  [ Workflow.mkTool "get_product_info" served_get_product_info;
    Workflow.mkTool "web_search" served_web_search ].

End Served.

End Deployment.

(** ** retriever/retrieval.py *)
Module Retrieval.
Import Text Py.

(** A scalar of the configuration document. *)
Inductive Value := VInt (z : Z) | VStr (s : string).

#[global] Instance Value_eq_dec : EqDecision Value.
Proof. solve_decision. Defined.

(** [search_kwargs] of the MMR retriever; the two ratios are kept as
    numerator and denominator. *)
Record SearchKwargs := mkSearchKwargs {
  k : Value;
  fetch_k : Z;
  lambda_mult : Z * Z;
  score_threshold : Z * Z
}.

Record VectorStore := mkVectorStore {
  collection_name : Value;
  api_endpoint : string;
  token : string;
  namespace : string
}.

(** [ContextualCompressionRetriever(base_compressor=LLMChainFilter,
    base_retriever=vstore.as_retriever(search_type, search_kwargs))] *)
Record CompressionRetriever := mkCompressionRetriever {
  base_store : VectorStore;
  search_type : string;
  search_kwargs : SearchKwargs
}.

(** The attributes of a [Retriever] object; the configuration is a mapping
    of sections to mappings. *)
Record Retriever := mkRetriever {
  config : gmap string (gmap string Value);
  vstore : option VectorStore;
  retriever_instance : option CompressionRetriever;
  db_api_endpoint : string;
  db_application_token : string;
  db_keyspace : string
}.

Inductive Event := Print (text : string).

(** [d[key]]; the text of a [KeyError] is the [repr] of the key. *)
Definition getitem {V} (d : gmap string V) (key : string) : res V :=
  match d !! key with
  | Some v => Ok v
  | None => Raise (mkExc "KeyError" (repr key))
  end.

Section Loaders.

(** [self.model_loader.load_embeddings()] and [load_llm()], which only
    succeed or raise. *)
Variable load_embeddings : res ().
Variable load_llm : res ().

Definition load_retriever (self : Retriever) : M Event (Retriever * CompressionRetriever) :=
  store ←
    match vstore self with
    | Some store => mret store
    | None =>
        section ← lift (getitem (config self) "astra_db");
        collection_name ← lift (getitem section "collection_name");
        lift load_embeddings;;
        mret (mkVectorStore collection_name (db_api_endpoint self)
                (db_application_token self) (db_keyspace self))
    end;
  match retriever_instance self with
  | Some instance =>
      mret (mkRetriever (config self) (Some store) (Some instance)
              (db_api_endpoint self) (db_application_token self) (db_keyspace self),
            instance)
  | None =>
      top_k ←
        (if bool_decide (is_Some (config self !! "retriever"))
         then section ← lift (getitem (config self) "retriever");
              lift (getitem section "top_k")
         else mret (VInt 3));
      let kwargs := mkSearchKwargs top_k 20 (7, 10)%Z (6, 10)%Z in
      tell (Print "Retriever loaded successfully.");;
      lift load_llm;;
      let instance := mkCompressionRetriever store "mmr" kwargs in
      mret (mkRetriever (config self) (Some store) (Some instance)
              (db_api_endpoint self) (db_application_token self) (db_keyspace self),
            instance)
  end.

End Loaders.

(** The value of [top_k] that [load_retriever] reads from a configuration. *)
Definition top_k_of (cfg : gmap string (gmap string Value)) : res Value :=
  match cfg !! "retriever" with
  | None => Ok (VInt 3)
  | Some section => getitem section "top_k"
  end.

(** A freshly constructed [Retriever] with configuration [cfg]. *)
Definition fresh (cfg : gmap string (gmap string Value)) : Retriever :=
  mkRetriever cfg None None "https://db.example" "token" "keyspace".

(** Three configuration documents: without a [retriever] section, with a
    section that sets [top_k], and with a section that does not. *)
Definition cfg_no_section : gmap string (gmap string Value) :=
  {[ "astra_db" := {[ "collection_name" := VStr "products" ]} ]}.
Definition cfg_top_k : gmap string (gmap string Value) :=
  <[ "retriever" := {[ "top_k" := VInt 10 ]} ]> cfg_no_section.
Definition cfg_no_top_k : gmap string (gmap string Value) :=
  <[ "retriever" := {[ "fetch_k" := VInt 20 ]} ]> cfg_no_section.

End Retrieval.

(** ** evaluation/ragas_eval.py *)
Module RagasEval.
Import Py.

Record SingleTurnSample := mkSample {
  user_input : string;
  response : string;
  retrieved_contexts : list string
}.

Section Metrics.

(** The type of a score. *)
Variable Score : Type.

(** What a caller receives: a score, or the exception object. *)
Inductive Returned := Number (s : Score) | Exception (e : Exc).

(** [model_loader.load_llm()], [model_loader.load_embeddings()], the two
    scorers of the evaluation library, and [asyncio.run], which refuses to
    start inside a running event loop. *)
Variable load_llm : res ().
Variable load_embeddings : res ().
Variable context_precision_ascore : SingleTurnSample → res Score.
Variable response_relevancy_ascore : SingleTurnSample → res Score.
Variable asyncio_run : res ().

Definition evaluate_context_precision (query response : string)
    (retrieved_context : list string) : M () Returned :=
  try_except
    (let sample := mkSample query response retrieved_context in
     lift asyncio_run;;
     lift load_llm;;
     result ← lift (context_precision_ascore sample);
     mret (Number result))
    (λ e, mret (Exception e)).

Definition evaluate_response_relevancy (query response : string)
    (retrieved_context : list string) : M () Returned :=
  try_except
    (let sample := mkSample query response retrieved_context in
     lift asyncio_run;;
     lift load_llm;;
     lift load_embeddings;;
     result ← lift (response_relevancy_ascore sample);
     mret (Number result))
    (λ e, mret (Exception e)).

End Metrics.
Arguments Number {Score} s.
Arguments Exception {Score} e.

End RagasEval.

(** ** The [csv] writer of the standard library, excel dialect *)
Module Csv.
Import Text.

Definition COMMA : ascii := ",".
Definition QUOTE : ascii := "034".
Definition LF : ascii := "010".
Definition CRc : ascii := "013".
Definition CRLF : string := String CRc (String LF "").

(** The characters that force a field into quotes under [QUOTE_MINIMAL]:
    the delimiter, the quote character and those of the line terminator. *)
Definition special (c : ascii) : bool :=
  bool_decide (c = COMMA) || bool_decide (c = QUOTE)
  || bool_decide (c = CRc) || bool_decide (c = LF).

Fixpoint needs_quotes (s : string) : bool :=
  match s with
  | "" => false
  | String c t => special c || needs_quotes t
  end.

(** [doublequote]: a quote character inside a field is written twice. *)
Fixpoint double_quotes (s : string) : string :=
  match s with
  | "" => ""
  | String c t =>
      if bool_decide (c = QUOTE)
      then String QUOTE (String QUOTE (double_quotes t))
      else String c (double_quotes t)
  end.

Definition write_field (s : string) : string :=
  if needs_quotes s
  then String QUOTE (double_quotes s +:+ String QUOTE "")
  else s.

(** [writer.writerow(row)]; a record that would be empty although it has a
    field is written as a pair of quotes. *)
Definition writerow (row : list string) : string :=
  match row with
  | [""] => String QUOTE (String QUOTE "") +:+ CRLF
  | _ => join (String COMMA "") (write_field <$> row) +:+ CRLF
  end.

(** [writer.writerows(rows)] *)
Fixpoint writerows (rows : list (list string)) : string :=
  match rows with
  | [] => ""
  | row :: rest => writerow row +:+ writerows rest
  end.

End Csv.

(** ** [pandas.read_csv] with its default options *)
Module Pandas.
Import Text Py Csv.

(** *** The tokenizer

    The states of the C tokenizer that the default options can reach
    (no escape character, no comment character, the comma as delimiter,
    blank lines skipped). *)
Inductive State :=
| START_RECORD | START_FIELD | IN_FIELD | IN_QUOTED_FIELD
| QUOTE_IN_QUOTED_FIELD | EAT_CRNL | EAT_CRNL_NOP | WHITESPACE_LINE.

Record Parser := mkParser {
  state : State;
  field : string;               (* the characters of the field being read *)
  record : list string;         (* the fields of the line being read *)
  lines : list (list string)    (* the lines read so far *)
}.

Definition set_state (st : State) (p : Parser) : Parser :=
  mkParser st (field p) (record p) (lines p).

(** [PUSH_CHAR], [END_FIELD] and [END_LINE] *)
Definition push (c : ascii) (p : Parser) : Parser :=
  mkParser (state p) (field p +:+ String c "") (record p) (lines p).

Definition end_field (p : Parser) : Parser :=
  mkParser (state p) "" (record p ++ [field p]) (lines p).

Definition end_line (p : Parser) : Parser :=
  mkParser START_RECORD (field p) [] (lines p ++ [record p]).

(** [IS_WHITESPACE]: a blank or a tab. *)
Definition blank (c : ascii) : bool :=
  bool_decide (c = " "%char) || bool_decide (c = "009"%char).

Definition in_field (p : Parser) (c : ascii) : Parser :=
  if bool_decide (c = LF) then end_line (end_field p)
  else if bool_decide (c = CRc) then set_state EAT_CRNL (end_field p)
  else if bool_decide (c = COMMA) then set_state START_FIELD (end_field p)
  else set_state IN_FIELD (push c p).

Definition start_field (p : Parser) (c : ascii) : Parser :=
  if bool_decide (c = LF) then end_line (end_field p)
  else if bool_decide (c = CRc) then set_state EAT_CRNL (end_field p)
  else if bool_decide (c = QUOTE) then set_state IN_QUOTED_FIELD p
  else if bool_decide (c = COMMA) then set_state START_FIELD (end_field p)
  else set_state IN_FIELD (push c p).

(** A line that starts with blanks is held back until it is known whether
    anything else is on it. *)
Definition start_record (p : Parser) (c : ascii) : Parser :=
  if bool_decide (c = LF) then set_state START_RECORD p
  else if bool_decide (c = CRc) then set_state EAT_CRNL_NOP p
  else if blank c then set_state WHITESPACE_LINE (push c p)
  else start_field p c.

(** A blank line is dropped; on anything else the tokenizer goes back to
    the start of the line, where the blanks open an unquoted field. *)
Definition whitespace_line (p : Parser) (c : ascii) : Parser :=
  if bool_decide (c = LF)
  then mkParser START_RECORD "" (record p) (lines p)
  else if bool_decide (c = CRc)
  then mkParser EAT_CRNL_NOP "" (record p) (lines p)
  else if blank c then push c p
  else in_field p c.

Definition step (p : Parser) (c : ascii) : Parser :=
  match state p with
  | START_RECORD => start_record p c
  | START_FIELD => start_field p c
  | IN_FIELD => in_field p c
  | WHITESPACE_LINE => whitespace_line p c
  | IN_QUOTED_FIELD =>
      if bool_decide (c = QUOTE) then set_state QUOTE_IN_QUOTED_FIELD p
      else push c p
  | QUOTE_IN_QUOTED_FIELD =>
      if bool_decide (c = QUOTE) then set_state IN_QUOTED_FIELD (push c p)
      else if bool_decide (c = COMMA) then set_state START_FIELD (end_field p)
      else if bool_decide (c = LF) then end_line (end_field p)
      else if bool_decide (c = CRc) then set_state EAT_CRNL (end_field p)
      else set_state IN_FIELD (push c p)
  | EAT_CRNL =>
      if bool_decide (c = LF) then end_line p
      else if bool_decide (c = COMMA)
      then set_state START_FIELD (end_field (end_line p))
      else start_record (end_line p) c
  | EAT_CRNL_NOP =>
      if bool_decide (c = LF) || bool_decide (c = COMMA)
      then set_state START_RECORD p
      else start_record (set_state START_RECORD p) c
  end.

Fixpoint feed (p : Parser) (s : string) : Parser :=
  match s with
  | "" => p
  | String c t => feed (step p c) t
  end.

(** The end of the input closes the line being read; it may not come
    inside a quoted field. *)
Definition handle_eof (p : Parser) : res (list (list string)) :=
  match state p with
  | START_RECORD | WHITESPACE_LINE | EAT_CRNL_NOP => Ok (lines p)
  | IN_QUOTED_FIELD =>
      Raise (mkExc "ParserError" "Error tokenizing data. C error: EOF inside string")
  | IN_FIELD | START_FIELD | QUOTE_IN_QUOTED_FIELD =>
      Ok (lines (end_line (end_field p)))
  | EAT_CRNL => Ok (lines (end_line p))
  end.

Definition tokenize (text : string) : res (list (list string)) :=
  handle_eof (feed (mkParser START_RECORD "" [] []) text).

(** *** Values *)

(** The value of a cell: a string, the missing value, a number (kept as
    the text it was parsed from), or a boolean. *)
Inductive Cell := Text (s : string) | NaN | Num (literal : string) | Bool (b : bool).

#[global] Instance Cell_eq_dec : EqDecision Cell.
Proof. solve_decision. Defined.

Inductive Dtype := numeric_dtype | bool_dtype | object_dtype.

(** The default markers of a missing value. *)
Definition na_values : list string :=
  [ ""; "#N/A"; "#N/A N/A"; "#NA"; "-1.#IND"; "-1.#QNAN"; "-NaN"; "-nan";
    "1.#IND"; "1.#QNAN"; "<NA>"; "N/A"; "NA"; "NULL"; "NaN"; "None";
    "n/a"; "nan"; "null" ].

Definition is_na (s : string) : bool := bool_decide (s ∈ na_values).

(** The texts read as booleans: the default true and false values, and
    beyond them whatever [to_boolean] of the tokenizer takes, which compares
    with TRUE and FALSE without regard to the case of the letters. *)
Definition true_values : list string := ["True"; "TRUE"; "true"].
Definition false_values : list string := ["False"; "FALSE"; "false"].

Definition reads_true (s : string) : bool :=
  bool_decide (s ∈ true_values) || bool_decide (lower s = "true").
Definition reads_false (s : string) : bool :=
  bool_decide (s ∈ false_values) || bool_decide (lower s = "false").

Definition is_bool (s : string) : bool := reads_true s || reads_false s.

(** A recogniser of plain decimal literals: an optional sign, digits, and
    an optional fraction.  It stands in for the numeric parser in the
    examples. *)
Definition is_digit (c : ascii) : bool :=
  let n := N_of_ascii c in ((48 <=? n) && (n <=? 57))%N.

Fixpoint digits_then_fraction (seen_digit seen_point : bool) (s : string) : bool :=
  match s with
  | "" => seen_digit
  | String c t =>
      if is_digit c then digits_then_fraction true seen_point t
      else if bool_decide (c = "."%char) && negb seen_point
      then digits_then_fraction seen_digit true t
      else false
  end.

Definition decimal_literal (s : string) : bool :=
  match s with
  | String "-" t | String "+" t => digits_then_fraction false false t
  | _ => digits_then_fraction false false s
  end.

Section ReadCsv.

(** The texts that the parser reads as a number. *)
Variable numeric : string → bool.

(** The type of a column: numbers when every present value is one,
    booleans when every present value is one, strings otherwise. *)
Definition infer (raw : list string) : Dtype :=
  let present := List.filter (λ s, negb (is_na s)) raw in
  if forallb numeric present then numeric_dtype
  else if forallb is_bool present then bool_dtype
  else object_dtype.

Definition convert (d : Dtype) (s : string) : Cell :=
  if is_na s then NaN
  else match d with
       | numeric_dtype => Num s
       | bool_dtype => Bool (reads_true s)
       | object_dtype => Text s
       end.

(** The texts that come back from the parser as the string they are,
    whatever else is in their column. *)
Definition kept_as_text (s : string) : Prop :=
  is_na s = false ∧ numeric s = false ∧ is_bool s = false.


(** *** The frame *)

Record DataFrame := mkDataFrame {
  columns : list string;
  rows : list (list Cell)
}.

(** Column [j] of the data lines. *)
Definition column (j : nat) (data : list (list string)) : list string :=
  (λ r, default "" (r !! j)) <$> data.

(** A line with fewer fields than the one before it is filled up with
    empty fields; a line with more fields is an error, except for the first
    data line, whose surplus fields in front become the index. *)
Fixpoint pad_lines (width : nat) (data : list (list string))
  : res (list (list string)) :=
  match data with
  | [] => Ok []
  | r :: rest =>
      if decide (width < length r)
      then Raise (mkExc "ParserError" "Error tokenizing data. C error: Expected fewer fields")
      else match pad_lines width rest with
           | Ok rest' => Ok ((r ++ replicate (width - length r) "") :: rest')
           | Raise e => Raise e
           end
  end.

(** The first line names the columns.  The names are taken as written:
    the renaming of empty and repeated names is not modelled. *)
Definition read_csv (text : string) : res DataFrame :=
  match tokenize text with
  | Raise e => Raise e
  | Ok [] => Raise (mkExc "EmptyDataError" "No columns to parse from file")
  | Ok (header :: data) =>
      let width := match data with
                   | [] => length header
                   | first :: _ => length header `max` length first
                   end in
      match pad_lines width data with
      | Raise e => Raise e
      | Ok padded =>
          let leading := width - length header in
          let values := drop leading <$> padded in
          let dtypes := (λ j, infer (column j values)) <$> seq 0 (length header) in
          Ok (mkDataFrame header (zip_with convert dtypes <$> values))
      end
  end.

End ReadCsv.

End Pandas.

(** ** etl/data_scrapper.py: [save_to_csv] *)
Module Scrapper.
Import Text Py Csv.

(** The files below the working directory: path to content. *)
Abbreviation Files := (gmap string string).

Definition header : list string :=
  ["product_id"; "product_title"; "rating"; "total_reviews"; "price"; "top_reviews"].

(** [os.path.isabs], and whether [os.path.dirname] of a relative path is
    non-empty, on POSIX paths. *)
Definition isabs (path : string) : bool := startswith "/" path.
Definition has_dirname (path : string) : bool := contains "/" path.

(** [os.path.join(output_dir, filename)] for a plain file name. *)
Definition path_join (dir filename : string) : string :=
  if bool_decide (dir = "") then filename
  else if startswith "/" (String.rev dir) then dir +:+ filename
  else dir +:+ "/" +:+ filename.

(** [save_to_csv(data, filename)] in a scraper with directory [output_dir]:
    the file is opened for writing with [newline=""], so the text reaches it
    unchanged. *)
Definition save_to_csv (output_dir : string) (files : Files)
    (data : list (list string)) (filename : string) : Files :=
  let path :=
    if isabs filename then filename
    else if has_dirname filename then filename
    else path_join output_dir filename in
  <[path := writerow header +:+ writerows data]> files.

Definition default_output_dir : string := "data".
Definition default_filename : string := "product_reviews.csv".

(** *** The scraper proper

    [platform] is [self.platform], which the constructor has put in lower
    case.  The browser is a parameter: whether Chrome starts, what a search
    page lists, and what a product page shows.  A page is given by the texts of
    the blocks that a CSS selector matches, in document order, each as
    [get_text(separator=" ", strip=True)] returns it.  Lengths are counted
    in characters, as in [Text]; the patterns of the product identifiers
    name ASCII characters only and are matched byte by byte. *)
Abbreviation Soup := (string → list string).

(** A web element: its [text] and its [href] attribute. *)
Record Element := mkElement { el_text : string; el_href : option string }.

(** A search result: its [text], which is taken to be readable, and
    [find_element] by CSS selector, which raises when nothing matches. *)
Record Item := mkItem { item_text : string; find_element : string → res Element }.

Record PlatformConfig := mkPlatformConfig {
  base_url : string;
  search_url : string;        (* the template up to its [{query}] at the end *)
  product_selector : string;
  title_selector : string;
  price_selector : string;
  rating_selector : string;
  reviews_selector : string;
  link_selector : string
}.

Definition platform_configs : gmap string PlatformConfig :=
  {[ "alza" := mkPlatformConfig "https://www.alza.cz"
       "https://www.alza.cz/search.htm?exps=" "div.browsingitem" "a.name" ".price"
       "div.stars" "span.review-count" "a.name";
     "amazon_de" := mkPlatformConfig "https://www.amazon.de"
       "https://www.amazon.de/s?k=" "div[data-component-type='s-search-result']"
       "h2 span" "span.a-price-whole" "span.a-icon-alt" "span.a-size-base" "a";
     "flipkart" := mkPlatformConfig "https://www.flipkart.com"
       "https://www.flipkart.com/search?q=" "div[data-id]" "div.KzDlHZ" "div.Nx9bqj"
       "div.XQDdHH" "span.Wphh3N" "a[href*='/p/']" ]}.

Definition review_selectors_table : gmap string (list string) :=
  {[ "alza" := ["div.review-item"; "div.review-text"; "div.comment"];
     "amazon_de" := ["div[data-hook='review-body']"; "span[data-hook='review-body']";
                     "div.review-text"];
     "flipkart" := ["div._27M-vq"; "div.col.EPCmJX"; "div._6K-7Co"] ]}.

(** [review_selectors.get(self.platform, ["div.review"])] *)
Definition review_selectors (platform : string) : list string :=
  default ["div.review"] (review_selectors_table !! platform).

Inductive Event :=
| Print (text : string)
| OpenBrowser
| Get (url : string)
| Quit.

#[global] Instance Event_eq_dec : EqDecision Event.
Proof. solve_decision. Defined.

(** **** [_extract_reviews_by_platform] *)

(** The inner loop: a text is kept when it is non-empty, new and longer
    than ten characters; the loop is left once [count] reviews are there. *)
Fixpoint scan_blocks (count : Z) (blocks : list string)
    (reviews : list string) (seen : gset string) : list string * gset string :=
  match blocks with
  | [] => (reviews, seen)
  | text :: rest =>
      let '(reviews, seen) :=
        if truthy text && negb (bool_decide (text ∈ seen)) && (10 <? len text)
        then (reviews ++ [text], {[text]} ∪ seen)
        else (reviews, seen) in
      if (count <=? Z.of_nat (length reviews))%Z then (reviews, seen)
      else scan_blocks count rest reviews seen
  end.

(** The outer loop over the selectors. *)
Fixpoint scan_selectors (count : Z) (soup : Soup) (selectors : list string)
    (reviews : list string) (seen : gset string) : list string :=
  match selectors with
  | [] => reviews
  | selector :: rest =>
      let '(reviews, seen) := scan_blocks count (soup selector) reviews seen in
      if (count <=? Z.of_nat (length reviews))%Z then reviews
      else scan_selectors count soup rest reviews seen
  end.

Definition _extract_reviews_by_platform (platform : string) (soup : Soup) (count : Z)
  : list string :=
  scan_selectors count soup (review_selectors platform) [] ∅.

(** What the two loops keep true of [reviews] and [seen]: the reviews are
    exactly the texts seen, and none is there twice. *)
Definition scanning (reviews : list string) (seen : gset string) : Prop :=
  (∀ text, text ∈ seen ↔ text ∈ reviews) ∧ NoDup reviews.

(** **** The regular expressions *)

(** The longest prefix of [s] whose characters satisfy [p], and the rest. *)
Fixpoint span (p : ascii → bool) (s : string) : string * string :=
  match s with
  | "" => ("", "")
  | String c t =>
      if p c then let '(a, b) := span p t in (String c a, b) else ("", s)
  end.

Fixpoint skip (n : nat) (s : string) : string :=
  match n, s with
  | S n', String _ t => skip n' t
  | _, _ => s
  end.

Definition non_slash (c : ascii) : bool := negb (bool_decide (c = "/"%char)).

Definition alnum (c : ascii) : bool :=
  let n := N_of_ascii c in
  (((48 <=? n) && (n <=? 57)) || ((65 <=? n) && (n <=? 90))
   || ((97 <=? n) && (n <=? 122)))%N.

(** Group 1 of [([^/]+)\.htm] inside a run [r] of characters other than
    the slash: the longest non-empty prefix of [r] that [.htm] follows. *)
Fixpoint htm_group (r : string) : option string :=
  match r with
  | "" => None
  | String c t =>
      match htm_group t with
      | Some g => Some (String c g)
      | None => if startswith ".htm" t then Some (String c "") else None
      end
  end.

(** Group 1 of the leftmost match of [/([^/]+)\.htm]. *)
Fixpoint first_htm (s : string) : option string :=
  match s with
  | "" => None
  | String c t =>
      match (if bool_decide (c = "/"%char) then htm_group (span non_slash t).1
             else None) with
      | Some g => Some g
      | None => first_htm t
      end
  end.

(** Group 1 of the leftmost match of [/dp/([^/]+)]. *)
Fixpoint first_dp (s : string) : option string :=
  match s with
  | "" => None
  | String _ t =>
      match (if startswith "/dp/" s
             then match (span non_slash (skip 4 s)).1 with
                  | "" => None
                  | g => Some g
                  end
             else None) with
      | Some g => Some g
      | None => first_dp t
      end
  end.

(** Group 1 of the leftmost match of [/p/(itm[0-9A-Za-z]+)]. *)
Fixpoint first_itm (s : string) : option string :=
  match s with
  | "" => None
  | String _ t =>
      match (if startswith "/p/itm" s
             then match (span alnum (skip 6 s)).1 with
                  | "" => None
                  | g => Some ("itm" +:+ g)
                  end
             else None) with
      | Some g => Some g
      | None => first_itm t
      end
  end.

(** The longest prefix of the characters [l] that satisfy [p], and the
    rest. *)
Fixpoint span_chars (p : string → bool) (l : list string) : list string * list string :=
  match l with
  | [] => ([], [])
  | ch :: t =>
      if p ch then let '(a, b) := span_chars p t in (ch :: a, b) else ([], l)
  end.

Section Digits.

(** The characters that [\d] matches in a [str] pattern: the decimal
    digits of every script, those of ASCII among them. *)
Variable decimal : string → bool.

(** The match of [\d+(,\d+)?] at the start of the characters [l]. *)
Definition count_at (l : list string) : option string :=
  let '(d, rest) := span_chars decimal l in
  match d with
  | [] => None
  | _ =>
      match rest with
      | ch :: rest' =>
          if bool_decide (ch = ",")
          then match (span_chars decimal rest').1 with
               | [] => Some (unchars d)
               | d' => Some (unchars d +:+ "," +:+ unchars d')
               end
          else Some (unchars d)
      | [] => Some (unchars d)
      end
  end.

(** The leftmost match of [\d+(,\d+)?] in the characters [l]. *)
Fixpoint search_chars (l : list string) : option string :=
  match count_at l with
  | Some m => Some m
  | None => match l with
            | [] => None
            | _ :: t => search_chars t
            end
  end.

(** [re.search(r"\d+(,\d+)?", s)] with [group(0)] of the match. *)
Definition search_count (s : string) : option string := search_chars (chars s).

End Digits.

(** The digits of ASCII and the Arabic-Indic digits U+0660 to U+0669, for
    the examples. *)
Definition sample_decimal (ch : string) : bool :=
  match ch with
  | String c "" => let n := N_of_ascii c in ((48 <=? n) && (n <=? 57))%N
  | String c (String d "") =>
      let n := N_of_ascii d in
      bool_decide (N_of_ascii c = 217%N) && ((160 <=? n) && (n <=? 169))%N
  | _ => false
  end.

(** **** [_extract_product_id]: every failure inside, a [href] that is
    [None] included, ends in the placeholder. *)
Definition _extract_product_id (platform : string) (href : option string) : string :=
  match href with
  | None => "N/A"
  | Some href =>
      if bool_decide (platform = "alza") then default "N/A" (first_htm href)
      else if bool_decide (platform = "amazon_de") then default "N/A" (first_dp href)
      else if bool_decide (platform = "flipkart") then default "N/A" (first_itm href)
      else "N/A"
  end.

(** The dictionary that [_extract_product_data] returns. *)
Record ProductData := mkProductData {
  pd_id : string;
  pd_title : string;
  pd_rating : string;
  pd_total_reviews : string;
  pd_price : string;
  pd_link : string
}.

(** [_extract_product_data(item, config)]: the title, the price and the
    link are required, the rating and the review count fall back to the
    placeholder; any failure gives [None]. *)
Definition _extract_product_data (decimal : string → bool) (platform : string)
    (config : PlatformConfig) (item : Item) : M Event (option ProductData) :=
  try_except
    (title_el ← lift (find_element item (title_selector config));
     let title := strip (el_text title_el) in
     price_el ← lift (find_element item (price_selector config));
     let price := strip (el_text price_el) in
     let rating :=
       match find_element item (rating_selector config) with
       | Ok el => strip (el_text el)
       | Raise _ => "N/A"
       end in
     let total_reviews :=
       match find_element item (reviews_selector config) with
       | Ok el => default "N/A" (search_count decimal (strip (el_text el)))
       | Raise _ => "N/A"
       end in
     link_el ← lift (find_element item (link_selector config));
     href ← match el_href link_el with
            | Some href => mret href
            | None => raise (mkExc "AttributeError"
                               "'NoneType' object has no attribute 'startswith'")
            end;
     let product_link :=
       if startswith "http" href then href else base_url config +:+ href in
     let product_id := _extract_product_id platform (Some href) in
     mret (Some (mkProductData product_id title rating total_reviews price product_link)))
    (λ e, tell (Print ("Error extracting product data: " +:+ exc_str e));;
          mret None).

(** [items[:n]] *)
Definition slice_to {A} (n : Z) (l : list A) : list A :=
  if (0 <=? n)%Z then take (Z.to_nat n) l
  else take (length l - Z.to_nat (- n)) l.

(** [query.replace(' ', '+')] *)
Fixpoint plus_for_spaces (s : string) : string :=
  match s with
  | "" => ""
  | String c t =>
      String (if bool_decide (c = " "%char) then "+"%char else c) (plus_for_spaces t)
  end.

Section Browser.

(** The search page of a URL, as the items that the product selector finds
    on it, and the product page of a URL.  Closing pop-ups and quitting the
    browser do not fail.  Starting a browser
    ([Service(ChromeDriverManager().install())] with [webdriver.Chrome])
    may: [chrome] is the start of the browser in which the method itself
    works, [launch i] the start of the browser that [get_top_reviews] opens
    for item [i] of the search.  [decimal] tells the characters that [\d]
    matches. *)
Variable decimal : string → bool.
Variable search : string → string → res (list Item).
Variable load_page : string → res Soup.

Definition get_top_reviews (chrome : res ()) (platform product_url : string) (count : Z)
  : M Event string :=
  lift chrome;;
  tell OpenBrowser;;
  if negb (startswith "http" product_url)
  then tell Quit;; mret "No reviews found"
  else
    reviews ←
      try_except
        (tell (Get product_url);;
         soup ← lift (load_page product_url);
         mret (_extract_reviews_by_platform platform soup count))
        (λ e, tell (Print ("Error getting reviews: " +:+ exc_str e));; mret []);
    tell Quit;;
    mret (match reviews with
          | [] => "No reviews found"
          | _ => join " || " reviews
          end).

(** The body of the loop of [scrape_products]: the rows it appends. *)
Definition scrape_item (chrome : res ()) (platform : string) (config : PlatformConfig)
    (review_count : Z) (item : Item) : M Event (list (list string)) :=
  try_except
    (product_data ← _extract_product_data decimal platform config item;
     match product_data with
     | Some pd =>
         top_reviews ← get_top_reviews chrome platform (pd_link pd) review_count;
         mret [[pd_id pd; pd_title pd; pd_rating pd; pd_total_reviews pd;
                pd_price pd; top_reviews]]
     | None => mret []
     end)
    (λ e, tell (Print ("Error occurred while processing item: " +:+ exc_str e));;
          mret []).

Fixpoint scrape_items (launch : nat → res ()) (platform : string)
    (config : PlatformConfig) (review_count : Z) (i : nat) (items : list Item)
  : M Event (list (list string)) :=
  match items with
  | [] => mret []
  | item :: rest =>
      rows ← scrape_item (launch i) platform config review_count item;
      more ← scrape_items launch platform config review_count (S i) rest;
      mret (rows ++ more)
  end.

Definition scrape_products (chrome : res ()) (launch : nat → res ())
    (platform query : string) (max_products review_count : Z)
  : M Event (list (list string)) :=
  config ← lift (Retrieval.getitem platform_configs platform);
  lift chrome;;
  tell OpenBrowser;;
  let url := search_url config +:+ plus_for_spaces query in
  tell (Get url);;
  items ← lift (search url (product_selector config));
  let items :=
    if bool_decide (platform = "amazon_de")
    then List.filter (λ item, negb (contains "Sponsored" (item_text item))) items
    else items in
  let items := slice_to max_products items in
  products ← scrape_items launch platform config review_count 0 items;
  tell Quit;;
  mret products.

End Browser.

(** A product page, a search result and a shop for the examples. *)
Definition review_page : Soup := λ selector,
  if bool_decide (selector = "div.review-item")
  then ["Great"; "Battery lasts two days"; "Battery lasts two days";
        "Camera is superb in low light"]
  else [].

Definition phone_item : Item :=
  mkItem "iPhone 15"
    (λ selector,
       if bool_decide (selector = "a.name")
       then Ok (mkElement " iPhone 15 " (Some "/iphone-15-d123.htm"))
       else if bool_decide (selector = ".price") then Ok (mkElement "999" None)
       else if bool_decide (selector = "span.review-count")
       then Ok (mkElement "(1,204 reviews)" None)
       else Raise (mkExc "NoSuchElementException" "no such element")).

Definition phone_shop : string → string → res (list Item) := λ _ _, Ok [phone_item].
Definition phone_pages : string → res Soup := λ _, Ok review_page.

End Scrapper.

(** ** etl/data_ingestion.py *)
Module Ingestion.
Import Text Py Pandas.

(** A LangChain document.  [page_content] is declared a string and a value
    of another type is refused when the document is constructed; the
    metadata take any value. *)
Record Document := mkDocument {
  page_content : string;
  metadata : gmap string Cell
}.

(** What the pipeline does: it prints, enters a method, constructs a
    document, hands documents to the vector store, prints a search hit. *)
Inductive Event :=
| Print (text : string)
| Call (method : string)
| NewDocument (d : Document)
| AddDocuments (docs : list Document)
| PrintHit (d : Document).

(** The attributes of a [DataIngestion] object that the pipeline reads. *)
Record DataIngestion := mkDataIngestion {
  csv_path : string;
  product_data : DataFrame;
  config : gmap string (gmap string string)
}.

Definition required_vars : list string :=
  ["GOOGLE_API_KEY"; "ASTRA_DB_API_ENDPOINT"; "ASTRA_DB_APPLICATION_TOKEN";
   "ASTRA_DB_KEYSPACE"].

Definition expected_columns : gset string :=
  {[ "product_id"; "product_title"; "rating"; "total_reviews"; "price"; "top_reviews" ]}.

(** [row[name]] on a row of a frame with columns [cols]. *)
Fixpoint row_get (cols : list string) (row : list Cell) (name : string) : res Cell :=
  match cols, row with
  | c :: cols', v :: row' => if decide (c = name) then Ok v else row_get cols' row' name
  | _, _ => Raise (mkExc "KeyError" (repr name))
  end.

(** A [for] loop that collects what its body returns. *)
Fixpoint for_each {E A B} (body : A → M E B) (l : list A) : M E (list B) :=
  match l with
  | [] => mret []
  | a :: rest => b ← body a; bs ← for_each body rest; mret (b :: bs)
  end.

Section Pipeline.

(** The surroundings: [ModelLoader()], the process environment, the files
    below the working directory, [pandas.read_csv] on the text of a file,
    [load_config()], and the vector store ([add_documents] stands for its
    construction and the insertion, [similarity_search] for the query). *)
Variable model_loader : res ().
Variable environ : gmap string string.
Variable files : gmap string string.
Variable read_csv : string → res DataFrame.
Variable load_config : res (gmap string (gmap string string)).
Variable add_documents : list Document → res (list string).
Variable similarity_search : string → res (list Document).

Definition _load_env_variables : M Event () :=
  tell (Call "_load_env_variables");;
  let missing_vars := List.filter (λ var, bool_decide (environ !! var = None)) required_vars in
  match missing_vars with
  | [] => mret ()
  | _ => raise (mkExc "OSError" "Missing environment variables")
  end.

Definition _get_csv_path : M Event string :=
  tell (Call "_get_csv_path");;
  let csv_path := "data/product_reviews.csv" in
  if bool_decide (is_Some (files !! csv_path)) then mret csv_path
  else raise (mkExc "FileNotFoundError" "CSV file not found").

Definition _load_csv (csv_path : string) : M Event DataFrame :=
  tell (Call "_load_csv");;
  text ← match files !! csv_path with
         | Some text => mret text
         | None => raise (mkExc "FileNotFoundError" csv_path)
         end;
  df ← lift (read_csv text);
  if bool_decide (expected_columns ⊆ list_to_set (columns df)) then mret df
  else raise (mkExc "ValueError" "CSV must contain columns").

(** [DataIngestion()] *)
Definition __init__ : M Event DataIngestion :=
  tell (Print "Initializing DataIngestion pipeline...");;
  lift model_loader;;
  _load_env_variables;;
  csv_path ← _get_csv_path;
  product_data ← _load_csv csv_path;
  config ← lift load_config;
  mret (mkDataIngestion csv_path product_data config).

(** The body of the loop of [transform_data]. *)
Definition make_document (cols : list string) (row : list Cell) : M Event Document :=
  product_id ← lift (row_get cols row "product_id");
  product_title ← lift (row_get cols row "product_title");
  rating ← lift (row_get cols row "rating");
  total_reviews ← lift (row_get cols row "total_reviews");
  price ← lift (row_get cols row "price");
  let metadata : gmap string Cell :=
    {[ "product_id" := product_id; "product_title" := product_title;
       "rating" := rating; "total_reviews" := total_reviews; "price" := price ]} in
  top_reviews ← lift (row_get cols row "top_reviews");
  match top_reviews with
  | Text s =>
      let doc := mkDocument s metadata in
      tell (NewDocument doc);; mret doc
  | _ => raise (mkExc "ValidationError" "page_content: Input should be a valid string")
  end.

Definition transform_data (self : DataIngestion) : M Event (list Document) :=
  tell (Call "transform_data");;
  documents ← for_each (make_document (columns (product_data self)))
                 (rows (product_data self));
  tell (Print ("Transformed " +:+ pretty (length documents) +:+ " documents."));;
  mret documents.

Definition store_in_vector_db (self : DataIngestion) (documents : list Document)
  : M Event (list string) :=
  tell (Call "store_in_vector_db");;
  section ← lift (Retrieval.getitem (config self) "astra_db");
  _ ← lift (Retrieval.getitem section "collection_name");
  tell (AddDocuments documents);;
  inserted_ids ← lift (add_documents documents);
  tell (Print ("Successfully inserted " +:+ pretty (length inserted_ids)
               +:+ " documents into AstraDB."));;
  mret inserted_ids.

Definition run_pipeline (self : DataIngestion) : M Event () :=
  tell (Call "run_pipeline");;
  documents ← transform_data self;
  _ ← store_in_vector_db self documents;
  let query := "Can you tell me the low budget iphone?" in
  results ← lift (similarity_search query);
  tell (Print (NL +:+ "Sample search results for query: '" +:+ query +:+ "'"));;
  _ ← for_each (λ res, tell (PrintHit res)) results;
  mret ().

(** The module run as a script. *)
Definition script : M Event () :=
  ingestion ← __init__;
  run_pipeline ingestion.

End Pipeline.

(** The documents an event list shows: those constructed and those handed
    to the vector store. *)
Definition constructed (evs : list Event) : list Document :=
  omap (λ e, match e with NewDocument d => Some d | _ => None end) evs.

Definition stored (evs : list Event) : list Document :=
  mjoin (omap (λ e, match e with AddDocuments ds => Some ds | _ => None end) evs).

Definition calls (evs : list Event) : list string :=
  omap (λ e, match e with Call m => Some m | _ => None end) evs.

(** The ingestion loader on the files [files]: [_load_csv] followed by
    [transform_data]. *)
Definition load_and_transform (numeric : string → bool) (files : gmap string string)
  : M Event (list Document) :=
  df ← _load_csv files (Pandas.read_csv numeric) "data/product_reviews.csv";
  transform_data (mkDataIngestion "data/product_reviews.csv" df ∅).

(** The documents that [_load_csv] and [transform_data] give for a frame
    with the six columns and the lines [data], converted by their columns. *)
Definition converted_rows (numeric : string → bool) (data : list (list string))
  : list (list Cell) :=
  zip_with (convert)
    ((λ j, infer numeric (column j data)) <$> seq 0 (length Scrapper.header)) <$> data.

(** The document that reproduces a scraped row as it was written. *)
Definition document_of_row (row : list string) : option Document :=
  match row with
  | [product_id; product_title; rating; total_reviews; price; top_reviews] =>
      Some (mkDocument top_reviews
              {[ "product_id" := Text product_id; "product_title" := Text product_title;
                 "rating" := Text rating; "total_reviews" := Text total_reviews;
                 "price" := Text price ]})
  | _ => None
  end.

(** The round trip of the specification: the rows are saved with the
    default directory and file name, loaded and transformed, and every row
    comes back, in order, as the document that reproduces it. *)
Definition round_trip_identical (numeric : string → bool) (files : gmap string string)
    (data : list (list string)) : Prop :=
  ∃ docs,
    result (load_and_transform numeric
              (Scrapper.save_to_csv Scrapper.default_output_dir files data
                 Scrapper.default_filename))
    = Ok docs
    ∧ Forall2 (λ row doc, document_of_row row = Some doc) data docs.

(** The keys of the metadata of a document. *)
Definition metadata_keys : list string :=
  ["product_id"; "product_title"; "rating"; "total_reviews"; "price"].

(** A document carries a row: its content is the text in the column of the
    reviews, and its metadata hold the cells of the five other columns under
    their names, and nothing else. *)
Definition carries (cols : list string) (row : list Cell) (doc : Document) : Prop :=
  row_get cols row "top_reviews" = Ok (Text (page_content doc))
  ∧ ∀ key v, metadata doc !! key = Some v
             ↔ key ∈ metadata_keys ∧ row_get cols row key = Ok v.

Definition validation_error : Exc :=
  mkExc "ValidationError" "page_content: Input should be a valid string".

(** Concrete surroundings for the examples. *)
Definition full_environ : gmap string string :=
  {[ "GOOGLE_API_KEY" := "k"; "ASTRA_DB_API_ENDPOINT" := "https://db.example";
     "ASTRA_DB_APPLICATION_TOKEN" := "t"; "ASTRA_DB_KEYSPACE" := "ks" ]}.

Definition csv_without_price : string :=
  "product_id,product_title,rating,total_reviews,top_reviews" +:+ Csv.CRLF +:+
  "itm1,Phone,4.5,12,Great phone" +:+ Csv.CRLF.

Definition files_without_price : gmap string string :=
  {[ "data/product_reviews.csv" := csv_without_price ]}.

Definition frame_without_price : DataFrame :=
  mkDataFrame ["product_id"; "product_title"; "rating"; "total_reviews"; "top_reviews"]
    [[Text "itm1"; Text "Phone"; Num "4.5"; Num "12"; Text "Great phone"]].

(** Two scraped rows: one whose fields all stay strings, and one with the
    placeholder that the scraper writes for a rating it did not find. *)
Definition row_of_texts : list string :=
  ["itm7579ed94ca647"; "Apple iPhone 15 (Pink, 128 GB)"; "4.6 stars"; "9,407";
   "Rs 64,900"; "Worth every penny || Fabulous!"].

Definition row_without_rating : list string :=
  ["itm7579ed94ca647"; "Apple iPhone 15 (Pink, 128 GB)"; "N/A"; "9,407";
   "Rs 64,900"; "Worth every penny || Fabulous!"].

(** The frame of the first of them, and its document. *)
Definition frame_of_texts : DataFrame :=
  mkDataFrame Scrapper.header [Text <$> row_of_texts].

Definition document_of_texts : Document :=
  mkDocument "Worth every penny || Fabulous!"
    {[ "product_id" := Text "itm7579ed94ca647";
       "product_title" := Text "Apple iPhone 15 (Pink, 128 GB)";
       "rating" := Text "4.6 stars"; "total_reviews" := Text "9,407";
       "price" := Text "Rs 64,900" ]}.

End Ingestion.

(* ===================================================================== *)
(** * Part II: properties                                                 *)
(* ===================================================================== *)

(** ** Facts about text *)
Section TextFacts.
Import Text.

Lemma str_app_cons (c : ascii) (s t : string) : String c s +:+ t = String c (s +:+ t).
Proof. reflexivity. Qed.

Lemma str_app_nil_l (s : string) : "" +:+ s = s.
Proof. reflexivity. Qed.

Lemma str_app_nil_r (s : string) : s +:+ "" = s.
Proof. induction s as [|c s IH]; [done|]. by rewrite str_app_cons, IH. Qed.

Lemma str_app_assoc (a b c : string) : (a +:+ b) +:+ c = a +:+ b +:+ c.
Proof. induction a as [|x a IH]; [done|]. by rewrite !str_app_cons, IH. Qed.

Lemma startswith_spec (p s : string) :
  startswith p s = true ↔ ∃ post, s = p +:+ post.
Proof.
  revert s. induction p as [|a p IH]; intros s.
  - split; [intros _; by exists s | by destruct s].
  - destruct s as [|b s]; cbn.
    + split; [done | intros [post H]; discriminate].
    + case_decide as Hab.
      * subst b. rewrite IH. split; intros [post H]; exists post.
        -- by rewrite str_app_cons, H.
        -- rewrite str_app_cons in H. by injection H.
      * split; [done | intros [post H]]. rewrite str_app_cons in H.
        injection H as ? ?. congruence.
Qed.

(** [needle in hay] holds exactly when [hay] splits around [needle]. *)
Lemma contains_spec (needle hay : string) :
  contains needle hay = true ↔ ∃ pre post, hay = pre +:+ needle +:+ post.
Proof.
  induction hay as [|c hay IH]; cbn.
  - rewrite orb_false_r, startswith_spec. split.
    + intros [post H]. by exists "", post.
    + intros [pre [post H]]. destruct pre; [by exists post | discriminate].
  - rewrite orb_true_iff, startswith_spec, IH. split.
    + intros [[post H] | [pre [post H]]].
      * by exists "", post.
      * exists (String c pre), post. by rewrite str_app_cons, H.
    + intros [pre [post H]]. destruct pre as [|x pre].
      * left. by exists post.
      * right. rewrite str_app_cons in H. injection H as ? H. by exists pre, post.
Qed.

Lemma lower_app (a b : string) : lower (a +:+ b) = lower a +:+ lower b.
Proof.
  induction a as [|x a IH]; [done|].
  rewrite str_app_cons. cbn [lower]. by rewrite str_app_cons, IH.
Qed.

Lemma lower_split (s a b : string) :
  lower s = a +:+ b → ∃ s1 s2, s = s1 +:+ s2 ∧ lower s1 = a ∧ lower s2 = b.
Proof.
  revert s. induction a as [|x a IH]; intros s H.
  - by exists "", s.
  - destruct s as [|c s]; [discriminate|]. cbn in H. rewrite str_app_cons in H.
    injection H as Hc H. destruct (IH _ H) as (s1 & s2 & -> & <- & <-).
    exists (String c s1), s2. cbn. by rewrite Hc.
Qed.

Lemma lower_char_idem (c : ascii) : lower_char (lower_char c) = lower_char c.
Proof. by destruct c as [[] [] [] [] [] [] [] []]. Qed.

Lemma lower_idem (s : string) : lower (lower s) = lower s.
Proof. induction s as [|c s IH]; [done|]. cbn. by rewrite lower_char_idem, IH. Qed.

Lemma contains_lower_spec (token text : string) :
  contains (lower token) (lower text) = true ↔ mentions_ci token text.
Proof.
  rewrite contains_spec. split.
  - intros (pre' & post' & H).
    destruct (lower_split _ _ _ H) as (pre & rest & -> & _ & H2).
    destruct (lower_split _ _ _ H2) as (mid & post & -> & Hm & _).
    by exists pre, mid, post.
  - intros (pre & mid & post & -> & Hm).
    exists (lower pre), (lower post). by rewrite !lower_app, Hm.
Qed.

Lemma chars_cons (c : ascii) (s : string) : ∃ x l, chars (String c s) = String c x :: l.
Proof.
  cbn. destruct (chars s) as [|ch rest]; [by eexists _, _|].
  destruct (continues s); by eexists _, _.
Qed.

Lemma chars_nonempty (s : string) : Forall (λ ch, ch ≠ "") (chars s).
Proof.
  induction s as [|c s IH]; [constructor|].
  cbn. destruct (chars s) as [|ch rest]; [by repeat constructor|].
  inversion_clear IH.
  destruct (continues s); by repeat constructor.
Qed.

Lemma unchars_chars (s : string) : unchars (chars s) = s.
Proof.
  induction s as [|c s IH]; [done|].
  cbn. destruct (chars s) as [|ch rest]; [by rewrite <- IH|].
  destruct (continues s); cbn in *; by rewrite <- IH.
Qed.

Lemma unchars_empty (l : list string) :
  Forall (λ ch, ch ≠ "") l → unchars l = "" ↔ l = [].
Proof.
  destruct 1 as [|ch l Hch _]; [done|].
  cbn. split; [|done]. by destruct ch.
Qed.

Lemma lstrip_chars_nonempty (l : list string) :
  Forall (λ ch, ch ≠ "") l → Forall (λ ch, ch ≠ "") (lstrip_chars l).
Proof.
  induction 1 as [|ch l Hch Hl IH]; cbn; [constructor|].
  destruct (isspace ch); [done | by constructor].
Qed.

Lemma rstrip_chars_nonempty (l : list string) :
  Forall (λ ch, ch ≠ "") l → Forall (λ ch, ch ≠ "") (rstrip_chars l).
Proof.
  induction 1 as [|ch l Hch Hl IH]; cbn; [constructor|].
  destruct (rstrip_chars l).
  - destruct (isspace ch); by repeat constructor.
  - by constructor.
Qed.

Lemma rstrip_chars_empty (l : list string) :
  rstrip_chars l = [] ↔ forallb isspace l = true.
Proof.
  induction l as [|ch l IH]; cbn; [done|].
  destruct (rstrip_chars l) eqn:Hr.
  - destruct (isspace ch); cbn; [tauto|]. split; [done | by intros].
  - split; [done|]. rewrite andb_true_iff. intros [_ H]. apply IH in H. done.
Qed.

Lemma lstrip_chars_all_space (l : list string) :
  forallb isspace (lstrip_chars l) = true ↔ forallb isspace l = true.
Proof.
  induction l as [|ch l IH]; cbn; [done|].
  destruct (isspace ch) eqn:Hc; cbn; [done|]. by rewrite Hc.
Qed.

(** [not s.strip()] holds exactly for the empty and the whitespace-only
    strings. *)
Lemma strip_empty (s : string) : strip s = "" ↔ all_space s = true.
Proof.
  unfold strip, all_space.
  rewrite unchars_empty, rstrip_chars_empty, lstrip_chars_all_space; [done|].
  apply rstrip_chars_nonempty, lstrip_chars_nonempty, chars_nonempty.
Qed.

Lemma all_space_spec (s : string) :
  all_space s = true ↔ Forall (λ ch, ch ∈ whitespace) (chars s).
Proof.
  unfold all_space. induction (chars s) as [|ch l IH]; cbn; [done|].
  rewrite andb_true_iff, Forall_cons, IH. unfold isspace.
  by rewrite bool_decide_eq_true.
Qed.

(** A space starts with one of fourteen bytes. *)
Lemma isspace_head (c : ascii) (x : string) :
  isspace (String c x) = true →
  N_of_ascii c ∈ [9; 10; 11; 12; 13; 28; 29; 30; 31; 32; 194; 225; 226; 227]%N.
Proof.
  unfold isspace. rewrite bool_decide_eq_true. unfold whitespace. cbn.
  rewrite !elem_of_cons, elem_of_nil.
  intros H. repeat (destruct H as [H|H]; [injection H as -> _; cbn; set_solver|]). done.
Qed.

(** A text whose first byte starts no space is not blank. *)
Lemma all_space_head (c : ascii) (s : string) :
  N_of_ascii c ∉ [9; 10; 11; 12; 13; 28; 29; 30; 31; 32; 194; 225; 226; 227]%N →
  all_space (String c s) = false.
Proof.
  intros Hc. unfold all_space.
  destruct (chars_cons c s) as (x & l & ->). cbn.
  destruct (isspace (String c x)) eqn:H; [|done].
  by apply isspace_head in H.
Qed.

Lemma truthy_false (s : string) : truthy s = false ↔ s = "".
Proof. by destruct s. Qed.

(** [strip] takes the spaces of every script from both ends and none from
    the middle: here a no-break space in front, an em space and a line feed
    behind. *)
Example strip_spaces :
  strip (utf8 [194; 160; 65; 32; 66; 226; 128; 131; 10]%N) = "A B"
  ∧ strip " Lateralus album artist " = "Lateralus album artist"
  ∧ all_space (utf8 [32; 194; 160; 9; 227; 128; 128]%N) = true
  ∧ all_space "" = true
  ∧ all_space " a " = false.
Proof. vm_compute. done. Qed.

Example repr_texts :
  repr "top_k" = String SQ ("top_k" +:+ String SQ "")
  ∧ repr "top_k" = "'top_k'"
  ∧ repr (String SQ "n") = String DQ (String SQ ("n" +:+ String DQ ""))
  ∧ repr (String "010" "") = String SQ (String BS ("n" +:+ String SQ ""))
  ∧ repr (String "001" "") = String SQ (String BS ("x01" +:+ String SQ "")).
Proof. vm_compute. done. Qed.

End TextFacts.

(** ** Facts about computations *)
Section PyFacts.
Import Py.
Context {E : Type}.

Lemma result_bind {A B} (m : M E A) (f : A → M E B) :
  result (m ≫= f) = match result m with
                    | Ok a => result (f a)
                    | Raise e => Raise e
                    end.
Proof.
  unfold result, mbind, M_bind, bind. destruct m as [ev [a|e]]; cbn; [|done].
  by destruct (f a).
Qed.

Lemma events_bind {A B} (m : M E A) (f : A → M E B) :
  events (m ≫= f) = events m ++ match result m with
                                | Ok a => events (f a)
                                | Raise e => []
                                end.
Proof.
  unfold events, result, mbind, M_bind, bind. destruct m as [ev [a|e]]; cbn.
  - by destruct (f a).
  - by rewrite app_nil_r.
Qed.

Lemma result_ret {A} (a : A) : result (mret a : M E A) = Ok a.
Proof. done. Qed.
Lemma events_ret {A} (a : A) : events (mret a : M E A) = [].
Proof. done. Qed.
Lemma result_tell (ev : E) : result (tell ev) = Ok ().
Proof. done. Qed.
Lemma events_tell (ev : E) : events (tell ev) = [ev].
Proof. done. Qed.
Lemma result_lift {A} (r : res A) : result (lift r : M E A) = r.
Proof. done. Qed.
Lemma events_lift {A} (r : res A) : events (lift r : M E A) = [].
Proof. done. Qed.
Lemma result_raise {A} (e : Exc) : result (raise e : M E A) = Raise e.
Proof. done. Qed.
Lemma events_raise {A} (e : Exc) : events (raise e : M E A) = [].
Proof. done. Qed.

End PyFacts.

(** Rewrites the result and the events of a sequence of steps into those
    of its steps. *)
Ltac msimpl :=
  repeat first
    [ rewrite result_bind | rewrite events_bind
    | rewrite result_ret | rewrite events_ret
    | rewrite result_tell | rewrite events_tell
    | rewrite result_lift | rewrite events_lift
    | rewrite result_raise | rewrite events_raise ].

(** ** The workflow graph *)
Section WorkflowFacts.
Import Text Py Workflow.

Variable llm : string → res string.
Variable mcp_tools : list Tool.

Local Abbreviation superstep := (Workflow.superstep llm mcp_tools).
Local Abbreviation pregel := (Workflow.pregel llm mcp_tools).
Local Abbreviation reachable := (Workflow.reachable llm mcp_tools).

(** Unfolds the monadic plumbing of a node down to the oracle calls. *)
Ltac unfold_nodes :=
  unfold Workflow.superstep, node_body, route, assistant_route,
    _ai_assistant, _vector_retriever, _web_search, _grade_documents,
    _generate, _rewrite, chain_invoke, find_tool, tool_ainvoke,
    last_content, first_content, index_last, index_first,
    tell, lift, ret, raise, mbind, mret, M_bind, M_ret, bind, ret in *.

Ltac split_cases :=
  repeat (cbn in *; simplify_eq;
          match goal with
          | H : context [match ?x with _ => _ end] |- _ => destruct x eqn:?
          | |- context [match ?x with _ => _ end] => destruct x eqn:?
          end); cbn in *; simplify_eq.

(** The declared edges strictly decrease the rank, so no path returns to
    its origin. *)
Lemma transitions_rank (a b : Node) : (a, b) ∈ transitions → rank b < rank a.
Proof.
  unfold transitions. rewrite !elem_of_cons, elem_of_nil.
  intros H. repeat destruct H as [H|H]; try done; simplify_eq; cbn; lia.
Qed.

Lemma path_rank (a b : Node) : path a b → rank b < rank a.
Proof.
  induction 1 as [a b H | a b c H _ IH].
  - by apply transitions_rank.
  - apply transitions_rank in H. lia.
Qed.

Lemma graph_acyclic (n : Node) : ¬ path n n.
Proof. intros H%path_rank. lia. Qed.

(** What one step can do: it follows a declared edge; a node with a body is
    recorded as visited and appends exactly one message; the grader is
    consulted when, and only when, the step leaves [Retriever]. *)
Lemma superstep_ok (n n' : Node) (state state' : AgentState) ev :
  n ≠ END → superstep n state = (ev, Ok (n', state')) →
  (n, n') ∈ transitions
  ∧ match node_body llm mcp_tools n with
    | Some _ => visited ev = [n] ∧ ∃ m, state' = state ++ [m]
    | None => visited ev = [] ∧ state' = state
    end
  ∧ (if decide (n = Retriever) then ∃ d, grades ev = [d] ∧ n' = grade_target d
     else grades ev = [])
  ∧ (tool_calls ev ≠ [] → n = Retriever ∨ n = WebSearch).
Proof.
  intros Hn H. unfold transitions.
  destruct n; try done; unfold_nodes; split_cases;
    (split; [set_solver|]); (split; [eauto|]); (split; [eauto|]); try done; eauto.
Qed.

Lemma superstep_raise (n : Node) (state : AgentState) ev e :
  superstep n state = (ev, Raise e) →
  visited ev = [n] ∧ grades ev = [].
Proof. intros H. destruct n; unfold_nodes; split_cases; done. Qed.

Lemma successors (n n' : Node) :
  (n, n') ∈ transitions →
  match n with
  | START => n' = Assistant
  | Assistant => n' = Retriever ∨ n' = END
  | Retriever => n' = Generator ∨ n' = Rewriter
  | Rewriter => n' = WebSearch
  | WebSearch => n' = Generator
  | Generator => n' = END
  | END => False
  end.
Proof.
  unfold transitions. rewrite !elem_of_cons, elem_of_nil.
  intros H. repeat destruct H as [H|H]; try done; simplify_eq; eauto.
Qed.

Lemma pregel_END fuel (state : AgentState) :
  pregel fuel END state = mkRun [] state (Ok ()).
Proof. by destruct fuel. Qed.

Lemma pregel_S fuel (n : Node) (state : AgentState) :
  n ≠ END →
  pregel (S fuel) n state =
    match superstep n state with
    | (ev, Raise e) => mkRun ev state (Raise e)
    | (ev, Ok (n', state')) =>
        let r := pregel fuel n' state' in
        mkRun (ev ++ run_events r) (run_state r) (run_outcome r)
    end.
Proof. by destruct n. Qed.

Lemma pregel_ok fuel (n n' : Node) (state state' : AgentState) ev :
  n ≠ END → superstep n state = (ev, Ok (n', state')) →
  run_events (pregel (S fuel) n state) = ev ++ run_events (pregel fuel n' state')
  ∧ run_state (pregel (S fuel) n state) = run_state (pregel fuel n' state')
  ∧ run_outcome (pregel (S fuel) n state) = run_outcome (pregel fuel n' state').
Proof. intros Hn Hs. rewrite pregel_S by done. by rewrite Hs. Qed.

Lemma pregel_raise fuel (n : Node) (state : AgentState) ev e :
  superstep n state = (ev, Raise e) →
  pregel (S fuel) n state = mkRun ev state (Raise e).
Proof.
  intros Hs. destruct (decide (n = END)) as [->|Hn]; [done|].
  rewrite pregel_S by done. by rewrite Hs.
Qed.

(** Termination within the bound: once the fuel covers the rank of the
    node, more fuel changes nothing. *)
Lemma pregel_fuel (k fuel : nat) (n : Node) (state : AgentState) :
  rank n ≤ k → k ≤ fuel → pregel fuel n state = pregel k n state.
Proof.
  revert fuel n state. induction k as [|k IH]; intros fuel n state Hr Hk.
  - destruct n; cbn in Hr; try lia. by rewrite !pregel_END.
  - destruct (decide (n = END)) as [->|Hn]; [by rewrite !pregel_END|].
    destruct fuel as [|fuel]; [lia|]. rewrite !pregel_S by done.
    destruct (superstep n state) as [ev [[n' state']|e]] eqn:Hs; [|done].
    apply superstep_ok in Hs as (Ht%transitions_rank & _); [|done].
    rewrite (IH fuel) by lia. done.
Qed.

(** The state an invocation ends in is one of those it passes through. *)
Lemma run_state_reachable (fuel : nat) (n : Node) (state : AgentState) :
  ∃ n', reachable (n, state) (n', run_state (pregel fuel n state)).
Proof.
  assert (Hgen : ∀ c0 fuel n state, reachable c0 (n, state) →
            ∃ n', reachable c0 (n', run_state (pregel fuel n state))).
  { clear. intros c0 fuel. induction fuel as [|fuel IH]; intros n state Hr.
    - exists n. by destruct n.
    - destruct (decide (n = END)) as [->|Hn]; [by exists END|].
      rewrite pregel_S by done.
      destruct (superstep n state) as [ev [[n' state']|e]] eqn:Hs.
      + cbv zeta. cbn [run_state]. apply IH. by eapply reach_step.
      + by exists n. }
  apply Hgen. apply reach_start.
Qed.

Lemma visited_app (a b : list Event) : visited (a ++ b) = visited a ++ visited b.
Proof. apply omap_app. Qed.

Lemma grades_app (a b : list Event) : grades (a ++ b) = grades a ++ grades b.
Proof. apply omap_app. Qed.

Lemma tool_calls_app (a b : list Event) :
  tool_calls (a ++ b) = tool_calls a ++ tool_calls b.
Proof. apply omap_app. Qed.

Lemma straight_step (n n' : Node) (tail : list Node) fuel (state : AgentState) :
  n ≠ END → n ≠ Retriever → is_Some (node_body llm mcp_tools n) →
  (∀ x, (n, x) ∈ transitions → x = n') →
  (∀ state', match tail with
             | [] => n' = END
             | t :: tail' => t = n' ∧ straight n' tail' (pregel fuel n' state')
             end) →
  straight n tail (pregel (S fuel) n state).
Proof.
  intros Hn Hr [body Hb] Hnext Htail. rewrite pregel_S by done. unfold straight.
  destruct (superstep n state) as [ev [[x state']|e]] eqn:Hs.
  - apply superstep_ok in Hs as (Ht & Hv & Hg & _); [|done].
    rewrite Hb in Hv. destruct Hv as [Hv _]. rewrite decide_False in Hg by done.
    apply Hnext in Ht as ->. cbv zeta. cbn [run_events run_outcome].
    rewrite visited_app, grades_app, Hv, Hg. specialize (Htail state').
    destruct tail as [|t tail'].
    + subst n'. rewrite pregel_END. cbn. done.
    + destruct Htail as [-> (Hg' & Hp & Hq & Hok)]. rewrite Hg'. cbn.
      repeat split; [by apply prefix_cons, prefix_nil | by apply prefix_cons |].
      intros H. by rewrite (Hok H).
  - apply superstep_raise in Hs as [Hv Hg]. cbn [run_events run_outcome].
    rewrite Hv, Hg.
    repeat split; [done | by apply prefix_cons, prefix_nil | done].
Qed.

Lemma run_from_Generator fuel (state : AgentState) :
  straight Generator [] (pregel (S fuel) Generator state).
Proof.
  apply (straight_step _ END);
    [done | done | by eexists | by intros x ?%successors | done].
Qed.

Lemma run_from_WebSearch fuel (state : AgentState) :
  straight WebSearch [Generator] (pregel (S (S fuel)) WebSearch state).
Proof.
  apply (straight_step _ Generator);
    [done | done | by eexists | by intros x ?%successors |].
  intros st. split; [done | apply run_from_Generator].
Qed.

Lemma run_from_Rewriter fuel (state : AgentState) :
  straight Rewriter [WebSearch; Generator] (pregel (S (S (S fuel))) Rewriter state).
Proof.
  apply (straight_step _ WebSearch);
    [done | done | by eexists | by intros x ?%successors |].
  intros st. split; [done | apply run_from_WebSearch].
Qed.

(** From [Retriever] on: either the step raises, or the grader decides
    once and the run continues along the branch it chose. *)
Lemma run_from_Retriever fuel (state : AgentState) :
  let r := pregel (S (S (S (S fuel)))) Retriever state in
  (grades (run_events r) = [] ∧ visited (run_events r) = [Retriever]
   ∧ run_outcome r ≠ Ok ())
  ∨ (grades (run_events r) = [generator]
     ∧ visited (run_events r) = [Retriever; Generator])
  ∨ (grades (run_events r) = [rewriter]
     ∧ ∃ v, visited (run_events r) = Retriever :: v
            ∧ [Rewriter] `prefix_of` v
            ∧ v `prefix_of` [Rewriter; WebSearch; Generator]
            ∧ (run_outcome r = Ok () → v = [Rewriter; WebSearch; Generator])).
Proof.
  intros r. subst r. rewrite pregel_S by done.
  destruct (superstep Retriever state) as [ev [[x state']|e]] eqn:Hs.
  - apply superstep_ok in Hs as (_ & [Hv _] & Hg & _); [|done].
    rewrite decide_True in Hg by done. destruct Hg as (d & Hg & ->).
    cbv zeta. cbn [run_events run_outcome]. rewrite visited_app, grades_app, Hv, Hg.
    destruct d; cbn [grade_target].
    + right; left.
      destruct (run_from_Generator (S (S fuel)) state') as (Hg' & Hq & Hp & _).
      rewrite Hg'. split; [done|].
      by rewrite (anti_symm prefix _ _ Hp Hq).
    + right; right.
      destruct (run_from_Rewriter fuel state') as (Hg' & Hq & Hp & Hok).
      rewrite Hg'. split; [done|]. eexists. split; [done|]. done.
  - apply superstep_raise in Hs as [Hv Hg]. left. cbn [run_events run_outcome].
    by rewrite Hv, Hg.
Qed.

Lemma superstep_START (state : AgentState) :
  superstep START state = ([], Ok (Assistant, state)).
Proof. done. Qed.

(** The four shapes of a whole invocation. *)
Lemma run_from_START fuel (state : AgentState) :
  let r := pregel (S (S (S (S (S (S fuel)))))) START state in
  (grades (run_events r) = [] ∧ visited (run_events r) = [Assistant])
  ∨ (grades (run_events r) = [] ∧ visited (run_events r) = [Assistant; Retriever]
     ∧ run_outcome r ≠ Ok ())
  ∨ (grades (run_events r) = [generator]
     ∧ visited (run_events r) = [Assistant; Retriever; Generator])
  ∨ (grades (run_events r) = [rewriter]
     ∧ ∃ v, visited (run_events r) = Assistant :: Retriever :: v
            ∧ [Rewriter] `prefix_of` v
            ∧ v `prefix_of` [Rewriter; WebSearch; Generator]
            ∧ (run_outcome r = Ok () → v = [Rewriter; WebSearch; Generator])).
Proof.
  intros r. subst r.
  destruct (pregel_ok (S (S (S (S (S fuel))))) START _ _ _ _
              ltac:(done) (superstep_START state)) as (-> & _ & ->).
  rewrite app_nil_l.
  destruct (superstep Assistant state) as [ev [[x state']|e]] eqn:Hs.
  - destruct (pregel_ok (S (S (S (S fuel)))) Assistant _ _ _ _ ltac:(done) Hs)
      as (-> & _ & ->).
    apply superstep_ok in Hs as (Ht%successors & [Hv _] & Hg & _); [|done].
    rewrite decide_False in Hg by done.
    rewrite visited_app, grades_app, Hv, Hg.
    destruct Ht as [-> | ->].
    + destruct (run_from_Retriever fuel state')
        as [(Hg' & Hv' & Ho) | [(Hg' & Hv') | (Hg' & v & Hv' & H)]];
        rewrite Hg', Hv'.
      * right; left. split; [reflexivity|]. split; [reflexivity | assumption].
      * right; right; left. split; reflexivity.
      * right; right; right. split; [reflexivity|]. exists v.
        split; [reflexivity | assumption].
    + rewrite pregel_END. left. split; reflexivity.
  - rewrite (pregel_raise _ _ _ _ _ Hs).
    apply superstep_raise in Hs as [Hv Hg]. left. cbn [run_events run_outcome].
    rewrite Hv, Hg. split; reflexivity.
Qed.

End WorkflowFacts.

(** ** The claims about the workflow *)
Section WorkflowClaims.
Import Text Py Workflow.

Variable llm : string → res string.
Variable mcp_tools : list Tool.

Local Abbreviation superstep := (Workflow.superstep llm mcp_tools).
Local Abbreviation pregel := (Workflow.pregel llm mcp_tools).
Local Abbreviation reachable := (Workflow.reachable llm mcp_tools).

Lemma last_snoc_msg (state : AgentState) (m : Message) : last (state ++ [m]) = Some m.
Proof. apply last_snoc. Qed.

(** A query with a domain keyword: the assistant appends the routing
    marker without consulting the model, and the edge leads to
    [Retriever]. *)
Lemma assistant_keyword (state : AgentState) (m : Message) :
  last state = Some m →
  existsb (λ word, contains word (lower (content m))) keywords = true →
  superstep Assistant state
  = ([Visit Assistant], Ok (Retriever, state ++ [HumanMessage "TOOL: retriever"])).
Proof.
  intros Hl Hk. unfold Workflow.superstep. cbn [node_body route].
  unfold _ai_assistant, assistant_route, last_content, index_last.
  rewrite Hl. cbn -[existsb contains]. rewrite Hk. cbn -[contains last].
  rewrite last_snoc_msg. reflexivity.
Qed.

(** A query without a domain keyword: the assistant appends the reply of
    the model, and the edge reads that reply. *)
Lemma assistant_direct (state : AgentState) (m : Message) (answer : string) :
  last state = Some m →
  existsb (λ word, contains word (lower (content m))) keywords = false →
  llm (assistant_prompt (content m)) = Ok answer →
  superstep Assistant state
  = ([Visit Assistant; LLMCall (assistant_prompt (content m))],
     Ok (if contains "TOOL" answer then Retriever else END,
         state ++ [HumanMessage answer])).
Proof.
  intros Hl Hk Ha. unfold Workflow.superstep. cbn [node_body route].
  unfold _ai_assistant, assistant_route, last_content, index_last, chain_invoke.
  rewrite Hl. cbn -[existsb contains assistant_prompt]. rewrite Hk.
  cbn -[contains last assistant_prompt]. rewrite Ha.
  cbn -[contains last assistant_prompt]. rewrite last_snoc_msg. reflexivity.
Qed.

(** The whole run for a query without a keyword whose direct answer does
    not spell the routing marker: one node, no tool, the answer last. *)
Lemma direct_answer_run (state : AgentState) (m : Message) (answer : string) fuel :
  last state = Some m →
  existsb (λ word, contains word (lower (content m))) keywords = false →
  llm (assistant_prompt (content m)) = Ok answer →
  contains "TOOL" answer = false →
  pregel (S (S fuel)) START state
  = mkRun [Visit Assistant; LLMCall (assistant_prompt (content m))]
          (state ++ [HumanMessage answer]) (Ok ()).
Proof.
  intros Hl Hk Ha Ht.
  pose proof (assistant_direct _ _ _ Hl Hk Ha) as Hs. rewrite Ht in Hs.
  rewrite pregel_S, superstep_START by done. cbv zeta.
  rewrite pregel_S, Hs by done. cbv zeta. rewrite pregel_END. reflexivity.
Qed.

(** C1 (the failing case): the query has no domain keyword, yet the direct
    answer of the model spells TOOL, so the edge after [Assistant] leads to
    [Retriever]: four more nodes run, both tools are invoked, and the answer
    returned is the generator's, not the direct one. *)
Theorem C1_direct_answer_rerouted :
  let query := "Which band recorded the album Lateralus?" in
  let '(_, evs, answer) := run llm_tool echo_tools ∅ query default_thread in
  existsb (λ word, contains word (lower query)) keywords = false
  ∧ llm_tool (assistant_prompt query) = Ok "TOOL is an American rock band."
  ∧ visited evs = [Assistant; Retriever; Rewriter; WebSearch; Generator]
  ∧ tool_calls evs
    = [("get_product_info", "TOOL is an American rock band.");
       ("web_search", "Lateralus album artist")]
  ∧ answer = Ok "I could not find that product.".
Proof. vm_compute. done. Qed.

(** C2: on a non-empty state the grader answers [generator] exactly when
    the reply of the model mentions yes in any letter case, and [rewriter]
    for every other reply, the empty one included; its only effect is the
    call of the model, and the step that consults it hands on the very
    state it read. *)
Theorem C2_grade_documents (state : AgentState) (first_m last_m : Message)
    (score : string) :
  head state = Some first_m → last state = Some last_m →
  llm (grader_prompt (content first_m) (content last_m)) = Ok score →
  ∃ d, _grade_documents llm state
       = ([LLMCall (grader_prompt (content first_m) (content last_m))], Ok d)
     ∧ (d = generator ↔ mentions_ci "yes" score)
     ∧ (d = rewriter ↔ ¬ mentions_ci "yes" score)
     ∧ (score = "" → d = rewriter)
     ∧ ∀ before ev upd,
         _vector_retriever mcp_tools before = (ev, Ok upd) →
         state = add_messages before upd →
         superstep Retriever before
         = (Visit Retriever :: ev
              ++ [LLMCall (grader_prompt (content first_m) (content last_m)); Grade d],
            Ok (grade_target d, state)).
Proof.
  intros Hh Hl Hs.
  assert (Hg : _grade_documents llm state
    = ([LLMCall (grader_prompt (content first_m) (content last_m))],
       Ok (if contains "yes" (lower score) then generator else rewriter))).
  { unfold _grade_documents, first_content, last_content, index_first,
      index_last, chain_invoke.
    destruct state as [|m0 state]; [done|]. cbn in Hh. injection Hh as ->.
    rewrite Hl. cbn -[contains lower grader_prompt]. rewrite Hs. reflexivity. }
  pose proof (contains_lower_spec "yes" score) as Hc. cbn [lower] in Hc.
  change (String (lower_char "y") (String (lower_char "e") (String (lower_char "s") "")))
    with "yes" in Hc.
  assert (Hstep : ∀ d before ev upd,
    _grade_documents llm state
      = ([LLMCall (grader_prompt (content first_m) (content last_m))], Ok d) →
    _vector_retriever mcp_tools before = (ev, Ok upd) →
    state = add_messages before upd →
    superstep Retriever before
    = (Visit Retriever :: ev
         ++ [LLMCall (grader_prompt (content first_m) (content last_m)); Grade d],
       Ok (grade_target d, state))).
  { intros d before ev upd Hd Hv ->. unfold Workflow.superstep.
    cbn [node_body route]. unfold tell, mbind, M_bind, bind, mret, M_ret, ret.
    rewrite Hv, Hd. cbn. by rewrite <- app_assoc. }
  eexists. split; [exact Hg|].
  destruct (contains "yes" (lower score)) eqn:Hy.
  - assert (Hm : mentions_ci "yes" score) by (by apply Hc).
    split; [done|]. split; [split; [done | tauto]|].
    split; [|by eauto]. intros ->. destruct Hm as (pre & mid & post & H & Hm).
    destruct pre; [|done]. destruct mid; [done | done].
  - assert (¬ mentions_ci "yes" score) by (by intros H%Hc).
    split; [split; [done | tauto]|]. split; [done|]. split; [done | by eauto].
Qed.

(** C4 (as amended): every state an invocation passes through is the
    history saved for the thread, then the query, then what the nodes have
    appended; on a thread without history the first message is the query.
    The last message is the most recently produced one, and a step out of
    a node appends exactly one message behind those already there. *)
Theorem C4_conversation_state (checkpoints : gmap string AgentState)
    (query thread_id : string) (n : Node) (state : AgentState) :
  reachable (START, initial_state checkpoints query thread_id) (n, state) →
  (∃ appended,
      state = default [] (checkpoints !! thread_id) ++ HumanMessage query :: appended
      ∧ last state = last (HumanMessage query :: appended))
  ∧ (checkpoints !! thread_id = None → head state = Some (HumanMessage query))
  ∧ (∀ ev n' state',
       n ≠ END → superstep n state = (ev, Ok (n', state')) →
       match node_body llm mcp_tools n with
       | Some _ => ∃ m, state' = state ++ [m] ∧ last state' = Some m
       | None => state' = state
       end).
Proof.
  intros Hr.
  assert (Hshape : ∃ appended,
    state = default [] (checkpoints !! thread_id) ++ HumanMessage query :: appended).
  { remember (START, initial_state checkpoints query thread_id) as c0 eqn:Hc0.
    remember (n, state) as c eqn:Hc. revert n state Hc.
    induction Hr as [|n0 st0 ev c' _ IH Hn Hs]; intros n state Hc.
    - subst c0. injection Hc as <- <-. by exists [].
    - subst c'. destruct (IH _ _ eq_refl) as [appended ->].
      apply superstep_ok in Hs as (_ & Hb & _); [|done].
      destruct (node_body llm mcp_tools n0) as [body|].
      + destruct Hb as [_ [msg ->]]. exists (appended ++ [msg]).
        by rewrite <- app_assoc.
      + destruct Hb as [_ ->]. by exists appended. }
  destruct Hshape as [appended ->]. split; [|split].
  - exists appended. split; [done|]. by rewrite last_app_cons.
  - intros ->. done.
  - intros ev n' state' Hn Hs. apply superstep_ok in Hs as (_ & Hb & _); [|done].
    destruct (node_body llm mcp_tools n) as [body|]; [|by destruct Hb].
    destruct Hb as [_ [msg ->]]. exists msg. by rewrite last_snoc.
Qed.

End WorkflowClaims.

Section WorkflowExamples.
Import Text Py Workflow.

(** The scenario of the specification: the query mentions a price, the
    context is graded relevant, three nodes are visited. *)
Example price_query_run :
  (run llm_yes echo_tools ∅ "What is the price of iPhone 16?" default_thread).1.2
  = [ Visit Assistant;
      Visit Retriever; ToolCall "get_product_info" "TOOL: retriever";
      LLMCall (grader_prompt "What is the price of iPhone 16?"
                 ("Title: N/A" +:+ NL +:+ "Reviews: TOOL: retriever"));
      Grade generator;
      Visit Generator;
      LLMCall (product_bot_prompt ("Title: N/A" +:+ NL +:+ "Reviews: TOOL: retriever")
                 "What is the price of iPhone 16?") ].
Proof. vm_compute. reflexivity. Qed.

Example rejected_context_run :
  visited (run llm_no echo_tools ∅ "Any review of the Pixel 9?" default_thread).1.2
  = [Assistant; Retriever; Rewriter; WebSearch; Generator].
Proof. vm_compute. reflexivity. Qed.

Lemma C2_grade_documents_witness :
  let state := [HumanMessage "What is the price of iPhone 16?";
                HumanMessage "TOOL: retriever";
                HumanMessage "Title: iPhone 16"] in
  let first_m := HumanMessage "What is the price of iPhone 16?" in
  let last_m := HumanMessage "Title: iPhone 16" in
  head state = Some first_m ∧ last state = Some last_m
  ∧ llm_yes (grader_prompt (content first_m) (content last_m)) = Ok "Yes."
  ∧ ∃ d, _grade_documents llm_yes state
         = ([LLMCall (grader_prompt (content first_m) (content last_m))], Ok d)
       ∧ (d = generator ↔ mentions_ci "yes" "Yes.")
       ∧ (d = rewriter ↔ ¬ mentions_ci "yes" "Yes.")
       ∧ ("Yes." = "" → d = rewriter)
       ∧ ∀ before ev upd,
           _vector_retriever echo_tools before = (ev, Ok upd) →
           state = add_messages before upd →
           superstep llm_yes echo_tools Retriever before
           = (Visit Retriever :: ev
                ++ [LLMCall (grader_prompt (content first_m) (content last_m)); Grade d],
              Ok (grade_target d, state)).
Proof.
  cbv zeta. split; [reflexivity|]. split; [reflexivity|]. split; [reflexivity|].
  apply (C2_grade_documents llm_yes echo_tools
           [HumanMessage "What is the price of iPhone 16?";
            HumanMessage "TOOL: retriever"; HumanMessage "Title: iPhone 16"]
           (HumanMessage "What is the price of iPhone 16?")
           (HumanMessage "Title: iPhone 16") "Yes."); reflexivity.
Defined.

(** C4 (as stated) fails on a thread that is used twice: the second
    invocation starts from the messages of the first, whose query stays in
    front. *)
Lemma C4_first_message_counterexample :
  ¬ first_message_is_query llm_yes echo_tools
      (run llm_yes echo_tools ∅ "What is the price of iPhone 16?" default_thread).1.1
      "Is the Galaxy S25 a good product?" default_thread.
Proof.
  intros H. specialize (H START _ (reach_start _ _ _)).
  revert H. vm_compute. discriminate.
Qed.

Lemma C4_conversation_state_witness :
  let query := "Is the Galaxy S25 a good product?" in
  let state := [HumanMessage query; HumanMessage "TOOL: retriever"] in
  reachable llm_yes echo_tools (START, initial_state ∅ query default_thread)
    (Retriever, state)
  ∧ (∃ appended,
        state = default [] ((∅ : gmap string AgentState) !! default_thread)
                  ++ HumanMessage query :: appended
        ∧ last state = last (HumanMessage query :: appended))
  ∧ ((∅ : gmap string AgentState) !! default_thread = None →
     head state = Some (HumanMessage query))
  ∧ (∀ ev n' state',
       Retriever ≠ END →
       superstep llm_yes echo_tools Retriever state = (ev, Ok (n', state')) →
       match node_body llm_yes echo_tools Retriever with
       | Some _ => ∃ m, state' = state ++ [m] ∧ last state' = Some m
       | None => state' = state
       end).
Proof.
  cbv zeta.
  assert (Hr : reachable llm_yes echo_tools
                 (START, initial_state ∅ "Is the Galaxy S25 a good product?" default_thread)
                 (Retriever, [HumanMessage "Is the Galaxy S25 a good product?";
                              HumanMessage "TOOL: retriever"])).
  { apply reach_step with (n := Assistant) (ev := [Visit Assistant])
      (state := [HumanMessage "Is the Galaxy S25 a good product?"]);
      [|done|reflexivity].
    apply reach_step with (n := START) (ev := [])
      (state := [HumanMessage "Is the Galaxy S25 a good product?"]);
      [|done|reflexivity].
    apply reach_start. }
  split; [exact Hr|].
  exact (C4_conversation_state llm_yes echo_tools ∅ _ default_thread _ _ Hr).
Defined.

End WorkflowExamples.

(** ** The tool server *)
Section ServerClaims.
Import Text Py Server.

Variable retriever_invoke : string → res (list Document).
Variable duckduckgo_run : string → res string.

Lemma format_doc_title (d : Document) : ∃ rest, format_doc d = "Title: " +:+ rest.
Proof. unfold format_doc. eauto. Qed.

(** The context of a non-empty result starts with the title line. *)
Lemma format_docs_title (d : Document) (docs : list Document) :
  ∃ rest, format_docs (d :: docs) = "Title: " +:+ rest.
Proof.
  destruct (format_doc_title d) as [rest Hd]. unfold format_docs.
  rewrite fmap_cons. cbn [join]. rewrite Hd.
  destruct (format_doc <$> docs); [by eauto|].
  rewrite str_app_assoc. eauto.
Qed.

(** Only the empty result formats to an empty or whitespace-only context. *)
Lemma format_docs_blank (docs : list Document) :
  all_space (format_docs docs) = true ↔ docs = [].
Proof.
  destruct docs as [|d docs]; [done|].
  destruct (format_docs_title d docs) as [rest ->].
  change ("Title: " +:+ rest) with (String "T" ("itle: " +:+ rest)).
  rewrite all_space_head; [done|]. by apply (bool_decide_unpack _).
Qed.

Lemma blank_test (s : string) : negb (truthy (strip s)) = all_space s.
Proof.
  destruct (all_space s) eqn:H.
  - apply strip_empty in H. by rewrite H.
  - destruct (strip s) eqn:Hs; [|done]. apply strip_empty in Hs. congruence.
Qed.

Lemma get_product_info_result (query : string) :
  result (get_product_info retriever_invoke query)
  = Ok (match retriever_invoke query with
        | Ok docs =>
            if all_space (format_docs docs) then sentinel else format_docs docs
        | Raise e => "Error retrieving product info: " +:+ exc_str e
        end).
Proof.
  unfold get_product_info, try_except, result, tell, lift, mbind, M_bind, bind.
  destruct (retriever_invoke query) as [docs|e]; [|done].
  rewrite blank_test. by destruct (all_space (format_docs docs)).
Qed.

(** C5: neither tool raises: each returns a string whatever the service
    behind it does, an exception being turned into a message that starts
    with the error prefix; [get_product_info] returns the sentinel exactly
    when the retriever answered and the formatted context is empty or all
    whitespace, and the context itself otherwise. *)
Theorem C5_tools_never_raise (query : string) :
  result (get_product_info retriever_invoke query)
  = Ok (match retriever_invoke query with
        | Ok docs =>
            if all_space (format_docs docs) then sentinel else format_docs docs
        | Raise e => "Error retrieving product info: " +:+ exc_str e
        end)
  ∧ (result (get_product_info retriever_invoke query) = Ok sentinel
     ↔ ∃ docs, retriever_invoke query = Ok docs
               ∧ all_space (format_docs docs) = true)
  ∧ result (web_search duckduckgo_run query)
    = Ok (match duckduckgo_run query with
          | Ok text => text
          | Raise e => "Error during web search: " +:+ exc_str e
          end).
Proof.
  split; [apply get_product_info_result|]. split.
  - rewrite get_product_info_result.
    destruct (retriever_invoke query) as [docs|e].
    + destruct (all_space (format_docs docs)) eqn:Hb.
      * split; [by eauto | done].
      * split; [|by intros (? & [= <-] & ?); congruence].
        intros [= H]. destruct docs as [|d docs]; [done|].
        destruct (format_docs_title d docs) as [rest Hr]. rewrite Hr in H.
        discriminate.
    + split; [discriminate | by intros (? & ? & ?)].
  - unfold web_search, try_except, result, lift.
    by destruct (duckduckgo_run query).
Qed.

End ServerClaims.

(** ** The client and its fallback *)
Section ClientClaims.
Import Text Py Client.

Lemma fallback_test (r : string) :
  negb (truthy (strip r)) || contains "No local results found." r = true
  ↔ no_local_result r.
Proof.
  unfold no_local_result.
  rewrite orb_true_iff, <- contains_spec, <- all_space_spec, <- strip_empty.
  destruct (strip r); cbn; intuition congruence.
Qed.

Lemma find_name (tools : list Tool) (wanted : string) (t : Tool) :
  List.find (λ t, bool_decide (name t = wanted)) tools = Some t → name t = wanted.
Proof. intros [_ H]%find_some. by apply bool_decide_eq_true in H. Qed.

(** The events of [main] when both tools are present and the retriever
    answers [r] in time. *)
Lemma main_events (tools : list Tool) (retriever_tool web_tool : Tool) (r : string) :
  List.find (λ t, bool_decide (name t = "get_product_info")) tools = Some retriever_tool →
  List.find (λ t, bool_decide (name t = "web_search")) tools = Some web_tool →
  ainvoke retriever_tool query = Ok r →
  events (main (Ok tools))
  = [ Print [Str "Creating MCP client..."];
      Print [Str "Connecting to MCP server and discovering tools..."];
      Print [Str "Available tools:"; Names (name <$> tools)];
      Print [Str ("Querying retriever with: " +:+ query)];
      Invoke "get_product_info" query;
      Print [Str (NL +:+ "Retriever Result:" +:+ NL); Str r] ]
    ++ if negb (truthy (strip r)) || contains "No local results found." r
       then [ Print [Str (NL +:+ " No local results, falling back to web search..." +:+ NL)];
              Invoke "web_search" query ]
            ++ match ainvoke web_tool query with
               | Ok w => [Print [Str ("Web Search Result:" +:+ NL); Str w]]
               | Raise e => [Print [Str "Error occurred: "; Error e]; PrintExc]
               end
       else [].
Proof.
  intros Hr Hw Ha. pose proof (find_name _ _ _ Hr) as Hrn.
  pose proof (find_name _ _ _ Hw) as Hwn.
  unfold main, pick, tool_ainvoke, except_timeout, try_except, events,
    tell, lift, mbind, mret, M_bind, M_ret, bind, ret.
  rewrite Hr, Hw, Ha, Hrn, Hwn. cbn -[strip contains query String.append].
  destruct (negb (truthy (strip r)) || contains "No local results found." r);
    cbn -[query String.append]; [|done].
  by destruct (ainvoke web_tool query).
Qed.

(** C8 (as amended): when the retriever result is empty, all whitespace, or
    contains the sentinel, [web_search] is invoked exactly once, with the
    query, and its result is the last thing printed; for every other
    retriever result, that is one that is neither empty nor all whitespace
    and does not contain the sentinel, [web_search] is not invoked. *)
Theorem C8_fallback_to_web_search (tools : list Tool) (retriever_tool web_tool : Tool)
    (r : string) :
  List.find (λ t, bool_decide (name t = "get_product_info")) tools = Some retriever_tool →
  List.find (λ t, bool_decide (name t = "web_search")) tools = Some web_tool →
  ainvoke retriever_tool query = Ok r →
  (no_local_result r →
     invocations "web_search" (events (main (Ok tools))) = [query]
     ∧ ∀ w, ainvoke web_tool query = Ok w →
            last (events (main (Ok tools)))
            = Some (Print [Str ("Web Search Result:" +:+ NL); Str w]))
  ∧ (¬ no_local_result r →
     invocations "web_search" (events (main (Ok tools))) = []).
Proof.
  intros Hr Hw Ha. rewrite (main_events _ _ _ _ Hr Hw Ha).
  pose proof (fallback_test r) as Hf.
  destruct (negb (truthy (strip r)) || contains "No local results found." r).
  - split; [|intros H; destruct H; by apply Hf]. intros _. split.
    + by destruct (ainvoke web_tool query).
    + by intros w ->.
  - split; [|done]. intros H%Hf. done.
Qed.

End ClientClaims.

Section ClientExamples.
Import Text Py Client.

Lemma C8_fallback_to_web_search_witness :
  let tools := [silent_retriever; web_tool] in
  List.find (λ t, bool_decide (name t = "get_product_info")) tools = Some silent_retriever
  ∧ List.find (λ t, bool_decide (name t = "web_search")) tools = Some web_tool
  ∧ ainvoke silent_retriever query = Ok ""
  ∧ (no_local_result "" →
       invocations "web_search" (events (main (Ok tools))) = [query]
       ∧ ∀ w, ainvoke web_tool query = Ok w →
              last (events (main (Ok tools)))
              = Some (Print [Str ("Web Search Result:" +:+ NL); Str w]))
  ∧ (¬ no_local_result "" →
       invocations "web_search" (events (main (Ok tools))) = []).
Proof.
  cbv zeta. split; [reflexivity|]. split; [reflexivity|]. split; [reflexivity|].
  apply (C8_fallback_to_web_search [silent_retriever; web_tool]
           silent_retriever web_tool ""); reflexivity.
Defined.

(** C8 (as stated) fails in its second half: a retriever result of one
    space is not empty and does not contain the sentinel, and the web search
    is invoked all the same. *)
Lemma C8_nonempty_result_counterexample :
  ainvoke space_retriever query = Ok " "
  ∧ invocations "web_search" (events (main (Ok [space_retriever; web_tool]))) = [query]
  ∧ ¬ nonempty_result_kept (events (main (Ok [space_retriever; web_tool]))) " ".
Proof.
  split; [reflexivity|]. split; [vm_compute; reflexivity|].
  intros H.
  assert (Hs : ¬ ∃ pre post, " " = pre +:+ "No local results found." +:+ post).
  { intros Hc%contains_spec. vm_compute in Hc. discriminate Hc. }
  specialize (H ltac:(discriminate) Hs). vm_compute in H. discriminate H.
Qed.

(** A result of one no-break space, U+00A0, is whitespace to [strip], and
    the web search runs. *)
Example no_break_space_run :
  invocations "web_search"
    (events (main (Ok [mkTool "get_product_info" (λ _, Ok (utf8 [194; 160]%N)); web_tool])))
  = [query].
Proof. vm_compute. reflexivity. Qed.

(** The scenario of the specification: the retriever returns the empty
    string for the fixed query and the web search runs once. *)
Example dell_laptop_run :
  events (main (Ok [silent_retriever; web_tool]))
  = [ Print [Str "Creating MCP client..."];
      Print [Str "Connecting to MCP server and discovering tools..."];
      Print [Str "Available tools:"; Names ["get_product_info"; "web_search"]];
      Print [Str "Querying retriever with: Dell Laptop?"];
      Invoke "get_product_info" "Dell Laptop?";
      Print [Str (NL +:+ "Retriever Result:" +:+ NL); Str ""];
      Print [Str (NL +:+ " No local results, falling back to web search..." +:+ NL)];
      Invoke "web_search" "Dell Laptop?";
      Print [Str ("Web Search Result:" +:+ NL); Str "Results for Dell Laptop?"] ].
Proof. vm_compute. reflexivity. Qed.

(** A retriever that times out is reported as such and no web search
    follows: the substituted text is neither blank nor the sentinel. *)
Example timeout_run :
  invocations "web_search"
    (events (main (Ok [mkTool "get_product_info" (λ _, Raise (mkExc "TimeoutError" ""));
                       web_tool])))
  = [].
Proof. vm_compute. reflexivity. Qed.

End ClientExamples.

(** ** The retriever configuration *)
Section RetrievalClaims.
Import Py Retrieval.

Variable load_embeddings : res ().
Variable load_llm : res ().

Local Abbreviation load_retriever := (Retrieval.load_retriever load_embeddings load_llm).

(** On a fresh object whose store can be built, [load_retriever] raises
    what reading [top_k] raises, and otherwise configures the search with
    the value read. *)
Lemma load_retriever_top_k (cfg : gmap string (gmap string Value))
    (section : gmap string Value) (name : Value) :
  cfg !! "astra_db" = Some section → section !! "collection_name" = Some name →
  load_embeddings = Ok () → load_llm = Ok () →
  match top_k_of cfg with
  | Raise e => result (load_retriever (fresh cfg)) = Raise e
  | Ok v => ∃ self instance,
      result (load_retriever (fresh cfg)) = Ok (self, instance)
      ∧ search_type instance = "mmr"
      ∧ search_kwargs instance = mkSearchKwargs v 20 (7, 10)%Z (6, 10)%Z
  end.
Proof.
  intros Hs Hn He Hl. unfold top_k_of, Retrieval.load_retriever, getitem, fresh, result.
  cbn [vstore retriever_instance config]. rewrite Hs. cbn. rewrite Hn. cbn.
  rewrite He, Hl. cbn.
  destruct (cfg !! "retriever") as [sec|] eqn:Hr; cbn.
  - destruct (sec !! "top_k"); cbn; eauto.
  - eauto.
Qed.

(** C9 (the failing case): a configuration whose [retriever] section has no
    [top_k] entry does not get the default: [load_retriever] raises
    [KeyError].  The default 3 is used when the whole section is absent, and
    a configured [top_k] is passed on as the result count. *)
Theorem C9_top_k_missing_in_section :
  result (Retrieval.load_retriever (Ok ()) (Ok ()) (fresh cfg_no_top_k))
  = Raise (mkExc "KeyError" "'top_k'")
  ∧ (k ∘ search_kwargs ∘ snd
       <$> result_value (Retrieval.load_retriever (Ok ()) (Ok ()) (fresh cfg_no_section)))
    = Some (VInt 3)
  ∧ (k ∘ search_kwargs ∘ snd
       <$> result_value (Retrieval.load_retriever (Ok ()) (Ok ()) (fresh cfg_top_k)))
    = Some (VInt 10).
Proof. vm_compute. done. Qed.

End RetrievalClaims.

(** ** The evaluation functions *)
Section EvaluationClaims.
Import Py RagasEval.

Variable Score : Type.
Variable load_llm : res ().
Variable load_embeddings : res ().
Variable context_precision_ascore : SingleTurnSample → res Score.
Variable response_relevancy_ascore : SingleTurnSample → res Score.
Variable asyncio_run : res ().

(** C10: the two evaluation functions never raise.  Each returns the
    score when every step succeeds, and otherwise returns, as its value, the
    exception of the first step that failed. *)
Theorem C10_evaluation_returns_exception (query response : string)
    (retrieved_context : list string) :
  let sample := mkSample query response retrieved_context in
  result (evaluate_context_precision Score load_llm context_precision_ascore
            asyncio_run query response retrieved_context)
  = Ok (match asyncio_run, load_llm, context_precision_ascore sample with
        | Raise e, _, _ => Exception e
        | Ok _, Raise e, _ => Exception e
        | Ok _, Ok _, Raise e => Exception e
        | Ok _, Ok _, Ok score => Number score
        end)
  ∧ result (evaluate_response_relevancy Score load_llm load_embeddings
              response_relevancy_ascore asyncio_run query response retrieved_context)
    = Ok (match asyncio_run, load_llm, load_embeddings,
                response_relevancy_ascore sample with
          | Raise e, _, _, _ => Exception e
          | Ok _, Raise e, _, _ => Exception e
          | Ok _, Ok _, Raise e, _ => Exception e
          | Ok _, Ok _, Ok _, Raise e => Exception e
          | Ok _, Ok _, Ok _, Ok score => Number score
          end).
Proof.
  unfold evaluate_context_precision, evaluate_response_relevancy, try_except,
    result, lift, mbind, mret, M_bind, M_ret, bind, ret.
  cbv zeta. split.
  - destruct asyncio_run; [|done]. destruct load_llm; [|done].
    by destruct (context_precision_ascore _).
  - destruct asyncio_run; [|done]. destruct load_llm; [|done].
    destruct load_embeddings; [|done].
    by destruct (response_relevancy_ascore _).
Qed.

End EvaluationClaims.

(** ** Ingestion: the check of the columns *)
Section IngestionClaims.
Import Text Py Pandas Ingestion.

Variable model_loader : res ().
Variable environ : gmap string string.
Variable files : gmap string string.
Variable read_csv : string → res DataFrame.
Variable load_config : res (gmap string (gmap string string)).
Variable add_documents : list Document → res (list string).
Variable similarity_search : string → res (list Document).

Local Abbreviation __init__ :=
  (Ingestion.__init__ model_loader environ files read_csv load_config).
Local Abbreviation script :=
  (Ingestion.script model_loader environ files read_csv load_config
     add_documents similarity_search).

Lemma missing_column_not_subset (df : DataFrame) (c : string) :
  c ∈ expected_columns → c ∉ columns df →
  bool_decide (expected_columns ⊆ list_to_set (columns df)) = false.
Proof.
  intros Hc Hn. apply bool_decide_eq_false_2. intros Hs.
  apply Hn. apply Hs in Hc. by apply elem_of_list_to_set in Hc.
Qed.

Lemma load_env_events :
  events (_load_env_variables environ) = [Call "_load_env_variables"].
Proof.
  unfold _load_env_variables. msimpl. cbn [app]. f_equal.
  by destruct (List.filter _ required_vars).
Qed.

Lemma load_env_ok :
  (∀ var, var ∈ required_vars → is_Some (environ !! var)) →
  result (_load_env_variables environ) = Ok ().
Proof.
  intros Hall. unfold _load_env_variables. msimpl.
  destruct (List.filter _ required_vars) as [|v vs] eqn:Hm; [done|]. exfalso.
  assert (Hv : In v (List.filter (λ var, bool_decide (environ !! var = None)) required_vars))
    by (rewrite Hm; by left).
  apply filter_In in Hv as [Hv He%bool_decide_eq_true].
  apply list_elem_of_In, Hall in Hv as [? ?]. congruence.
Qed.

Lemma get_csv_path_present (text : string) :
  files !! "data/product_reviews.csv" = Some text →
  _get_csv_path files = ([Call "_get_csv_path"], Ok "data/product_reviews.csv").
Proof.
  intros Hf. unfold _get_csv_path. rewrite Hf.
  by rewrite bool_decide_eq_true_2 by by eexists.
Qed.

Lemma load_csv_present (path text : string) (df : DataFrame) :
  files !! path = Some text → read_csv text = Ok df →
  _load_csv files read_csv path
  = ([Call "_load_csv"],
     if bool_decide (expected_columns ⊆ list_to_set (columns df)) then Ok df
     else Raise (mkExc "ValueError" "CSV must contain columns")).
Proof.
  intros Hf Hr. unfold _load_csv. rewrite Hf.
  unfold tell, lift, mbind, mret, M_bind, M_ret, bind, ret. cbn. rewrite Hr. cbn.
  by destruct (bool_decide _).
Qed.

(** The constructor fails on a frame that lacks a required column, and
    nothing but calls of the loading methods and one message has happened
    by then. *)
Lemma init_missing_column (text : string) (df : DataFrame) (c : string) :
  files !! "data/product_reviews.csv" = Some text →
  read_csv text = Ok df →
  c ∈ expected_columns → c ∉ columns df →
  ∃ e, result __init__ = Raise e
     ∧ calls (events __init__) ⊆ ["_load_env_variables"; "_get_csv_path"; "_load_csv"]
     ∧ constructed (events __init__) = []
     ∧ stored (events __init__) = []
     ∧ (model_loader = Ok () →
        (∀ var, var ∈ required_vars → is_Some (environ !! var)) →
        e = mkExc "ValueError" "CSV must contain columns").
Proof.
  intros Hf Hr Hc Hn. pose proof (missing_column_not_subset _ _ Hc Hn) as Hb.
  pose proof (load_csv_present _ _ _ Hf Hr) as Hl. rewrite Hb in Hl.
  pose proof load_env_events as Hev. pose proof load_env_ok as Hok.
  unfold Ingestion.__init__. rewrite (get_csv_path_present _ Hf).
  unfold tell, lift, mbind, mret, M_bind, M_ret, bind, ret.
  destruct model_loader as [[]|e0]; cbn -[_load_csv _load_env_variables].
  2:{ eexists. repeat split; try done. by intros x ?%elem_of_nil. }
  destruct (_load_env_variables environ) as [ev [[]|e1]];
    unfold events, result in Hev, Hok; cbn [fst snd] in Hev, Hok; subst ev;
    cbn -[_load_csv].
  - rewrite Hl. cbn. eexists. repeat split; try done.
  - eexists. repeat split; try done;
      [intros x ->%list_elem_of_singleton; by left|].
    intros _ Hall. by specialize (Hok Hall).
Qed.

(** C6: when the file lacks a required column, the constructor of the
    ingestion object raises (with [ValueError] from [_load_csv] when the
    environment is complete), so the script ends there: [transform_data] is
    not called, no document is constructed and none reaches the store. *)
Theorem C6_missing_column_fails_before_documents (text : string) (df : DataFrame)
    (c : string) :
  files !! "data/product_reviews.csv" = Some text →
  read_csv text = Ok df →
  c ∈ expected_columns → c ∉ columns df →
  ∃ e, result __init__ = Raise e
     ∧ result script = Raise e
     ∧ ("transform_data" ∉ calls (events script))
     ∧ constructed (events script) = []
     ∧ stored (events script) = []
     ∧ (model_loader = Ok () →
        (∀ var, var ∈ required_vars → is_Some (environ !! var)) →
        e = mkExc "ValueError" "CSV must contain columns").
Proof.
  intros Hf Hr Hc Hn.
  destruct (init_missing_column _ _ _ Hf Hr Hc Hn) as (e & He & Hcalls & Hd & Hs & Hv).
  exists e. unfold Ingestion.script. rewrite result_bind, events_bind, He, app_nil_r.
  repeat split; try done.
  intros H. apply Hcalls in H. revert H.
  rewrite !elem_of_cons, elem_of_nil. intros [H|[H|[H|[]]]]; discriminate.
Qed.

End IngestionClaims.

(** ** Writing a table and tokenizing it again *)
Section CsvFacts.
Import Text Py Csv Pandas.

Lemma feed_app (p : Parser) (a b : string) : feed p (a +:+ b) = feed (feed p a) b.
Proof.
  revert p. induction a as [|c a IH]; intros p; [done|].
  rewrite str_app_cons. cbn [feed]. apply IH.
Qed.

Lemma special_false (c : ascii) :
  special c = false → c ≠ COMMA ∧ c ≠ QUOTE ∧ c ≠ CRc ∧ c ≠ LF.
Proof.
  unfold special. rewrite !orb_false_iff, !bool_decide_eq_false. tauto.
Qed.

Lemma snoc_app (f : string) (c : ascii) (t : string) :
  (f +:+ String c "") +:+ t = f +:+ String c t.
Proof. by rewrite str_app_assoc. Qed.

(** Inside an unquoted field, characters that need no quotes are taken
    as they come. *)
Lemma feed_plain (s f : string) (r : list string) (l : list (list string)) :
  needs_quotes s = false →
  feed (mkParser IN_FIELD f r l) s = mkParser IN_FIELD (f +:+ s) r l.
Proof.
  revert f. induction s as [|c s IH]; intros f Hs.
  - by rewrite str_app_nil_r.
  - cbn in Hs. apply orb_false_iff in Hs as [Hc Hs].
    apply special_false in Hc as (Hcomma & Hquote & Hcr & Hlf).
    cbn [feed]. unfold step, in_field. cbn [state].
    rewrite !bool_decide_eq_false_2 by done.
    unfold set_state, push. cbn. rewrite IH by done. by rewrite snoc_app.
Qed.

Lemma step_open_quote (r : list string) (l : list (list string)) :
  step (mkParser START_FIELD "" r l) QUOTE = mkParser IN_QUOTED_FIELD "" r l.
Proof. reflexivity. Qed.

Lemma step_quote_in_quoted (f : string) (r : list string) (l : list (list string)) :
  step (mkParser IN_QUOTED_FIELD f r l) QUOTE = mkParser QUOTE_IN_QUOTED_FIELD f r l.
Proof. reflexivity. Qed.

Lemma step_quote_quote (f : string) (r : list string) (l : list (list string)) :
  step (mkParser QUOTE_IN_QUOTED_FIELD f r l) QUOTE
  = mkParser IN_QUOTED_FIELD (f +:+ String QUOTE "") r l.
Proof. reflexivity. Qed.

Lemma step_quote_comma (f : string) (r : list string) (l : list (list string)) :
  step (mkParser QUOTE_IN_QUOTED_FIELD f r l) COMMA
  = mkParser START_FIELD "" (r ++ [f]) l.
Proof. reflexivity. Qed.

Lemma step_quote_cr (f : string) (r : list string) (l : list (list string)) :
  step (mkParser QUOTE_IN_QUOTED_FIELD f r l) CRc
  = mkParser EAT_CRNL "" (r ++ [f]) l.
Proof. reflexivity. Qed.

Lemma step_field_comma (f : string) (r : list string) (l : list (list string)) :
  step (mkParser IN_FIELD f r l) COMMA = mkParser START_FIELD "" (r ++ [f]) l.
Proof. reflexivity. Qed.

Lemma step_field_cr (f : string) (r : list string) (l : list (list string)) :
  step (mkParser IN_FIELD f r l) CRc = mkParser EAT_CRNL "" (r ++ [f]) l.
Proof. reflexivity. Qed.

Lemma step_start_comma (f : string) (r : list string) (l : list (list string)) :
  step (mkParser START_FIELD f r l) COMMA = mkParser START_FIELD "" (r ++ [f]) l.
Proof. reflexivity. Qed.

Lemma step_start_cr (f : string) (r : list string) (l : list (list string)) :
  step (mkParser START_FIELD f r l) CRc = mkParser EAT_CRNL "" (r ++ [f]) l.
Proof. reflexivity. Qed.

Lemma step_eat_lf (f : string) (r : list string) (l : list (list string)) :
  step (mkParser EAT_CRNL f r l) LF = mkParser START_RECORD f [] (l ++ [r]).
Proof. reflexivity. Qed.

(** Inside a quoted field, the doubled quotes are read back as one. *)
Lemma feed_quoted (s f : string) (r : list string) (l : list (list string)) :
  feed (mkParser IN_QUOTED_FIELD f r l) (double_quotes s)
  = mkParser IN_QUOTED_FIELD (f +:+ s) r l.
Proof.
  revert f. induction s as [|c s IH]; intros f.
  - by rewrite str_app_nil_r.
  - cbn [double_quotes]. destruct (bool_decide (c = QUOTE)) eqn:Hc.
    + apply bool_decide_eq_true in Hc as ->. cbn [feed].
      rewrite step_quote_in_quoted, step_quote_quote, IH. by rewrite snoc_app.
    + cbn [feed]. unfold step. cbn [state]. rewrite Hc. unfold push. cbn [state field record lines].
      rewrite IH. by rewrite snoc_app.
Qed.

(** A field that needs no quotes, read from the start of a field or of a
    line up to the comma behind it. *)
Lemma feed_blanks_comma (s f : string) (r : list string) (l : list (list string))
    (st : State) :
  st = IN_FIELD ∨ st = WHITESPACE_LINE →
  needs_quotes s = false →
  feed (mkParser st f r l) (s +:+ String COMMA "")
  = mkParser START_FIELD "" (r ++ [f +:+ s]) l.
Proof.
  revert f st. induction s as [|c s IH]; intros f st Hst Hs.
  - rewrite str_app_nil_l, str_app_nil_r. cbn [feed].
    destruct Hst as [-> | ->]; reflexivity.
  - cbn in Hs. apply orb_false_iff in Hs as [Hc Hs].
    apply special_false in Hc as (Hcomma & Hquote & Hcr & Hlf).
    rewrite str_app_cons. cbn [feed].
    assert (Hstep : ∃ st', (st' = IN_FIELD ∨ st' = WHITESPACE_LINE)
              ∧ step (mkParser st f r l) c = mkParser st' (f +:+ String c "") r l).
    { destruct Hst as [-> | ->]; unfold step; cbn [state].
      - exists IN_FIELD. split; [by left|]. unfold in_field.
        by rewrite !bool_decide_eq_false_2 by done.
      - unfold whitespace_line. rewrite !bool_decide_eq_false_2 by done.
        destruct (blank c).
        + exists WHITESPACE_LINE. split; [by right | done].
        + exists IN_FIELD. split; [by left|]. unfold in_field.
          by rewrite !bool_decide_eq_false_2 by done. }
    destruct Hstep as (st' & Hst' & ->). rewrite IH by done. by rewrite snoc_app.
Qed.

Lemma step_first_plain (c : ascii) (r : list string) (l : list (list string))
    (st : State) :
  st = START_FIELD ∨ st = START_RECORD → special c = false →
  ∃ st', (st' = IN_FIELD ∨ st' = WHITESPACE_LINE)
         ∧ step (mkParser st "" r l) c = mkParser st' (String c "") r l.
Proof.
  intros Hst (Hcomma & Hquote & Hcr & Hlf)%special_false.
  destruct Hst as [-> | ->]; unfold step; cbn [state].
  - exists IN_FIELD. split; [by left|]. unfold start_field.
    by rewrite !bool_decide_eq_false_2 by done.
  - unfold start_record. rewrite !bool_decide_eq_false_2 by done.
    destruct (blank c).
    + exists WHITESPACE_LINE. split; [by right | done].
    + exists IN_FIELD. split; [by left|]. unfold start_field.
      by rewrite !bool_decide_eq_false_2 by done.
Qed.

(** A written field and the comma behind it, read at the start of a field
    or of a line: the field comes back as it was. *)
Lemma feed_field_comma (x : string) (r : list string) (l : list (list string))
    (st : State) :
  st = START_FIELD ∨ st = START_RECORD →
  feed (mkParser st "" r l) (write_field x +:+ String COMMA "")
  = mkParser START_FIELD "" (r ++ [x]) l.
Proof.
  intros Hst. unfold write_field. destruct (needs_quotes x) eqn:Hq.
  - rewrite str_app_cons. cbn [feed].
    assert (step (mkParser st "" r l) QUOTE = mkParser IN_QUOTED_FIELD "" r l) as ->
      by (destruct Hst as [-> | ->]; reflexivity).
    rewrite str_app_assoc, str_app_cons, str_app_nil_l, feed_app, feed_quoted.
    cbn [feed]. by rewrite step_quote_in_quoted, step_quote_comma.
  - destruct x as [|c t].
    + destruct Hst as [-> | ->]; reflexivity.
    + cbn in Hq. apply orb_false_iff in Hq as [Hc Ht].
      rewrite str_app_cons. cbn [feed].
      destruct (step_first_plain c r l st Hst Hc) as (st' & Hst' & ->).
      by rewrite feed_blanks_comma.
Qed.

(** The last field of a line and the line terminator behind it. *)
Lemma feed_field_crlf (x : string) (r : list string) (l : list (list string)) :
  feed (mkParser START_FIELD "" r l) (write_field x +:+ CRLF)
  = mkParser START_RECORD "" [] (l ++ [r ++ [x]]).
Proof.
  unfold write_field, CRLF. destruct (needs_quotes x) eqn:Hq.
  - rewrite str_app_cons. cbn [feed].
    rewrite step_open_quote, str_app_assoc, str_app_cons, str_app_nil_l,
      feed_app, feed_quoted.
    cbn [feed]. by rewrite step_quote_in_quoted, step_quote_cr, step_eat_lf.
  - destruct x as [|c t].
    + reflexivity.
    + cbn in Hq. apply orb_false_iff in Hq as [Hc Ht].
      rewrite str_app_cons. cbn [feed].
      apply special_false in Hc as (Hcomma & Hquote & Hcr & Hlf).
      assert (step (mkParser START_FIELD "" r l) c
              = mkParser IN_FIELD (String c "") r l) as ->.
      { unfold step, start_field. cbn [state].
        by rewrite !bool_decide_eq_false_2 by done. }
      rewrite feed_app, feed_plain by done. cbn [feed].
      by rewrite step_field_cr, step_eat_lf.
Qed.

Lemma join_cons (sep a b : string) (l : list string) :
  join sep (a :: b :: l) = a +:+ sep +:+ join sep (b :: l).
Proof. reflexivity. Qed.

(** The fields of a line from the second on. *)
Lemma feed_fields (xs r : list string) (l : list (list string)) :
  xs ≠ [] →
  feed (mkParser START_FIELD "" r l)
    (join (String COMMA "") (write_field <$> xs) +:+ CRLF)
  = mkParser START_RECORD "" [] (l ++ [r ++ xs]).
Proof.
  revert r. induction xs as [|x xs IH]; intros r Hne; [done|].
  destruct xs as [|y xs].
  - cbn [fmap list_fmap join]. apply feed_field_crlf.
  - rewrite !fmap_cons, join_cons, <- !fmap_cons.
    rewrite !str_app_assoc, <- (str_app_assoc (write_field x)), feed_app.
    rewrite feed_field_comma by by left. rewrite IH by done.
    by rewrite <- app_assoc.
Qed.

(** A line of two or more fields is read back as it was written. *)
Lemma feed_writerow (x y : string) (xs : list string) (l : list (list string)) :
  feed (mkParser START_RECORD "" [] l) (writerow (x :: y :: xs))
  = mkParser START_RECORD "" [] (l ++ [x :: y :: xs]).
Proof.
  assert (writerow (x :: y :: xs)
          = write_field x +:+ String COMMA ""
            +:+ (join (String COMMA "") (write_field <$> y :: xs) +:+ CRLF)) as ->.
  { unfold writerow. rewrite !fmap_cons, join_cons, <- !fmap_cons.
    destruct x; by rewrite !str_app_assoc. }
  rewrite <- str_app_assoc, feed_app, feed_field_comma by by right.
  by rewrite feed_fields.
Qed.

Lemma feed_writerows (rows l : list (list string)) :
  Forall (λ row, 2 ≤ length row) rows →
  feed (mkParser START_RECORD "" [] l) (writerows rows)
  = mkParser START_RECORD "" [] (l ++ rows).
Proof.
  intros Hrows. revert l. induction Hrows as [|row rows Hrow _ IH]; intros l.
  - by rewrite app_nil_r.
  - cbn [writerows]. rewrite feed_app.
    destruct row as [|x [|y xs]]; [cbn in Hrow; lia ..|].
    rewrite feed_writerow, IH. by rewrite <- app_assoc.
Qed.

(** Tokenizing what the writer wrote gives back the lines, when each has
    at least two fields. *)
Lemma tokenize_writerows (rows : list (list string)) :
  Forall (λ row, 2 ≤ length row) rows →
  tokenize (writerows rows) = Ok rows.
Proof. intros H. unfold tokenize. by rewrite feed_writerows. Qed.

End CsvFacts.

(** ** Saving the scraped rows and loading them again *)
Section RoundTrip.
Import Text Py Csv Pandas Scrapper Ingestion.

Variable numeric : string → bool.

Lemma pad_lines_exact (width : nat) (data : list (list string)) :
  Forall (λ row, length row = width) data → pad_lines width data = Ok data.
Proof.
  induction 1 as [|row data Hrow _ IH]; [done|]. cbn [pad_lines].
  rewrite decide_False by lia. rewrite IH, Hrow, Nat.sub_diag. cbn.
  by rewrite app_nil_r.
Qed.

(** The columns of a frame are the fields of the first line of the file. *)
Lemma read_csv_columns (text : string) (df : DataFrame) :
  read_csv numeric text = Ok df →
  ∃ data, tokenize text = Ok (columns df :: data).
Proof.
  unfold read_csv. destruct (tokenize text) as [[|first data]|e]; try done.
  destruct (pad_lines _ data); [|done]. intros [= <-]. by exists data.
Qed.

(** What [read_csv] makes of a saved table: the header names the columns
    and every field is converted with the type of its column. *)
Lemma read_csv_saved (data : list (list string)) :
  Forall (λ row, length row = 6) data →
  read_csv numeric (writerow header +:+ writerows data)
  = Ok (mkDataFrame header (converted_rows numeric data)).
Proof.
  intros Hdata. unfold read_csv.
  change (writerow header +:+ writerows data) with (writerows (header :: data)).
  rewrite tokenize_writerows.
  2:{ constructor; [cbn; lia|]. eapply Forall_impl; [done|]. cbn. lia. }
  assert (match data with
          | [] => length header
          | first :: _ => length header `max` length first
          end = 6) as ->.
  { destruct Hdata as [|row data Hrow _]; [done|]. rewrite Hrow. done. }
  rewrite pad_lines_exact by done.
  change (6 - length header) with 0.
  assert ((drop 0 <$> data) = data) as ->.
  { clear. induction data as [|row data IH]; [done|]. by rewrite fmap_cons, IH. }
  reflexivity.
Qed.

Lemma saved_file (files : gmap string string) (data : list (list string)) :
  save_to_csv default_output_dir files data default_filename
    !! "data/product_reviews.csv"
  = Some (writerow header +:+ writerows data).
Proof. unfold save_to_csv. cbn -[writerow writerows]. apply lookup_insert_eq. Qed.

Lemma header_complete :
  bool_decide (expected_columns ⊆ list_to_set header) = true.
Proof.
  apply bool_decide_eq_true_2. unfold expected_columns, header.
  intros c Hc. rewrite elem_of_list_to_set. set_unfold. tauto.
Qed.

(** The loader on a saved table: [transform_data] runs on the converted
    lines. *)
Lemma load_saved (files : gmap string string) (data : list (list string)) :
  Forall (λ row, length row = 6) data →
  load_and_transform numeric (save_to_csv default_output_dir files data default_filename)
  = (tell (Call "_load_csv");;
     transform_data
       (mkDataIngestion "data/product_reviews.csv"
          (mkDataFrame header (converted_rows numeric data)) ∅)).
Proof.
  intros Hdata. unfold load_and_transform.
  rewrite (load_csv_present _ _ _ _ _ (saved_file files data) (read_csv_saved data Hdata)).
  cbn [columns]. rewrite header_complete. reflexivity.
Qed.

Lemma infer_object (raw : list string) :
  raw ≠ [] → Forall (kept_as_text numeric) raw → infer numeric raw = object_dtype.
Proof.
  intros Hne Hraw. destruct Hraw as [|x raw (Hna & Hnum & Hbool) _]; [done|].
  unfold infer. cbn [List.filter]. rewrite Hna. cbn [negb forallb].
  by rewrite Hnum, Hbool.
Qed.

Lemma column_kept (j : nat) (data : list (list string)) :
  Forall (λ row, length row = 6) data →
  Forall (Forall (kept_as_text numeric)) data →
  j < 6 → Forall (kept_as_text numeric) (column j data).
Proof.
  intros Hlen Hkept Hj. unfold column. apply Forall_fmap, Forall_forall.
  intros row Hrow. cbn.
  rewrite Forall_forall in Hlen, Hkept.
  destruct (lookup_lt_is_Some_2 row j) as [x Hx]; [rewrite (Hlen row Hrow); lia|].
  rewrite Hx. cbn. specialize (Hkept row Hrow). rewrite Forall_forall in Hkept.
  apply Hkept. by eapply list_elem_of_lookup_2.
Qed.

(** When every field is kept as text, conversion wraps each field. *)
Lemma converted_rows_kept (data : list (list string)) :
  Forall (λ row, length row = 6) data →
  Forall (Forall (kept_as_text numeric)) data →
  converted_rows numeric data = (λ row : list string, Text <$> row) <$> data.
Proof.
  intros Hlen Hkept. unfold converted_rows.
  destruct data as [|row0 data0] eqn:Hd; [done|]. rewrite <- Hd in *.
  assert (Hne : ∀ j, column j data ≠ []) by (intros j; by rewrite Hd).
  assert ((λ j, infer numeric (column j data)) <$> seq 0 (length header)
          = replicate 6 object_dtype) as ->.
  { change (length header) with 6. cbn [seq fmap list_fmap replicate].
    rewrite !infer_object; try done; apply column_kept; try done; lia. }
  apply list_fmap_ext. intros _ row Hrow%list_elem_of_lookup_2.
  rewrite Forall_forall in Hlen, Hkept.
  specialize (Hlen row Hrow). specialize (Hkept row Hrow).
  destruct row as [|a [|b [|c [|d [|e [|f [|g row]]]]]]]; try done.
  repeat match goal with
         | H : Forall _ (_ :: _) |- _ => apply Forall_cons in H as [(? & _ & _) ?]
         end.
  cbn. unfold convert. by repeat match goal with H : is_na _ = false |- _ => rewrite H; clear H end.
Qed.

Lemma make_document_text (row : list string) :
  length row = 6 →
  ∃ doc, document_of_row row = Some doc
       ∧ make_document header (Text <$> row) = ([NewDocument doc], Ok doc).
Proof.
  intros Hlen.
  destruct row as [|a [|b [|c [|d [|e [|f [|g row]]]]]]]; try done.
  eexists. split; reflexivity.
Qed.

Lemma for_each_text (data : list (list string)) :
  Forall (λ row, length row = 6) data →
  ∃ docs,
    result (for_each (make_document header) ((λ row : list string, Text <$> row) <$> data))
    = Ok docs
    ∧ Forall2 (λ row doc, document_of_row row = Some doc) data docs.
Proof.
  induction 1 as [|row data Hrow _ (docs & Hres & Hall)].
  - by exists [].
  - destruct (make_document_text row Hrow) as (doc & Hdoc & Hmake).
    exists (doc :: docs). split; [|by constructor].
    rewrite fmap_cons. cbn [for_each]. msimpl. rewrite Hmake.
    unfold result at 1. cbn [snd]. msimpl. rewrite Hres. by msimpl.
Qed.

(** C7 (as amended): rows of six fields, none of which the parser reads as
    a missing value, a number or a boolean, come back from the saved file
    as documents with the written values in the five metadata fields and
    the written review text as content, one document per row, in order. *)
Theorem C7_round_trip_of_texts (files : gmap string string) (data : list (list string)) :
  Forall (λ row, length row = 6) data →
  Forall (Forall (kept_as_text numeric)) data →
  round_trip_identical numeric files data.
Proof.
  intros Hlen Hkept. unfold round_trip_identical.
  destruct (for_each_text data Hlen) as (docs & Hres & Hall).
  exists docs. split; [|done].
  rewrite load_saved by done. unfold transform_data.
  cbn [product_data columns rows]. rewrite converted_rows_kept by done.
  msimpl. rewrite Hres. by msimpl.
Qed.

End RoundTrip.

Section EtlExamples.
Import Text Py Csv Pandas Scrapper Ingestion.

Lemma C6_missing_column_fails_before_documents_witness :
  let init := __init__ (Ok ()) full_environ files_without_price
                (read_csv decimal_literal) (Ok ∅) in
  let script := script (Ok ()) full_environ files_without_price
                  (read_csv decimal_literal) (Ok ∅) (λ _, Ok []) (λ _, Ok []) in
  files_without_price !! "data/product_reviews.csv" = Some csv_without_price
  ∧ read_csv decimal_literal csv_without_price = Ok frame_without_price
  ∧ ("price" ∈ expected_columns)
  ∧ ("price" ∉ columns frame_without_price)
  ∧ ∃ e, result init = Raise e
       ∧ result script = Raise e
       ∧ ("transform_data" ∉ calls (events script))
       ∧ constructed (events script) = []
       ∧ stored (events script) = []
       ∧ (Ok () = Ok () →
          (∀ var, var ∈ required_vars → is_Some (full_environ !! var)) →
          e = mkExc "ValueError" "CSV must contain columns").
Proof.
  cbv zeta.
  assert (H3 : "price" ∈ expected_columns)
    by (unfold expected_columns; set_unfold; tauto).
  assert (H4 : "price" ∉ columns frame_without_price).
  { cbn [columns frame_without_price]. rewrite !not_elem_of_cons.
    repeat split; try discriminate. apply not_elem_of_nil. }
  assert (H1 : files_without_price !! "data/product_reviews.csv" = Some csv_without_price)
    by reflexivity.
  assert (H2 : read_csv decimal_literal csv_without_price = Ok frame_without_price).
  { vm_compute. reflexivity. }
  split; [exact H1|]. split; [exact H2|]. split; [exact H3|]. split; [exact H4|].
  exact (C6_missing_column_fails_before_documents (Ok ()) full_environ
           files_without_price (read_csv decimal_literal) (Ok ∅) (λ _, Ok []) (λ _, Ok [])
           csv_without_price frame_without_price "price" H1 H2 H3 H4).
Defined.

(** What the loader returns for a row whose rating is the placeholder of
    the scraper: the rating is the missing value, not the text. *)
Example rating_placeholder_is_missing :
  (λ doc, metadata doc !! "rating")
    <$> default [] (result_value
          (load_and_transform decimal_literal
             (save_to_csv default_output_dir ∅ [row_without_rating] default_filename)))
  = [Some NaN].
Proof. vm_compute. reflexivity. Qed.

(** The boolean texts are recognised whatever the case of their letters. *)
Example mixed_case_booleans :
  infer decimal_literal ["tRuE"; "FaLSE"; "N/A"] = bool_dtype
  ∧ convert bool_dtype "tRuE" = Bool true
  ∧ convert bool_dtype "FaLSE" = Bool false
  ∧ ¬ kept_as_text decimal_literal "tRuE".
Proof.
  split; [reflexivity|]. split; [reflexivity|]. split; [reflexivity|].
  intros (_ & _ & H). discriminate H.
Qed.

(** C7 (as stated) fails: a row whose rating is the text N/A is written and
    loaded, and the document does not carry that text. *)
Lemma C7_round_trip_counterexample :
  ¬ round_trip_identical decimal_literal ∅ [row_without_rating].
Proof.
  intros (docs & Hres & Hall).
  apply Forall2_cons_inv_l in Hall as (doc & docs' & Hdoc & Hnil & ->).
  apply Forall2_nil_inv_l in Hnil as ->.
  cbn in Hdoc. injection Hdoc as <-.
  apply (f_equal (λ r, (λ doc, metadata doc !! "rating") <$> default [] (match r with Ok a => Some a | Raise _ => None end))) in Hres.
  vm_compute in Hres. discriminate.
Qed.

Lemma C7_round_trip_of_texts_witness :
  Forall (λ row, length row = 6) [row_of_texts]
  ∧ Forall (Forall (kept_as_text decimal_literal)) [row_of_texts]
  ∧ round_trip_identical decimal_literal ∅ [row_of_texts].
Proof.
  assert (H1 : Forall (λ row, length row = 6) [row_of_texts])
    by (repeat constructor).
  assert (H2 : Forall (Forall (kept_as_text decimal_literal)) [row_of_texts])
    by (repeat first [apply Forall_nil_2 | apply Forall_cons_2 | split | reflexivity]).
  split; [exact H1|]. split; [exact H2|].
  exact (C7_round_trip_of_texts decimal_literal ∅ [row_of_texts] H1 H2).
Defined.

End EtlExamples.

(** ** The scraper: the reviews of a product page *)
Section ReviewFacts.
Import Text Py Scrapper.

Lemma long_truthy (text : string) : 10 < len text → truthy text = true.
Proof. destruct text; cbn; [lia | done]. Qed.

Lemma scan_blocks_spec (P : string → Prop) (count : Z) (blocks reviews : list string)
    (seen : gset string) :
  scanning reviews seen → Forall P reviews →
  (∀ text, text ∈ blocks → 10 < len text → P text) →
  (Z.of_nat (length reviews) < Z.max count 1)%Z →
  let out := scan_blocks count blocks reviews seen in
  scanning out.1 out.2 ∧ Forall P out.1
  ∧ (Z.of_nat (length out.1) ≤ Z.max count 1)%Z
  ∧ (∀ text, text ∈ reviews → text ∈ out.1)
  ∧ ((Z.of_nat (length out.1) < count)%Z →
     ∀ text, text ∈ blocks → 10 < len text → text ∈ out.1).
Proof.
  revert reviews seen.
  induction blocks as [|text blocks IH]; intros reviews seen [Hseen Hnd] HP Hb Hlen; cbn zeta.
  - cbn. repeat split; try done; try apply Hseen; try lia.
    by intros _ text ?%elem_of_nil.
  - cbn [scan_blocks].
    destruct (truthy text && negb (bool_decide (text ∈ seen)) && (10 <? len text))
      eqn:Hc.
    + apply andb_true_iff in Hc as [[_ Hns%negb_true_iff]%andb_true_iff Hl%Nat.ltb_lt].
      apply bool_decide_eq_false in Hns.
      assert (Hsc : scanning (reviews ++ [text]) ({[text]} ∪ seen)).
      { split.
        - intros t. rewrite elem_of_union, elem_of_singleton, elem_of_app,
            list_elem_of_singleton, Hseen. tauto.
        - apply NoDup_app. split; [done|]. split; [|apply NoDup_singleton].
          intros t Ht ->%list_elem_of_singleton. by apply Hns, Hseen. }
      assert (HP' : Forall P (reviews ++ [text])).
      { apply Forall_app. split; [done|]. apply Forall_singleton, Hb; [by left | done]. }
      destruct (count <=? Z.of_nat (length (reviews ++ [text])))%Z eqn:Hstop.
      * cbn [fst snd]. apply Z.leb_le in Hstop.
        split; [done|]. split; [done|].
        split; [rewrite length_app in *; cbn in *; lia|].
        split; [intros t Ht; apply elem_of_app; by left|]. lia.
      * apply Z.leb_gt in Hstop.
        destruct (IH (reviews ++ [text]) ({[text]} ∪ seen) Hsc HP') as (H1 & H2 & H3 & H4 & H5).
        { intros t Ht. apply Hb. by right. }
        { lia. }
        split; [done|]. split; [done|]. split; [done|].
        split; [intros t Ht; apply H4, elem_of_app; by left|].
        intros Hlt t [->|Ht]%elem_of_cons Hlong.
        -- apply H4, elem_of_app. right. by apply list_elem_of_singleton.
        -- by apply H5.
    + destruct (count <=? Z.of_nat (length reviews))%Z eqn:Hstop.
      * cbn [fst snd]. apply Z.leb_le in Hstop.
        split; [done|]. split; [done|]. split; [lia|]. split; [done|]. lia.
      * apply Z.leb_gt in Hstop.
        destruct (IH reviews seen (conj Hseen Hnd) HP) as (H1 & H2 & H3 & H4 & H5).
        { intros t Ht. apply Hb. by right. }
        { lia. }
        split; [done|]. split; [done|]. split; [done|]. split; [done|].
        intros Hlt t [->|Ht]%elem_of_cons Hlong; [|by apply H5].
        apply H4, Hseen. rewrite (long_truthy _ Hlong) in Hc.
        apply Nat.ltb_lt in Hlong. rewrite Hlong, andb_true_r in Hc. cbn in Hc.
        apply negb_false_iff, bool_decide_eq_true in Hc. done.
Qed.

Lemma scan_selectors_spec (P : string → Prop) (count : Z) (soup : Soup)
    (selectors reviews : list string) (seen : gset string) :
  scanning reviews seen → Forall P reviews →
  (∀ selector text, selector ∈ selectors → text ∈ soup selector →
                    10 < len text → P text) →
  (Z.of_nat (length reviews) < Z.max count 1)%Z →
  let out := scan_selectors count soup selectors reviews seen in
  NoDup out ∧ Forall P out
  ∧ (Z.of_nat (length out) ≤ Z.max count 1)%Z
  ∧ ((Z.of_nat (length out) < count)%Z →
     ∀ selector text, selector ∈ selectors → text ∈ soup selector →
                      10 < len text → text ∈ out)
  ∧ (∀ text, text ∈ reviews → text ∈ out).
Proof.
  revert reviews seen.
  induction selectors as [|selector selectors IH]; intros reviews seen Hsc HP Hb Hlen;
    cbn zeta.
  - cbn. split; [apply Hsc|]. split; [done|]. split; [lia|].
    split; [|done]. by intros _ s t ?%elem_of_nil.
  - cbn [scan_selectors].
    destruct (scan_blocks_spec P count (soup selector) reviews seen Hsc HP)
      as (H1 & H2 & H3 & H4 & H5); [intros t Ht; apply (Hb selector); [by left | done] | done |].
    destruct (scan_blocks count (soup selector) reviews seen) as [reviews' seen'].
    cbn [fst snd] in *.
    destruct (count <=? Z.of_nat (length reviews'))%Z eqn:Hstop.
    + apply Z.leb_le in Hstop. split; [apply H1|]. split; [done|]. split; [done|].
      split; [lia | done].
    + apply Z.leb_gt in Hstop.
      destruct (IH reviews' seen' H1 H2) as (G1 & G2 & G3 & G4 & G5).
      { intros s t Hs. apply Hb. by right. }
      { lia. }
      split; [done|]. split; [done|]. split; [done|].
      split; [|intros t Ht; by apply G5, H4].
      intros Hlt s t [->|Hs]%elem_of_cons Ht Hlong.
      * apply G5, H5; [lia | done | done].
      * by apply (G4 Hlt s).
Qed.


Lemma scanning_start : scanning [] ∅.
Proof. split; [|apply NoDup_nil_2]. intros text. by rewrite elem_of_empty, elem_of_nil. Qed.

(** X1: the reviews taken from a page are pairwise different, each is
    longer than ten characters and is the text of a block that one of the
    selectors of the platform matches, and there are at most [count] of
    them, or at most one when [count] is not positive. *)
Theorem extracted_reviews_sound (platform : string) (soup : Soup) (count : Z) :
  let reviews := _extract_reviews_by_platform platform soup count in
  NoDup reviews
  ∧ Forall (λ text, 10 < len text
                    ∧ ∃ selector, selector ∈ review_selectors platform
                                  ∧ text ∈ soup selector) reviews
  ∧ (Z.of_nat (length reviews) ≤ Z.max count 1)%Z.
Proof.
  cbn zeta. unfold _extract_reviews_by_platform.
  destruct (scan_selectors_spec
              (λ text, 10 < len text
                       ∧ ∃ selector, selector ∈ review_selectors platform
                                     ∧ text ∈ soup selector)
              count soup (review_selectors platform) [] ∅ scanning_start)
    as (H1 & H2 & H3 & _); [done | by eauto | cbn; lia |].
  done.
Qed.

(** X2: when fewer than [count] reviews come back, nothing was left out:
    every text of more than ten characters in a block that a selector of
    the platform matches is among them. *)
Theorem extracted_reviews_complete (platform : string) (soup : Soup) (count : Z)
    (selector text : string) :
  (Z.of_nat (length (_extract_reviews_by_platform platform soup count)) < count)%Z →
  selector ∈ review_selectors platform → text ∈ soup selector →
  10 < len text →
  text ∈ _extract_reviews_by_platform platform soup count.
Proof.
  unfold _extract_reviews_by_platform. intros Hlt Hs Ht Hlong.
  destruct (scan_selectors_spec (λ _, True)
              count soup (review_selectors platform) [] ∅ scanning_start)
    as (_ & _ & _ & H4 & _); [done | done | cbn; lia |].
  by apply (H4 Hlt selector).
Qed.

End ReviewFacts.

Section MoreTextFacts.
Import Text Py.

Lemma join_nonempty (sep x : string) (xs : list string) : x ≠ "" → join sep (x :: xs) ≠ "".
Proof. intros Hx. destruct x; [done|]. destruct xs; cbn; [done|]. by rewrite str_app_cons. Qed.

Lemma all_chars_app (p : ascii → bool) (a b : string) :
  all_chars p (a +:+ b) = all_chars p a && all_chars p b.
Proof.
  induction a as [|c a IH]; [done|]. rewrite str_app_cons. cbn. by rewrite IH, andb_assoc.
Qed.

Context {E : Type}.

Lemma result_try_except {A} (body : M E A) (handler : Exc → M E A) :
  result (try_except body handler)
  = match result body with
    | Ok a => Ok a
    | Raise e => result (handler e)
    end.
Proof.
  unfold try_except, result. destruct body as [ev [a|e]]; cbn; [done|].
  by destruct (handler e).
Qed.

Lemma events_try_except {A} (body : M E A) (handler : Exc → M E A) :
  events (try_except body handler)
  = events body ++ match result body with
                   | Ok a => []
                   | Raise e => events (handler e)
                   end.
Proof.
  unfold try_except, events, result. destruct body as [ev [a|e]]; cbn.
  - by rewrite app_nil_r.
  - by destruct (handler e).
Qed.

End MoreTextFacts.

Section BrowserFacts.
Import Text Py Scrapper.

Variable search : string → string → res (list Item).
Variable load_page : string → res Soup.

Local Abbreviation get_top_reviews := (Scrapper.get_top_reviews load_page).

Lemma extracted_reviews_long (platform : string) (soup : Soup) (count : Z) :
  Forall (λ text, 10 < len text) (_extract_reviews_by_platform platform soup count).
Proof.
  unfold _extract_reviews_by_platform.
  destruct (scan_selectors_spec (λ text, 10 < len text)
              count soup (review_selectors platform) [] ∅ scanning_start)
    as (_ & H & _); [done | done | cbn; lia |].
  done.
Qed.

Lemma reviews_text_nonempty (platform : string) (soup : Soup) (count : Z) :
  match _extract_reviews_by_platform platform soup count with
  | [] => "No reviews found"
  | reviews => join " || " reviews
  end ≠ "".
Proof.
  pose proof (extracted_reviews_long platform soup count) as H.
  destruct (_extract_reviews_by_platform platform soup count) as [|x xs]; [done|].
  apply join_nonempty. apply Forall_cons in H as [Hx _].
  destruct x; [cbn in Hx; lia | done].
Qed.

(** X3: once its browser has started, [get_top_reviews] does not raise:
    it returns a non-empty text, which is the placeholder or the reviews of
    the page joined, and the browser it opened is closed at the end; a URL
    that does not start with http is not loaded at all.  When the browser
    does not start, the exception is passed on and nothing else happens. *)
Theorem get_top_reviews_closes (platform product_url : string) (count : Z) :
  let m := get_top_reviews (Ok ()) platform product_url count in
  (∃ text, result m = Ok text ∧ text ≠ ""
     ∧ (text = "No reviews found"
        ∨ ∃ soup, load_page product_url = Ok soup
                  ∧ text = join " || " (_extract_reviews_by_platform platform soup count)))
  ∧ head (events m) = Some OpenBrowser ∧ last (events m) = Some Quit
  ∧ (startswith "http" product_url = false →
     result m = Ok "No reviews found" ∧ events m = [OpenBrowser; Quit])
  ∧ (∀ e, load_page product_url = Raise e → result m = Ok "No reviews found")
  ∧ (∀ e, get_top_reviews (Raise e) platform product_url count = ([], Raise e)).
Proof.
  cbn zeta. unfold Scrapper.get_top_reviews, try_except, events, result,
    tell, lift, mbind, mret, M_bind, M_ret, bind, ret.
  destruct (startswith "http" product_url); cbn -[join].
  2:{ repeat split; try done. exists "No reviews found". by eauto. }
  destruct (load_page product_url) as [soup|e]; cbn -[join].
  2:{ repeat split; try done. exists "No reviews found". by eauto. }
  pose proof (reviews_text_nonempty platform soup count) as Hne.
  destruct (_extract_reviews_by_platform platform soup count) as [|x xs] eqn:Hx.
  - repeat split; try done. exists "No reviews found". by eauto.
  - repeat split; try done. eexists. split; [reflexivity|]. split; [done|].
    right. exists soup. by rewrite Hx.
Qed.

End BrowserFacts.

(** ** The scraper: the product identifier *)
Section RegexFacts.
Import Text Py Scrapper.

Lemma span_spec (p : ascii → bool) (s : string) :
  s = (span p s).1 +:+ (span p s).2 ∧ all_chars p (span p s).1 = true.
Proof.
  induction s as [|c s [IH1 IH2]]; [done|]. cbn [span].
  destruct (p c) eqn:Hc; [|done]. destruct (span p s) as [a b]. cbn [fst snd] in *.
  rewrite str_app_cons, <- IH1. cbn. by rewrite Hc, IH2.
Qed.

Lemma non_slash_free (s : string) : all_chars non_slash s = true → contains "/" s = false.
Proof.
  induction s as [|c s IH]; [done|]. cbn. unfold non_slash at 1.
  intros [Hc%negb_true_iff%bool_decide_eq_false Hs]%andb_true_iff.
  rewrite IH by done. rewrite decide_False by congruence. done.
Qed.

Lemma alnum_non_slash (s : string) : all_chars alnum s = true → all_chars non_slash s = true.
Proof.
  induction s as [|c s IH]; [done|]. cbn. intros [Hc Hs]%andb_true_iff.
  rewrite IH by done. rewrite andb_true_r. unfold non_slash.
  apply negb_true_iff, bool_decide_eq_false. intros ->. discriminate.
Qed.

Lemma skip_startswith (p s : string) :
  startswith p s = true → s = p +:+ skip (String.length p) s.
Proof.
  revert s. induction p as [|a p IH]; intros s; [done|].
  destruct s as [|b s]; [done|]. cbn. case_decide; [|done]. subst b.
  intros H. by rewrite str_app_cons, <- IH.
Qed.

Lemma htm_group_spec (r g : string) :
  htm_group r = Some g → g ≠ "" ∧ ∃ rest, r = g +:+ ".htm" +:+ rest.
Proof.
  revert g. induction r as [|c r IH]; intros g; [done|]. cbn [htm_group].
  destruct (htm_group r) as [g'|].
  - intros [= <-]. destruct (IH g' eq_refl) as [_ [rest ->]].
    split; [done|]. exists rest. by rewrite str_app_cons.
  - destruct (startswith ".htm" r) eqn:Hs; [|done]. intros [= <-].
    apply startswith_spec in Hs as [post ->]. split; [done|]. by exists post.
Qed.

Lemma first_htm_spec (s g : string) :
  first_htm s = Some g →
  g ≠ "" ∧ contains "/" g = false
  ∧ ∃ pre post, s = pre +:+ "/" +:+ g +:+ ".htm" +:+ post.
Proof.
  induction s as [|c s IH]; [done|]. cbn [first_htm].
  destruct (if bool_decide (c = "/"%char) then htm_group (span non_slash s).1 else None)
    as [g'|] eqn:Hg.
  - intros [= <-]. case_bool_decide as Hc; [|done]. subst c.
    destruct (span_spec non_slash s) as [Hs Hall].
    apply htm_group_spec in Hg as [Hne [rest Hr]]. split; [done|].
    rewrite Hr in Hall. rewrite all_chars_app in Hall.
    apply andb_true_iff in Hall as [Hall _]. split; [by apply non_slash_free|].
    exists "", (rest +:+ (span non_slash s).2).
    rewrite Hs at 1. rewrite Hr. by rewrite !str_app_assoc.
  - intros H. destruct (IH H) as (Hne & Hfree & pre & post & ->).
    split; [done|]. split; [done|]. by exists (String c pre), post.
Qed.

Lemma first_dp_spec (s g : string) :
  first_dp s = Some g →
  g ≠ "" ∧ contains "/" g = false ∧ ∃ pre post, s = pre +:+ "/dp/" +:+ g +:+ post.
Proof.
  induction s as [|c s IH]; [done|]. cbn [first_dp].
  destruct (startswith "/dp/" (String c s)) eqn:Hp.
  - destruct (span_spec non_slash (skip 4 (String c s))) as [Hs Hall].
    destruct (span non_slash (skip 4 (String c s))).1 as [|x g'] eqn:Hg.
    + intros H. destruct (IH H) as (Hne & Hfree & pre & post & ->).
      split; [done|]. split; [done|]. by exists (String c pre), post.
    + intros [= <-]. split; [done|]. split; [by apply non_slash_free|].
      exists "", (span non_slash (skip 4 (String c s))).2.
      rewrite <- Hs. by apply (skip_startswith "/dp/").
  - intros H. destruct (IH H) as (Hne & Hfree & pre & post & ->).
    split; [done|]. split; [done|]. by exists (String c pre), post.
Qed.

Lemma first_itm_spec (s g : string) :
  first_itm s = Some g →
  startswith "itm" g = true ∧ contains "/" g = false
  ∧ ∃ pre post, s = pre +:+ "/p/" +:+ g +:+ post.
Proof.
  induction s as [|c s IH]; [done|]. cbn [first_itm].
  destruct (startswith "/p/itm" (String c s)) eqn:Hp.
  - destruct (span_spec alnum (skip 6 (String c s))) as [Hs Hall].
    destruct (span alnum (skip 6 (String c s))).1 as [|x g'] eqn:Hg.
    + intros H. destruct (IH H) as (Hne & Hfree & pre & post & ->).
      split; [done|]. split; [done|]. by exists (String c pre), post.
    + intros [= <-]. split; [done|].
      split; [apply (non_slash_free ("itm" +:+ String x g')); rewrite all_chars_app;
              by rewrite (alnum_non_slash _ Hall)|].
      exists "", (span alnum (skip 6 (String c s))).2.
      rewrite str_app_nil_l.
      change ("/p/" +:+ ("itm" +:+ String x g') +:+ (span alnum (skip 6 (String c s))).2)
        with ("/p/itm" +:+ (String x g' +:+ (span alnum (skip 6 (String c s))).2)).
      rewrite <- Hs. by apply (skip_startswith "/p/itm").
  - intros H. destruct (IH H) as (Hne & Hfree & pre & post & ->).
    split; [done|]. split; [done|]. by exists (String c pre), post.
Qed.

(** X4: the product identifier is the placeholder, or a non-empty text
    without a slash that stands in the link behind a slash: before [.htm] on
    alza, behind [/dp/] on amazon_de, and behind [/p/], starting with itm,
    on flipkart.  Unknown platforms and a missing link give the
    placeholder. *)
Theorem product_id_shape (platform : string) (href : option string) :
  let id := _extract_product_id platform href in
  id = "N/A"
  ∨ (id ≠ "" ∧ contains "/" id = false
     ∧ ∃ link pre post, href = Some link
         ∧ ((platform = "alza" ∧ link = pre +:+ "/" +:+ id +:+ ".htm" +:+ post)
            ∨ (platform = "amazon_de" ∧ link = pre +:+ "/dp/" +:+ id +:+ post)
            ∨ (platform = "flipkart" ∧ startswith "itm" id = true
               ∧ link = pre +:+ "/p/" +:+ id +:+ post))).
Proof.
  cbn zeta. unfold _extract_product_id. destruct href as [link|]; [|by left].
  case_bool_decide as Ha.
  { destruct (first_htm link) as [g|] eqn:Hg; [|by left]. right.
    apply first_htm_spec in Hg as (Hne & Hfree & pre & post & ->). cbn [default].
    split; [done|]. split; [done|]. eexists; exists pre, post. split; [done|]. by left. }
  case_bool_decide as Hb.
  { destruct (first_dp link) as [g|] eqn:Hg; [|by left]. right.
    apply first_dp_spec in Hg as (Hne & Hfree & pre & post & ->). cbn [default].
    split; [done|]. split; [done|]. eexists; exists pre, post. split; [done|]. right. by left. }
  case_bool_decide as Hc; [|by left].
  destruct (first_itm link) as [g|] eqn:Hg; [|by left]. right.
  apply first_itm_spec in Hg as (Hitm & Hfree & pre & post & ->). cbn [default].
  split; [by destruct g|]. split; [done|]. eexists; exists pre, post. split; [done|].
  right. by right.
Qed.

End RegexFacts.

(** ** The scraper: products *)
Section ProductFacts.
Import Text Py Scrapper.

Lemma span_chars_spec (p : string → bool) (l : list string) :
  l = (span_chars p l).1 ++ (span_chars p l).2
  ∧ Forall (λ ch, p ch = true) (span_chars p l).1.
Proof.
  induction l as [|ch l [IH1 IH2]]; cbn; [by split|].
  destruct (p ch) eqn:Hp; [|by split].
  destruct (span_chars p l) as [a b]. cbn in *. split; [by rewrite <- IH1 | by constructor].
Qed.

Lemma count_at_digit (decimal : string → bool) (l : list string) (m : string) :
  count_at decimal l = Some m → ∃ ch rest, m = ch +:+ rest ∧ decimal ch = true.
Proof.
  unfold count_at. destruct (span_chars_spec decimal l) as [_ Hall].
  destruct (span_chars decimal l) as [d rest]. cbn [fst] in Hall.
  destruct d as [|ch d]; [done|]. apply Forall_cons in Hall as [Hch _].
  cbn [unchars].
  assert (Hd : ∃ ch' rest', ch +:+ unchars d = ch' +:+ rest' ∧ decimal ch' = true).
  { exists ch, (unchars d). by split. }
  destruct rest as [|x rest]; [by intros [= <-]|].
  case_bool_decide; [|by intros [= <-]].
  destruct (span_chars decimal rest).1 as [|x' d']; intros [= <-]; [done|].
  rewrite str_app_assoc. eexists ch, _. by split.
Qed.

Lemma search_count_digit (decimal : string → bool) (s m : string) :
  search_count decimal s = Some m → ∃ ch rest, m = ch +:+ rest ∧ decimal ch = true.
Proof.
  unfold search_count. induction (chars s) as [|x l IH].
  - cbn [search_chars]. destruct (count_at decimal []) eqn:Hc; [|done].
    intros [= <-]. by eapply count_at_digit.
  - cbn [search_chars]. destruct (count_at decimal (x :: l)) eqn:Hc; [|by apply IH].
    intros [= <-]. by eapply count_at_digit.
Qed.

Lemma base_url_http (platform : string) (config : PlatformConfig) (href : string) :
  platform_configs !! platform = Some config →
  startswith "http" (base_url config +:+ href) = true.
Proof.
  unfold platform_configs.
  intros [[_ <-]|[_ [[_ <-]|[_ [_ <-]%lookup_singleton_Some]]%lookup_insert_Some]]%lookup_insert_Some;
    reflexivity.
Qed.

End ProductFacts.

Section ScrapeFacts.
Import Text Py Scrapper.

Variable decimal : string → bool.
Variable search : string → string → res (list Item).
Variable load_page : string → res Soup.

Local Abbreviation _extract_product_data := (Scrapper._extract_product_data decimal).
Local Abbreviation search_count := (Scrapper.search_count decimal).
Local Abbreviation scrape_item := (Scrapper.scrape_item decimal load_page).
Local Abbreviation scrape_items := (Scrapper.scrape_items decimal load_page).
Local Abbreviation scrape_products := (Scrapper.scrape_products decimal search load_page).

(** What [_extract_product_data] returns, read off the five look-ups. *)
Lemma extract_product_data_result (platform : string) (config : PlatformConfig)
    (item : Item) :
  result (_extract_product_data platform config item)
  = Ok (match find_element item (title_selector config),
              find_element item (price_selector config),
              find_element item (link_selector config) with
        | Ok title_el, Ok price_el, Ok link_el =>
            match el_href link_el with
            | Some href =>
                Some (mkProductData
                        (_extract_product_id platform (Some href))
                        (strip (el_text title_el))
                        (match find_element item (rating_selector config) with
                         | Ok el => strip (el_text el)
                         | Raise _ => "N/A"
                         end)
                        (match find_element item (reviews_selector config) with
                         | Ok el => default "N/A" (search_count (strip (el_text el)))
                         | Raise _ => "N/A"
                         end)
                        (strip (el_text price_el))
                        (if startswith "http" href then href else base_url config +:+ href))
            | None => None
            end
        | _, _, _ => None
        end).
Proof.
  unfold Scrapper._extract_product_data. rewrite result_try_except. msimpl.
  destruct (find_element item (title_selector config)) as [title_el|e]; [|done].
  msimpl. destruct (find_element item (price_selector config)) as [price_el|e]; [|done].
  msimpl. destruct (find_element item (link_selector config)) as [link_el|e]; [|done].
  destruct (el_href link_el) as [href|]; by msimpl.
Qed.

(** X5: [_extract_product_data] does not raise.  It returns nothing
    exactly when the title, the price or the link is not found or the link
    has no address; what it returns for a configured platform has a link
    that starts with http, and a review count that is the placeholder or
    starts with a character that [\d] matches, a decimal digit of any
    script. *)
Theorem product_data_wellformed (platform : string) (config : PlatformConfig)
    (item : Item) :
  ∃ r, result (_extract_product_data platform config item) = Ok r
    ∧ (r = None ↔
         (∃ e, find_element item (title_selector config) = Raise e)
         ∨ (∃ e, find_element item (price_selector config) = Raise e)
         ∨ (∃ e, find_element item (link_selector config) = Raise e)
         ∨ (∃ el, find_element item (link_selector config) = Ok el ∧ el_href el = None))
    ∧ ∀ pd, r = Some pd →
        (platform_configs !! platform = Some config →
         startswith "http" (pd_link pd) = true)
        ∧ (pd_total_reviews pd = "N/A"
           ∨ ∃ ch rest, pd_total_reviews pd = ch +:+ rest ∧ decimal ch = true).
Proof.
  eexists. split; [apply extract_product_data_result|].
  destruct (find_element item (title_selector config)) as [title_el|e1].
  2:{ split; [split; [by eauto | done] | done]. }
  destruct (find_element item (price_selector config)) as [price_el|e2].
  2:{ split; [split; [by eauto | done] | done]. }
  destruct (find_element item (link_selector config)) as [link_el|e3].
  2:{ split; [split; [by eauto 6 | done] | done]. }
  destruct (el_href link_el) as [href|] eqn:Hh.
  2:{ split; [split; [by eauto 7 | done] | done]. }
  split.
  - split; [done|]. intros [[? ?]|[[? ?]|[[? ?]|(el & [= <-] & ?)]]]; congruence.
  - pose proof (base_url_http platform config href) as Hb.
    assert (Hcount :
      match find_element item (reviews_selector config) with
      | Ok el => default "N/A" (search_count (strip (el_text el)))
      | Raise _ => "N/A"
      end = "N/A"
      ∨ ∃ ch rest,
          match find_element item (reviews_selector config) with
          | Ok el => default "N/A" (search_count (strip (el_text el)))
          | Raise _ => "N/A"
          end = ch +:+ rest ∧ decimal ch = true).
    { destruct (find_element item (reviews_selector config)) as [el|]; [|by left].
      destruct (search_count (strip (el_text el))) as [m|] eqn:Hm; [|by left].
      right. by apply (search_count_digit decimal (strip (el_text el))). }
    destruct (startswith "http" href) eqn:Hs; intros pd Hpd; injection Hpd as <-;
      (split; [intros Hc | exact Hcount]); [exact Hs | exact (Hb Hc)].
Qed.

Lemma scrape_item_rows (chrome : res ()) (platform : string) (config : PlatformConfig)
    (review_count : Z) (item : Item) :
  ∃ rows, result (scrape_item chrome platform config review_count item) = Ok rows
        ∧ Forall (λ row, length row = 6) rows ∧ length rows ≤ 1.
Proof.
  unfold Scrapper.scrape_item. rewrite result_try_except. msimpl.
  destruct (result (_extract_product_data platform config item)) as [[pd|]|e].
  - msimpl. destruct (result (Scrapper.get_top_reviews _ _ _ _ _)) as [text|e].
    + msimpl. eexists. split; [done|]. split; [by repeat constructor | cbn; lia].
    + msimpl. exists []. split; [done|]. split; [done | cbn; lia].
  - msimpl. exists []. split; [done|]. split; [done | cbn; lia].
  - msimpl. exists []. split; [done|]. split; [done | cbn; lia].
Qed.

Lemma scrape_items_rows (launch : nat → res ()) (platform : string)
    (config : PlatformConfig) (review_count : Z) (i : nat) (items : list Item) :
  ∃ rows, result (scrape_items launch platform config review_count i items) = Ok rows
        ∧ Forall (λ row, length row = 6) rows ∧ length rows ≤ length items.
Proof.
  revert i. induction items as [|item items IH]; intros i.
  - exists []. by repeat split.
  - destruct (scrape_item_rows (launch i) platform config review_count item)
      as (rows & Hr & Hsix & Hlen).
    destruct (IH (S i)) as (more & Hm & Hsix' & Hlen').
    exists (rows ++ more). cbn [Scrapper.scrape_items]. msimpl. rewrite Hr. msimpl.
    rewrite Hm. msimpl. split; [done|]. split; [by apply Forall_app|].
    rewrite length_app. cbn [length]. lia.
Qed.

Lemma slice_to_length {A} (n : Z) (l : list A) :
  length (slice_to n l) ≤ length l
  ∧ ((0 ≤ n)%Z → (Z.of_nat (length (slice_to n l)) ≤ n)%Z).
Proof.
  unfold slice_to. destruct (0 <=? n)%Z eqn:Hn.
  - rewrite length_take. split; lia.
  - apply Z.leb_gt in Hn. rewrite length_take. split; lia.
Qed.

(** What [scrape_products] returns once the search page has been read. *)
Lemma scrape_products_found (launch : nat → res ()) (platform query : string)
    (max_products review_count : Z) (config : PlatformConfig) (items : list Item) :
  platform_configs !! platform = Some config →
  search (search_url config +:+ plus_for_spaces query) (product_selector config)
  = Ok items →
  ∃ rows,
    result (scrape_products (Ok ()) launch platform query max_products review_count)
    = Ok rows
    ∧ Forall (λ row, length row = 6) rows
    ∧ length rows ≤ length items
    ∧ ((0 ≤ max_products)%Z → (Z.of_nat (length rows) ≤ max_products)%Z)
    ∧ last (events (scrape_products (Ok ()) launch platform query max_products
                      review_count)) = Some Quit.
Proof.
  intros Hc Hs. unfold Scrapper.scrape_products, Retrieval.getitem. rewrite Hc.
  msimpl. rewrite Hs. msimpl.
  set (found := slice_to max_products
                  (if bool_decide (platform = "amazon_de")
                   then List.filter (λ item, negb (contains "Sponsored" (item_text item))) items
                   else items)).
  destruct (scrape_items_rows launch platform config review_count 0 found)
    as (rows & Hr & Hsix & Hlen).
  rewrite Hr. msimpl. exists rows. split; [done|]. split; [done|].
  destruct (slice_to_length max_products
              (if bool_decide (platform = "amazon_de")
               then List.filter (λ item, negb (contains "Sponsored" (item_text item))) items
               else items)) as [Hl Hn].
  fold found in Hl, Hn.
  assert (length (if bool_decide (platform = "amazon_de")
                  then List.filter (λ item, negb (contains "Sponsored" (item_text item))) items
                  else items) ≤ length items) as Hf.
  { destruct (bool_decide (platform = "amazon_de")); [apply List.filter_length_le | done]. }
  split; [lia|]. split; [lia|].
  rewrite app_nil_r, !app_assoc. apply last_snoc.
Qed.

(** X6: [scrape_products] raises only when the platform has no
    configuration, when its browser does not start, or when the search page
    cannot be read; no item makes it raise.  What it returns are rows of six
    fields, no more than [max_products] of them when that is not negative,
    and its browser is closed at the end. *)
Theorem scrape_products_rows (chrome : res ()) (launch : nat → res ())
    (platform query : string) (max_products review_count : Z) :
  let m := scrape_products chrome launch platform query max_products review_count in
  match result m with
  | Ok rows =>
      Forall (λ row, length row = 6) rows
      ∧ ((0 ≤ max_products)%Z → (Z.of_nat (length rows) ≤ max_products)%Z)
      ∧ last (events m) = Some Quit
  | Raise e =>
      (platform_configs !! platform = None ∧ e = mkExc "KeyError" (repr platform)
       ∧ events m = [])
      ∨ (chrome = Raise e ∧ events m = [])
      ∨ ∃ config,
          platform_configs !! platform = Some config
          ∧ search (search_url config +:+ plus_for_spaces query) (product_selector config)
            = Raise e
  end.
Proof.
  cbn zeta. destruct (platform_configs !! platform) as [config|] eqn:Hc.
  2:{ unfold Scrapper.scrape_products, Retrieval.getitem. rewrite Hc. msimpl. by left. }
  destruct chrome as [[]|e].
  2:{ unfold Scrapper.scrape_products, Retrieval.getitem. rewrite Hc. msimpl.
      right; left. done. }
  destruct (search (search_url config +:+ plus_for_spaces query) (product_selector config))
    as [items|e] eqn:Hs.
  - destruct (scrape_products_found launch platform query max_products review_count
                config items Hc Hs) as (rows & -> & Hsix & _ & Hn & Hq).
    done.
  - unfold Scrapper.scrape_products, Retrieval.getitem. rewrite Hc. msimpl.
    rewrite Hs. msimpl. right; right. by exists config.
Qed.

End ScrapeFacts.

(** ** The client: what it invokes, and that it ends quietly *)
Section ClientFacts.
Import Text Py Client.

Ltac unfold_main :=
  unfold main, pick, tool_ainvoke, except_timeout, try_except, events, result,
    tell, lift, mbind, mret, M_bind, M_ret, bind, ret.

(** X7: [main] never raises, whatever the server and its tools do; it
    invokes [get_product_info] at most once and [web_search] at most once
    and only after it, both with the fixed query, and no other tool. *)
Theorem main_never_raises (get_tools : res (list Tool)) :
  result (main get_tools) = Ok ()
  ∧ invoked (events (main get_tools))
      `prefix_of` [("get_product_info", query); ("web_search", query)].
Proof.
  destruct get_tools as [tools|e]; [|split; [done | by apply prefix_nil]].
  destruct (List.find (λ t, bool_decide (name t = "get_product_info")) tools)
    as [rt|] eqn:Hr.
  2:{ unfold_main. rewrite Hr. cbn. split; [done | by apply prefix_nil]. }
  destruct (List.find (λ t, bool_decide (name t = "web_search")) tools) as [wt|] eqn:Hw.
  2:{ unfold_main. rewrite Hr, Hw. cbn. split; [done | by apply prefix_nil]. }
  pose proof (find_name _ _ _ Hr) as Hrn. pose proof (find_name _ _ _ Hw) as Hwn.
  unfold_main. rewrite Hr, Hw, Hrn, Hwn. cbn -[strip contains query String.append].
  destruct (ainvoke rt query) as [r|e]; cbn -[strip contains query String.append].
  - destruct (negb (truthy (strip r)) || contains "No local results found." r);
      cbn -[query String.append].
    + destruct (ainvoke wt query); cbn -[query String.append];
        (split; [done | by apply prefix_cons]).
    + split; [done | by apply prefix_cons, prefix_nil].
  - destruct (decide (exc_class e = "TimeoutError")); cbn -[query String.append];
      (split; [done | by apply prefix_cons, prefix_nil]).
Qed.

(** X8: when the retriever tool fails, the web search is not tried.  A
    timeout is reported and replaced by a text that is neither blank nor the
    sentinel, so the run ends there; any other exception ends the run in the
    outer handler, which prints it with its traceback. *)
Theorem no_fallback_after_failure (tools : list Tool) (retriever_tool web_tool : Tool)
    (e : Exc) :
  List.find (λ t, bool_decide (name t = "get_product_info")) tools = Some retriever_tool →
  List.find (λ t, bool_decide (name t = "web_search")) tools = Some web_tool →
  ainvoke retriever_tool query = Raise e →
  invoked (events (main (Ok tools))) = [("get_product_info", query)]
  ∧ last (events (main (Ok tools)))
    = Some (if decide (exc_class e = "TimeoutError")
            then Print [Str "Retriever timed out after 30 seconds"]
            else PrintExc).
Proof.
  intros Hr Hw Ha. pose proof (find_name _ _ _ Hr) as Hrn.
  unfold_main. rewrite Hr, Hw, Ha, Hrn. cbn -[query String.append].
  by destruct (decide (exc_class e = "TimeoutError")).
Qed.

End ClientFacts.

(** ** The tool server: what a caller receives *)
Section ServerFacts.
Import Text Py Server.

Variable retriever_invoke : string → res (list Document).
Variable duckduckgo_run : string → res string.

Lemma get_product_info_text (query : string) :
  ∃ text, result (get_product_info retriever_invoke query) = Ok text
        ∧ all_space text = false
        ∧ (retriever_invoke query = Ok [] → text = sentinel).
Proof.
  rewrite get_product_info_result. eexists. split; [reflexivity|].
  destruct (retriever_invoke query) as [docs|e].
  - destruct (all_space (format_docs docs)) eqn:Hb.
    + done.
    + split; [done|]. intros [= ->]. done.
  - split; [|done]. cbn [String.append].
    apply all_space_head. by apply (bool_decide_unpack _).
Qed.

(** X9: what [get_product_info] returns is never empty and never only
    whitespace; it is the sentinel when the retriever finds no document, and
    starts with the title line of the first document when it finds some. *)
Theorem get_product_info_not_blank (query : string) :
  ∃ text, result (get_product_info retriever_invoke query) = Ok text
        ∧ all_space text = false
        ∧ (retriever_invoke query = Ok [] → text = sentinel)
        ∧ (∀ d docs, retriever_invoke query = Ok (d :: docs) →
                     text = format_docs (d :: docs) ∧ startswith "Title: " text = true).
Proof.
  destruct (get_product_info_text query) as (text & Hr & Hb & He).
  exists text. split; [done|]. split; [done|]. split; [done|].
  intros d docs Hd. rewrite get_product_info_result, Hd in Hr.
  assert (Hns : all_space (format_docs (d :: docs)) = false).
  { apply not_true_iff_false. by intros H%format_docs_blank. }
  rewrite Hns in Hr. injection Hr as <-. split; [done|].
  destruct (format_docs_title d docs) as [rest Ht].
  apply startswith_spec. exists rest. exact Ht.
Qed.

End ServerFacts.

(** ** The workflow: whole runs *)
Section WorkflowRuns.
Import Text Py Workflow.

Variable llm : string → res string.
Variable mcp_tools : list Tool.

Local Abbreviation superstep := (Workflow.superstep llm mcp_tools).
Local Abbreviation pregel := (Workflow.pregel llm mcp_tools).
Local Abbreviation run := (Workflow.run llm mcp_tools).

Lemma head_snoc_msg (state : AgentState) (first m : Message) :
  head state = Some first → head (state ++ [m]) = Some first.
Proof. by destruct state. Qed.

(** The context that a tool node appends for the result [r] of its tool. *)
Lemma retriever_step (state : AgentState) (first m : Message) (t : Tool)
    (r score : string) :
  let context := if truthy r then r else "No data" in
  head state = Some first → last state = Some m →
  List.find (λ t, bool_decide (name t = "get_product_info")) mcp_tools = Some t →
  ainvoke t (content m) = Ok r →
  llm (grader_prompt (content first) context) = Ok score →
  superstep Retriever state
  = ([Visit Retriever; ToolCall "get_product_info" (content m);
      LLMCall (grader_prompt (content first) context);
      Grade (if contains "yes" (lower score) then generator else rewriter)],
     Ok (grade_target (if contains "yes" (lower score) then generator else rewriter),
         state ++ [HumanMessage context])).
Proof.
  intros context Hh Hl Hf Ha Hs. unfold Workflow.superstep. cbn [node_body route].
  unfold _vector_retriever, _grade_documents, find_tool, tool_ainvoke, chain_invoke,
    last_content, first_content, index_last, index_first.
  rewrite Hl, Hf. cbn -[contains lower grader_prompt last truthy].
  assert (name t = "get_product_info") as ->.
  { apply find_some in Hf as [_ H]. by apply bool_decide_eq_true in H. }
  rewrite Ha. cbn -[contains lower grader_prompt last truthy].
  fold context. rewrite last_snoc_msg.
  destruct state as [|m0 state]; [done|]. cbn in Hh. injection Hh as ->.
  cbn -[contains lower grader_prompt truthy]. rewrite Hs. reflexivity.
Qed.

Lemma generator_step (state : AgentState) (first m : Message) (answer : string) :
  head state = Some first → last state = Some m →
  llm (product_bot_prompt (content m) (content first)) = Ok answer →
  superstep Generator state
  = ([Visit Generator; LLMCall (product_bot_prompt (content m) (content first))],
     Ok (END, state ++ [HumanMessage answer])).
Proof.
  intros Hh Hl Ha. unfold Workflow.superstep. cbn [node_body route].
  unfold _generate, chain_invoke, last_content, first_content, index_last, index_first.
  rewrite Hl. destruct state as [|m0 state]; [done|]. cbn in Hh. injection Hh as ->.
  cbn -[product_bot_prompt]. rewrite Ha. reflexivity.
Qed.

Lemma rewriter_step (state : AgentState) (first : Message) (new_q : string) :
  head state = Some first →
  llm (rewrite_prompt (content first)) = Ok new_q →
  superstep Rewriter state
  = ([Visit Rewriter; LLMCall (rewrite_prompt (content first))],
     Ok (WebSearch, state ++ [HumanMessage (strip new_q)])).
Proof.
  intros Hh Ha. unfold Workflow.superstep. cbn [node_body route].
  unfold _rewrite, chain_invoke, first_content, index_first.
  destruct state as [|m0 state]; [done|]. cbn in Hh. injection Hh as ->.
  cbn -[rewrite_prompt strip]. rewrite Ha. reflexivity.
Qed.

Lemma websearch_step (state : AgentState) (m : Message) (t : Tool) (r : string) :
  last state = Some m →
  List.find (λ t, bool_decide (name t = "web_search")) mcp_tools = Some t →
  ainvoke t (content m) = Ok r →
  superstep WebSearch state
  = ([Visit WebSearch; ToolCall "web_search" (content m)],
     Ok (Generator, state ++ [HumanMessage (if truthy r then r else "No data from web")])).
Proof.
  intros Hl Hf Ha. unfold Workflow.superstep. cbn [node_body route].
  unfold _web_search, find_tool, tool_ainvoke, last_content, index_last.
  rewrite Hl, Hf. cbn -[truthy].
  assert (name t = "web_search") as ->.
  { apply find_some in Hf as [_ H]. by apply bool_decide_eq_true in H. }
  rewrite Ha. reflexivity.
Qed.

Lemma pregel_step fuel (n n' : Node) (state state' : AgentState) ev :
  n ≠ END → superstep n state = (ev, Ok (n', state')) →
  pregel (S fuel) n state
  = mkRun (ev ++ run_events (pregel fuel n' state'))
      (run_state (pregel fuel n' state')) (run_outcome (pregel fuel n' state')).
Proof. intros Hn Hs. rewrite pregel_S by done. by rewrite Hs. Qed.

Lemma initial_last (checkpoints : gmap string AgentState) (query thread_id : string) :
  last (initial_state checkpoints query thread_id) = Some (HumanMessage query).
Proof. unfold initial_state, add_messages. apply last_snoc. Qed.

(** What [run] returns for a run of the graph that is known. *)
Lemma run_of_pregel (checkpoints : gmap string AgentState) (query thread_id : string)
    (evs : list Event) (state : AgentState) (m : Message) :
  pregel (S recursion_limit) START (initial_state checkpoints query thread_id)
  = mkRun evs state (Ok ()) →
  last state = Some m →
  run checkpoints query thread_id
  = (<[thread_id := state]> checkpoints, evs, Ok (content m)).
Proof.
  intros Hp Hl. unfold Workflow.run, app_ainvoke.
  change (add_messages (default [] (checkpoints !! thread_id)) [HumanMessage query])
    with (initial_state checkpoints query thread_id).
  rewrite Hp. cbn [run_state run_events run_outcome].
  unfold last_content, index_last. rewrite Hl. reflexivity.
Qed.

(** X10: a query without a domain keyword whose direct answer does not
    spell the routing marker is answered by the assistant alone: one call of
    the model, no tool, the answer returned and appended to the thread. *)
Theorem direct_answer_returned (checkpoints : gmap string AgentState)
    (query thread_id answer : string) :
  existsb (λ word, contains word (lower query)) keywords = false →
  llm (assistant_prompt query) = Ok answer →
  contains "TOOL" answer = false →
  run checkpoints query thread_id
  = (<[thread_id := initial_state checkpoints query thread_id ++ [HumanMessage answer]]>
       checkpoints,
     [Visit Assistant; LLMCall (assistant_prompt query)],
     Ok answer).
Proof.
  intros Hk Ha Ht.
  apply (run_of_pregel _ _ _ _ _ (HumanMessage answer)); [|apply last_snoc].
  change (S recursion_limit) with (S (S 24)).
  apply (direct_answer_run llm mcp_tools _ (HumanMessage query)); try done.
  apply initial_last.
Qed.

(** X11: a query with a domain keyword whose retrieved context the grader
    accepts.  The retriever tool is asked for the routing marker, not for
    the query; the grader and the generator are asked about the first
    message of the thread; three nodes run and the generator's reply is
    returned. *)
Theorem accepted_context_run (checkpoints : gmap string AgentState)
    (query thread_id : string) (first : Message) (t : Tool) (r score answer : string) :
  let state := initial_state checkpoints query thread_id in
  let context := if truthy r then r else "No data" in
  head state = Some first →
  existsb (λ word, contains word (lower query)) keywords = true →
  List.find (λ t, bool_decide (name t = "get_product_info")) mcp_tools = Some t →
  ainvoke t "TOOL: retriever" = Ok r →
  llm (grader_prompt (content first) context) = Ok score →
  contains "yes" (lower score) = true →
  llm (product_bot_prompt context (content first)) = Ok answer →
  run checkpoints query thread_id
  = (<[thread_id := state ++ [HumanMessage "TOOL: retriever"; HumanMessage context;
                               HumanMessage answer]]> checkpoints,
     [Visit Assistant;
      Visit Retriever; ToolCall "get_product_info" "TOOL: retriever";
      LLMCall (grader_prompt (content first) context); Grade generator;
      Visit Generator; LLMCall (product_bot_prompt context (content first))],
     Ok answer).
Proof.
  intros state context Hh Hk Hf Ha Hs Hy Hg.
  pose proof (assistant_keyword llm mcp_tools state (HumanMessage query)
                (initial_last _ _ _) Hk) as H1.
  pose proof (retriever_step (state ++ [HumanMessage "TOOL: retriever"]) first
                (HumanMessage "TOOL: retriever") t r score
                (head_snoc_msg _ _ _ Hh) (last_snoc _ _) Hf Ha Hs) as H2.
  rewrite Hy in H2. cbn [grade_target] in H2.
  pose proof (generator_step
                ((state ++ [HumanMessage "TOOL: retriever"]) ++ [HumanMessage context])
                first (HumanMessage context) answer
                (head_snoc_msg _ _ _ (head_snoc_msg _ _ _ Hh)) (last_snoc _ _) Hg) as H3.
  apply (run_of_pregel _ _ _ _ _ (HumanMessage answer)).
  2:{ by rewrite last_app_cons. }
  fold state. change (S recursion_limit) with (S (S (S (S 22)))).
  rewrite (pregel_step _ START _ _ _ _ ltac:(done) (superstep_START llm mcp_tools state)).
  rewrite (pregel_step _ Assistant _ _ _ _ ltac:(done) H1).
  rewrite (pregel_step _ Retriever _ _ _ _ ltac:(done) H2).
  rewrite (pregel_step _ Generator _ _ _ _ ltac:(done) H3).
  rewrite pregel_END. cbn [run_events run_state run_outcome app].
  by rewrite <- !app_assoc.
Qed.

(** X12: a query with a domain keyword whose retrieved context the grader
    rejects.  The rewriter is asked about the first message of the thread;
    the web search receives the rewritten query without the surrounding
    whitespace; the generator answers the first message from what the web
    search gave; five nodes run. *)
Theorem rejected_context_rewritten (checkpoints : gmap string AgentState)
    (query thread_id : string) (first : Message) (t wt : Tool)
    (r score new_q w answer : string) :
  let state := initial_state checkpoints query thread_id in
  let context := if truthy r then r else "No data" in
  let web := if truthy w then w else "No data from web" in
  head state = Some first →
  existsb (λ word, contains word (lower query)) keywords = true →
  List.find (λ t, bool_decide (name t = "get_product_info")) mcp_tools = Some t →
  ainvoke t "TOOL: retriever" = Ok r →
  llm (grader_prompt (content first) context) = Ok score →
  contains "yes" (lower score) = false →
  llm (rewrite_prompt (content first)) = Ok new_q →
  List.find (λ t, bool_decide (name t = "web_search")) mcp_tools = Some wt →
  ainvoke wt (strip new_q) = Ok w →
  llm (product_bot_prompt web (content first)) = Ok answer →
  run checkpoints query thread_id
  = (<[thread_id := state ++ [HumanMessage "TOOL: retriever"; HumanMessage context;
                               HumanMessage (strip new_q); HumanMessage web;
                               HumanMessage answer]]> checkpoints,
     [Visit Assistant;
      Visit Retriever; ToolCall "get_product_info" "TOOL: retriever";
      LLMCall (grader_prompt (content first) context); Grade rewriter;
      Visit Rewriter; LLMCall (rewrite_prompt (content first));
      Visit WebSearch; ToolCall "web_search" (strip new_q);
      Visit Generator; LLMCall (product_bot_prompt web (content first))],
     Ok answer).
Proof.
  intros state context web Hh Hk Hf Ha Hs Hy Hq Hwf Hw Hg.
  pose proof (assistant_keyword llm mcp_tools state (HumanMessage query)
                (initial_last _ _ _) Hk) as H1.
  set (s1 := state ++ [HumanMessage "TOOL: retriever"]) in *.
  assert (Hh1 : head s1 = Some first) by by apply head_snoc_msg.
  pose proof (retriever_step s1 first (HumanMessage "TOOL: retriever") t r score
                Hh1 (last_snoc _ _) Hf Ha Hs) as H2.
  rewrite Hy in H2. cbn [grade_target] in H2. fold context in H2.
  set (s2 := s1 ++ [HumanMessage context]) in *.
  assert (Hh2 : head s2 = Some first) by by apply head_snoc_msg.
  pose proof (rewriter_step s2 first new_q Hh2 Hq) as H3.
  set (s3 := s2 ++ [HumanMessage (strip new_q)]) in *.
  assert (Hh3 : head s3 = Some first) by by apply head_snoc_msg.
  pose proof (websearch_step s3 (HumanMessage (strip new_q)) wt w
                (last_snoc _ _) Hwf Hw) as H4.
  fold web in H4. set (s4 := s3 ++ [HumanMessage web]) in *.
  assert (Hh4 : head s4 = Some first) by by apply head_snoc_msg.
  pose proof (generator_step s4 first (HumanMessage web) answer
                Hh4 (last_snoc _ _) Hg) as H5.
  apply (run_of_pregel _ _ _ _ _ (HumanMessage answer)).
  2:{ by rewrite last_app_cons. }
  fold state. change (S recursion_limit) with (S (S (S (S (S (S 20)))))).
  rewrite (pregel_step _ START _ _ _ _ ltac:(done) (superstep_START llm mcp_tools state)).
  rewrite (pregel_step _ Assistant _ _ _ _ ltac:(done) H1).
  rewrite (pregel_step _ Retriever _ _ _ _ ltac:(done) H2).
  rewrite (pregel_step _ Rewriter _ _ _ _ ltac:(done) H3).
  rewrite (pregel_step _ WebSearch _ _ _ _ ltac:(done) H4).
  rewrite (pregel_step _ Generator _ _ _ _ ltac:(done) H5).
  rewrite pregel_END. cbn [run_events run_state run_outcome app].
  subst s4 s3 s2 s1. by rewrite <- !app_assoc.
Qed.

(** X13: when the server offers no tool named get_product_info, a query
    with a domain keyword ends in [RuntimeError] at the retriever node: no
    tool and no model has been called, and the thread keeps the query and
    the routing marker. *)
Theorem missing_retriever_tool (checkpoints : gmap string AgentState)
    (query thread_id : string) :
  existsb (λ word, contains word (lower query)) keywords = true →
  List.find (λ t, bool_decide (name t = "get_product_info")) mcp_tools = None →
  run checkpoints query thread_id
  = (<[thread_id := initial_state checkpoints query thread_id
                     ++ [HumanMessage "TOOL: retriever"]]> checkpoints,
     [Visit Assistant; Visit Retriever],
     Raise (mkExc "RuntimeError" "coroutine raised StopIteration")).
Proof.
  intros Hk Hf. set (state := initial_state checkpoints query thread_id).
  pose proof (assistant_keyword llm mcp_tools state (HumanMessage query)
                (initial_last _ _ _) Hk) as H1.
  assert (H2 : superstep Retriever (state ++ [HumanMessage "TOOL: retriever"])
               = ([Visit Retriever],
                  Raise (mkExc "RuntimeError" "coroutine raised StopIteration"))).
  { unfold Workflow.superstep. cbn [node_body route].
    unfold _vector_retriever, find_tool, last_content, index_last.
    rewrite last_snoc_msg, Hf. reflexivity. }
  unfold Workflow.run, app_ainvoke.
  change (add_messages (default [] (checkpoints !! thread_id)) [HumanMessage query])
    with state.
  change (S recursion_limit) with (S (S (S 23))).
  rewrite (pregel_step _ START _ _ _ _ ltac:(done) (superstep_START llm mcp_tools state)).
  rewrite (pregel_step _ Assistant _ _ _ _ ltac:(done) H1).
  rewrite (pregel_raise llm mcp_tools _ _ _ _ _ H2). reflexivity.
Qed.

(** A step out of a node succeeds when the model and the two tools answer:
    the first message stays, and there is a last one. *)
Lemma superstep_total (n : Node) (state : AgentState) (first : Message) (t wt : Tool) :
  (∀ prompt, ∃ reply, llm prompt = Ok reply) →
  List.find (λ t, bool_decide (name t = "get_product_info")) mcp_tools = Some t →
  (∀ q, ∃ r, ainvoke t q = Ok r) →
  List.find (λ t, bool_decide (name t = "web_search")) mcp_tools = Some wt →
  (∀ q, ∃ r, ainvoke wt q = Ok r) →
  head state = Some first → is_Some (last state) → n ≠ END →
  ∃ ev n' state', superstep n state = (ev, Ok (n', state'))
                  ∧ head state' = Some first ∧ is_Some (last state').
Proof.
  intros Hllm Hf Ht Hwf Hw Hh [m Hl] Hn.
  assert (Hsnoc : ∀ x, head (state ++ [x]) = Some first ∧ is_Some (last (state ++ [x]))).
  { intros x. split; [by apply head_snoc_msg | rewrite last_snoc; by eexists]. }
  destruct n; [| | | | | |done].
  - exists [], Assistant, state. rewrite superstep_START. by eauto.
  - destruct (existsb (λ word, contains word (lower (content m))) keywords) eqn:Hk.
    + do 3 eexists. split; [by apply (assistant_keyword llm mcp_tools state m)|].
      apply Hsnoc.
    + destruct (Hllm (assistant_prompt (content m))) as [reply Hr].
      do 3 eexists. split; [by apply (assistant_direct llm mcp_tools state m reply)|].
      apply Hsnoc.
  - destruct (Ht (content m)) as [r Hr].
    destruct (Hllm (grader_prompt (content first) (if truthy r then r else "No data")))
      as [score Hs].
    do 3 eexists. split; [by apply (retriever_step state first m t r score)|].
    apply Hsnoc.
  - destruct (Hllm (product_bot_prompt (content m) (content first))) as [answer Ha].
    do 3 eexists. split; [by apply (generator_step state first m answer)|]. apply Hsnoc.
  - destruct (Hllm (rewrite_prompt (content first))) as [new_q Hq].
    do 3 eexists. split; [by apply (rewriter_step state first new_q)|]. apply Hsnoc.
  - destruct (Hw (content m)) as [r Hr].
    do 3 eexists. split; [by apply (websearch_step state m wt r)|]. apply Hsnoc.
Qed.

Lemma pregel_completes (fuel : nat) (n : Node) (state : AgentState) (first : Message)
    (t wt : Tool) :
  (∀ prompt, ∃ reply, llm prompt = Ok reply) →
  List.find (λ t, bool_decide (name t = "get_product_info")) mcp_tools = Some t →
  (∀ q, ∃ r, ainvoke t q = Ok r) →
  List.find (λ t, bool_decide (name t = "web_search")) mcp_tools = Some wt →
  (∀ q, ∃ r, ainvoke wt q = Ok r) →
  rank n ≤ fuel → head state = Some first → is_Some (last state) →
  run_outcome (pregel fuel n state) = Ok ()
  ∧ is_Some (last (run_state (pregel fuel n state))).
Proof.
  intros Hllm Hf Ht Hwf Hw. revert n state.
  induction fuel as [|fuel IH]; intros n state Hr Hh Hl.
  - destruct n; cbn in Hr; try lia. by rewrite pregel_END.
  - destruct (decide (n = END)) as [->|Hn]; [by rewrite pregel_END|].
    destruct (superstep_total n state first t wt Hllm Hf Ht Hwf Hw Hh Hl Hn)
      as (ev & n' & state' & Hs & Hh' & Hl').
    rewrite (pregel_step _ n _ _ _ _ Hn Hs). cbn [run_outcome run_state].
    apply IH; [|done|done].
    apply superstep_ok in Hs as (Hr'%transitions_rank & _); [lia | done].
Qed.

(** X14: when the model answers every prompt and the two tools are there
    and answer every query, [run] does not raise: it returns an answer,
    which is the last message kept for the thread. *)
Theorem run_completes (checkpoints : gmap string AgentState) (query thread_id : string)
    (t wt : Tool) :
  (∀ prompt, ∃ reply, llm prompt = Ok reply) →
  List.find (λ t, bool_decide (name t = "get_product_info")) mcp_tools = Some t →
  (∀ q, ∃ r, ainvoke t q = Ok r) →
  List.find (λ t, bool_decide (name t = "web_search")) mcp_tools = Some wt →
  (∀ q, ∃ r, ainvoke wt q = Ok r) →
  ∃ answer state,
    (run checkpoints query thread_id).2 = Ok answer
    ∧ (run checkpoints query thread_id).1.1 !! thread_id = Some state
    ∧ last state = Some (HumanMessage answer).
Proof.
  intros Hllm Hf Ht Hwf Hw.
  set (state := initial_state checkpoints query thread_id).
  assert (Hh : ∃ first, head state = Some first).
  { unfold state, initial_state, add_messages.
    destruct (default [] (checkpoints !! thread_id)); by eexists. }
  destruct Hh as [first Hh].
  destruct (pregel_completes (S recursion_limit) START state first t wt
              Hllm Hf Ht Hwf Hw) as [Hok [m Hm]];
    [cbn; unfold recursion_limit; lia | done | unfold state; rewrite initial_last; by eexists |].
  unfold Workflow.run, app_ainvoke.
  change (add_messages (default [] (checkpoints !! thread_id)) [HumanMessage query])
    with state.
  revert Hok Hm. generalize (pregel (S recursion_limit) START state). intros r Hok Hm.
  cbn [fst snd]. rewrite Hok. unfold last_content, index_last. rewrite Hm.
  exists (content m), (run_state r). split; [reflexivity|].
  split; [apply lookup_insert_eq | by destruct m].
Qed.

(** An invocation only appends: one message for every node it entered,
    except for a node that raised. *)
Lemma pregel_appends (fuel : nat) (n : Node) (state : AgentState) :
  ∃ appended,
    run_state (pregel fuel n state) = state ++ appended
    ∧ length appended ≤ length (visited (run_events (pregel fuel n state)))
    ∧ (run_outcome (pregel fuel n state) = Ok () →
       length appended = length (visited (run_events (pregel fuel n state)))).
Proof.
  revert n state. induction fuel as [|fuel IH]; intros n state.
  - exists []. rewrite app_nil_r. by destruct n.
  - destruct (decide (n = END)) as [->|Hn].
    { exists []. rewrite app_nil_r, pregel_END. done. }
    destruct (superstep n state) as [ev [[n' state']|e]] eqn:Hs.
    + rewrite (pregel_step _ n _ _ _ _ Hn Hs). cbn [run_state run_events run_outcome].
      destruct (IH n' state') as (appended & Hst & Hle & Heq).
      apply superstep_ok in Hs as (_ & Hb & _); [|done].
      rewrite visited_app, length_app.
      destruct (node_body llm mcp_tools n).
      * destruct Hb as [-> [msg ->]]. exists (msg :: appended).
        rewrite Hst, <- app_assoc. cbn. split; [done|]. split; [lia|].
        intros H. by rewrite (Heq H).
      * destruct Hb as [-> ->]. exists appended. done.
    + rewrite (pregel_raise llm mcp_tools _ _ _ _ _ Hs). exists [].
      rewrite app_nil_r. cbn [run_state run_events run_outcome].
      split; [done|]. split; [cbn; lia | done].
Qed.

(** X15: [run] touches the thread it is given and no other: the messages
    of every other thread stay as they were, and the thread itself keeps
    its history and the query, followed by at most five messages, one for
    each node that ran when the run returns an answer, the answer last. *)
Theorem run_keeps_threads (checkpoints : gmap string AgentState)
    (query thread_id : string) :
  let '(checkpoints', evs, answer) := run checkpoints query thread_id in
  (∀ other, other ≠ thread_id → checkpoints' !! other = checkpoints !! other)
  ∧ ∃ appended,
      checkpoints' !! thread_id
      = Some (default [] (checkpoints !! thread_id) ++ HumanMessage query :: appended)
      ∧ length appended ≤ 5
      ∧ ∀ a, answer = Ok a →
             length appended = length (visited evs)
             ∧ last (HumanMessage query :: appended) = Some (HumanMessage a).
Proof.
  unfold Workflow.run, app_ainvoke.
  set (state := add_messages (default [] (checkpoints !! thread_id)) [HumanMessage query]).
  assert (Hfive : length (visited (run_events (pregel (S recursion_limit) START state))) ≤ 5).
  { change (S recursion_limit) with (S (S (S (S (S (S 20)))))).
    pose proof (run_from_START llm mcp_tools 20 state) as H. cbv zeta in H.
    revert H. generalize (pregel (S (S (S (S (S (S 20)))))) START state).
    intros r [(_ & Hv) | [(_ & Hv & _) | [(_ & Hv) | (_ & v & Hv & _ & Hq & _)]]];
      rewrite Hv; try (cbn; lia).
    apply prefix_length in Hq. cbn in Hq |- *. lia. }
  destruct (pregel_appends (S recursion_limit) START state) as (appended & Hst & Hle & Heq).
  revert Hst Hle Heq Hfive. generalize (pregel (S recursion_limit) START state).
  intros r Hst Hle Heq Hfive. split.
  - intros other Hne. by apply lookup_insert_ne.
  - exists appended. rewrite lookup_insert_eq, Hst. unfold state, add_messages.
    rewrite <- app_assoc. split; [reflexivity|]. split; [lia|].
    intros a Ha. destruct (run_outcome r) as [[]|e] eqn:Ho; [|done].
    split; [by apply Heq|].
    unfold last_content, index_last in Ha.
    cbn [app] in Ha. rewrite last_app_cons in Ha.
    destruct (last (HumanMessage query :: appended)) as [m|]; [|done].
    cbn in Ha. injection Ha as <-. by destruct m.
Qed.

End WorkflowRuns.

(** ** The workflow: how an invocation ends *)
Section WorkflowTermination.
Import Text Py Workflow.

Variable llm : string → res string.
Variable mcp_tools : list Tool.

Local Abbreviation superstep := (Workflow.superstep llm mcp_tools).
Local Abbreviation pregel := (Workflow.pregel llm mcp_tools).
Local Abbreviation reachable := (Workflow.reachable llm mcp_tools).

(** An invocation ends in one of two ways: at [END], or at a node whose
    step raises, with the exception of that step. *)
Lemma pregel_ends (c0 : Node * AgentState) (fuel : nat) (n : Node) (state : AgentState) :
  rank n ≤ fuel → reachable c0 (n, state) →
  (run_outcome (pregel fuel n state) = Ok ()
   ∧ reachable c0 (END, run_state (pregel fuel n state)))
  ∨ ∃ n' st ev e,
      n' ≠ END ∧ reachable c0 (n', st) ∧ superstep n' st = (ev, Raise e)
      ∧ run_outcome (pregel fuel n state) = Raise e
      ∧ run_state (pregel fuel n state) = st.
Proof.
  revert n state. induction fuel as [|fuel IH]; intros n state Hr Hreach.
  - destruct n; cbn in Hr; try lia. left. by rewrite pregel_END.
  - destruct (decide (n = END)) as [->|Hn]; [left; by rewrite pregel_END|].
    rewrite pregel_S by done.
    destruct (superstep n state) as [ev [[n' state']|e]] eqn:Hs.
    + cbv zeta. cbn [run_outcome run_state]. apply IH.
      * apply superstep_ok in Hs as (Ht%transitions_rank & _); [lia | done].
      * by eapply reach_step.
    + right. by exists n, state, ev, e.
Qed.

(** From [Rewriter] to [END] when the model and the web search answer. *)
Lemma rewriter_tail_completes (fuel : nat) (state : AgentState) (first : Message)
    (wt : Tool) :
  (∀ prompt, ∃ reply, llm prompt = Ok reply) →
  List.find (λ t, bool_decide (name t = "web_search")) mcp_tools = Some wt →
  (∀ q, ∃ w, ainvoke wt q = Ok w) →
  head state = Some first →
  run_outcome (pregel (S (S (S fuel))) Rewriter state) = Ok ().
Proof.
  intros Hllm Hf Hw Hh.
  destruct (Hllm (rewrite_prompt (content first))) as [new_q Hq].
  rewrite (pregel_step llm mcp_tools _ Rewriter _ _ _ _ ltac:(done)
             (rewriter_step llm mcp_tools state first new_q Hh Hq)).
  cbn [run_outcome].
  set (s1 := state ++ [HumanMessage (strip new_q)]).
  destruct (Hw (strip new_q)) as [w Hw'].
  rewrite (pregel_step llm mcp_tools _ WebSearch _ _ _ _ ltac:(done)
             (websearch_step llm mcp_tools s1 (HumanMessage (strip new_q)) wt w
                (last_snoc _ _) Hf Hw')).
  cbn [run_outcome].
  set (m2 := HumanMessage (if truthy w then w else "No data from web")).
  destruct (Hllm (product_bot_prompt (content m2) (content first))) as [answer Ha].
  rewrite (pregel_step llm mcp_tools _ Generator _ _ _ _ ltac:(done)
             (generator_step llm mcp_tools (s1 ++ [m2]) first m2 answer
                (head_snoc_msg _ _ _ (head_snoc_msg _ _ _ Hh)) (last_snoc _ _) Ha)).
  cbn [run_outcome]. by rewrite pregel_END.
Qed.

(** A run in which the grader decides [rewriter] goes on from [Rewriter]
    in a state that has a first message. *)
Lemma rewrite_branch_split (fuel : nat) (state : AgentState) :
  rewriter ∈ grades (run_events (pregel (S (S (S (S (S (S fuel)))))) START state)) →
  ∃ state2 first,
    head state2 = Some first
    ∧ run_outcome (pregel (S (S (S (S (S (S fuel)))))) START state)
      = run_outcome (pregel (S (S (S fuel))) Rewriter state2).
Proof.
  destruct (pregel_ok llm mcp_tools (S (S (S (S (S fuel))))) START _ _ _ _
              ltac:(done) (superstep_START llm mcp_tools state)) as (-> & _ & ->).
  rewrite app_nil_l.
  destruct (superstep Assistant state) as [ev [[x state']|e]] eqn:Hs.
  - destruct (pregel_ok llm mcp_tools (S (S (S (S fuel)))) Assistant _ _ _ _ ltac:(done) Hs)
      as (-> & _ & ->).
    apply superstep_ok in Hs as (Ht%successors & [_ [m ->]] & Hg & _); [|done].
    rewrite decide_False in Hg by done. rewrite grades_app, Hg, app_nil_l.
    destruct Ht as [-> | ->].
    + destruct (superstep Retriever (state ++ [m])) as [ev2 [[x2 state2]|e]] eqn:Hs2.
      * destruct (pregel_ok llm mcp_tools (S (S (S fuel))) Retriever _ _ _ _ ltac:(done) Hs2)
          as (-> & _ & ->).
        apply superstep_ok in Hs2 as (_ & [_ [m2 ->]] & Hg2 & _); [|done].
        rewrite decide_True in Hg2 by done. destruct Hg2 as (d & Hg2 & ->).
        rewrite grades_app, Hg2. destruct d; cbn [grade_target].
        -- destruct (run_from_Generator llm mcp_tools (S (S fuel)) ((state ++ [m]) ++ [m2]))
             as (Hg' & _).
           rewrite Hg'. intros H%list_elem_of_singleton. discriminate.
        -- intros _. exists ((state ++ [m]) ++ [m2]).
           destruct state as [|m0 state]; by eexists.
      * rewrite (pregel_raise llm mcp_tools _ _ _ _ _ Hs2).
        apply superstep_raise in Hs2 as [_ Hg2]. cbn [run_events]. rewrite Hg2.
        by intros ?%elem_of_nil.
    + rewrite pregel_END. by intros ?%elem_of_nil.
  - rewrite (pregel_raise llm mcp_tools _ _ _ _ _ Hs).
    apply superstep_raise in Hs as [_ Hg]. cbn [run_events]. rewrite Hg.
    by intros ?%elem_of_nil.
Qed.

(** C3 (as amended): the declared edges form no cycle, and an invocation
    is settled after at most five node visits, well inside the recursion
    limit: it enters Assistant, consults the grader at most once, and ends
    either at END or at the node whose step raises, with the exception of
    that step.  When the grader decides [rewriter] it is not consulted
    again, and the nodes visited are Assistant, Retriever, Rewriter,
    WebSearch, Generator in this order as far as the run gets: all five
    when it ends at END, which it does when the model answers every prompt
    and the web search tool is there and answers. *)
Theorem C3_rewrite_branch_and_termination (state : AgentState) :
  let r := pregel (S recursion_limit) START state in
  let five := [Assistant; Retriever; Rewriter; WebSearch; Generator] in
  (∀ n, ¬ path n n)
  ∧ (∀ fuel, rank START ≤ fuel → pregel fuel START state = pregel (rank START) START state)
  ∧ [Assistant] `prefix_of` visited (run_events r)
  ∧ length (visited (run_events r)) ≤ 5
  ∧ length (grades (run_events r)) ≤ 1
  ∧ ((run_outcome r = Ok () ∧ reachable (START, state) (END, run_state r))
     ∨ ∃ n st ev e,
         n ≠ END ∧ reachable (START, state) (n, st) ∧ superstep n st = (ev, Raise e)
         ∧ run_outcome r = Raise e ∧ run_state r = st)
  ∧ (rewriter ∈ grades (run_events r) →
       grades (run_events r) = [rewriter]
       ∧ [Assistant; Retriever; Rewriter] `prefix_of` visited (run_events r)
       ∧ visited (run_events r) `prefix_of` five
       ∧ (run_outcome r = Ok () → visited (run_events r) = five)
       ∧ ((∀ prompt, ∃ reply, llm prompt = Ok reply) →
          (∃ wt, List.find (λ t, bool_decide (name t = "web_search")) mcp_tools = Some wt
                 ∧ ∀ q, ∃ w, ainvoke wt q = Ok w) →
          run_outcome r = Ok () ∧ visited (run_events r) = five)).
Proof.
  intros r five. split; [exact graph_acyclic|].
  split; [intros fuel Hf; by apply pregel_fuel|].
  subst r five. change (S recursion_limit) with (S (S (S (S (S (S 20)))))).
  pose proof (run_from_START llm mcp_tools 20 state) as H. cbv zeta in H.
  pose proof (pregel_ends (START, state) (S (S (S (S (S (S 20)))))) START state
                ltac:(cbn; lia) (reach_start _ _ _)) as He.
  assert (Hc : (∀ prompt, ∃ reply, llm prompt = Ok reply) →
               (∃ wt, List.find (λ t, bool_decide (name t = "web_search")) mcp_tools
                      = Some wt ∧ ∀ q, ∃ w, ainvoke wt q = Ok w) →
               rewriter ∈ grades (run_events (pregel (S (S (S (S (S (S 20)))))) START state)) →
               run_outcome (pregel (S (S (S (S (S (S 20)))))) START state) = Ok ()).
  { intros Hllm (wt & Hf & Hw) Hin.
    destruct (rewrite_branch_split 20 state Hin) as (state2 & first & Hh & ->).
    by apply (rewriter_tail_completes 20 state2 first wt). }
  revert H He Hc. generalize (pregel (S (S (S (S (S (S 20)))))) START state).
  intros r [(Hg & Hv) | [(Hg & Hv & _) | [(Hg & Hv) | (Hg & v & Hv & Hp & Hq & Hok)]]]
    He Hc; rewrite Hg, Hv in *.
  - split; [done|]. split; [cbn; lia|]. split; [cbn; lia|]. split; [exact He|].
    by intros ?%elem_of_nil.
  - split; [by apply prefix_cons, prefix_nil|]. split; [cbn; lia|]. split; [cbn; lia|].
    split; [exact He|]. by intros ?%elem_of_nil.
  - split; [by apply prefix_cons, prefix_nil|]. split; [cbn; lia|]. split; [cbn; lia|].
    split; [exact He|]. intros H%list_elem_of_singleton. discriminate.
  - split; [by apply prefix_cons, prefix_nil|].
    split; [apply prefix_length in Hq; cbn in *; lia|]. split; [cbn; lia|].
    split; [exact He|].
    intros Hin. split; [reflexivity|].
    split; [by do 2 apply prefix_cons|]. split; [by do 2 apply prefix_cons|].
    split; [intros H; by rewrite (Hok H)|].
    intros Hllm Hweb. pose proof (Hc Hllm Hweb Hin) as Hok'.
    split; [exact Hok'|]. by rewrite (Hok Hok').
Qed.

End WorkflowTermination.

(** ** The server behind the client and behind the workflow *)
Section DeploymentFacts.
Import Text Py Deployment.

Variable retriever_invoke : string → res (list Server.Document).
Variable duckduckgo_run : string → res string.

Local Abbreviation client_tools := (Deployment.client_tools retriever_invoke duckduckgo_run).
Local Abbreviation workflow_tools :=
  (Deployment.workflow_tools retriever_invoke duckduckgo_run).

Lemma served_web_search_result (query : string) :
  served_web_search duckduckgo_run query
  = Ok (match duckduckgo_run query with
        | Ok text => text
        | Raise e => "Error during web search: " +:+ exc_str e
        end).
Proof.
  unfold served_web_search, Server.web_search, try_except, result, lift.
  by destruct (duckduckgo_run query).
Qed.

(** X16: the client against this server, when the retriever finds no
    document for the query: the server answers with the sentinel, the client
    falls back to the web search, and the last thing printed is what the
    search gave, or the message that the server makes of its failure.  The
    outer handler is not entered. *)
Theorem empty_retrieval_falls_back :
  retriever_invoke Client.query = Ok [] →
  events (Client.main (Ok client_tools))
  = [ Client.Print [Client.Str "Creating MCP client..."];
      Client.Print [Client.Str "Connecting to MCP server and discovering tools..."];
      Client.Print [Client.Str "Available tools:";
                    Client.Names ["get_product_info"; "web_search"]];
      Client.Print [Client.Str ("Querying retriever with: " +:+ Client.query)];
      Client.Invoke "get_product_info" Client.query;
      Client.Print [Client.Str (NL +:+ "Retriever Result:" +:+ NL);
                    Client.Str Server.sentinel];
      Client.Print [Client.Str (NL +:+ " No local results, falling back to web search..."
                                +:+ NL)];
      Client.Invoke "web_search" Client.query;
      Client.Print [Client.Str ("Web Search Result:" +:+ NL);
                    Client.Str (match duckduckgo_run Client.query with
                                | Ok text => text
                                | Raise e => "Error during web search: " +:+ exc_str e
                                end)] ].
Proof.
  intros He.
  rewrite (main_events client_tools
             (Client.mkTool "get_product_info" (served_get_product_info retriever_invoke))
             (Client.mkTool "web_search" (served_web_search duckduckgo_run))
             Server.sentinel eq_refl eq_refl).
  2:{ cbn [Client.ainvoke]. unfold served_get_product_info.
      by rewrite get_product_info_result, He. }
  cbn [Client.ainvoke]. rewrite served_web_search_result. reflexivity.
Qed.

(** X17: the two tool nodes of the workflow against this server, on a
    state with a last message.  Neither raises.  The retriever node appends
    exactly what the server returned, which is never empty, so its own
    placeholder is not used; the web search node appends what the search
    gave, its placeholder when that is empty, or the message that the server
    makes of a failure. *)
Theorem served_tool_nodes (state : Workflow.AgentState) (m : Workflow.Message) :
  last state = Some m →
  (∃ text,
      result (Server.get_product_info retriever_invoke (Workflow.content m)) = Ok text
      ∧ text ≠ ""
      ∧ Workflow._vector_retriever workflow_tools state
        = ([Workflow.ToolCall "get_product_info" (Workflow.content m)],
           Ok [Workflow.HumanMessage text]))
  ∧ Workflow._web_search workflow_tools state
    = ([Workflow.ToolCall "web_search" (Workflow.content m)],
       Ok [Workflow.HumanMessage
             (match duckduckgo_run (Workflow.content m) with
              | Ok "" => "No data from web"
              | Ok text => text
              | Raise e => "Error during web search: " +:+ exc_str e
              end)]).
Proof.
  intros Hl. split.
  - destruct (get_product_info_text retriever_invoke (Workflow.content m))
      as (text & Hr & Hb & _).
    exists text. split; [done|]. split; [by intros ->|].
    unfold Workflow._vector_retriever, Workflow.find_tool, Workflow.tool_ainvoke,
      Workflow.last_content, index_last.
    change (served_get_product_info retriever_invoke (Workflow.content m) = Ok text) in Hr.
    rewrite Hl.
    assert (List.find (λ t, bool_decide (Workflow.name t = "get_product_info")) workflow_tools
            = Some (Workflow.mkTool "get_product_info"
                      (served_get_product_info retriever_invoke))) as -> by reflexivity.
    cbn -[served_get_product_info]. rewrite Hr.
    destruct text; [done|]. reflexivity.
  - unfold Workflow._web_search, Workflow.find_tool, Workflow.tool_ainvoke,
      Workflow.last_content, index_last.
    rewrite Hl.
    assert (List.find (λ t, bool_decide (Workflow.name t = "web_search")) workflow_tools
            = Some (Workflow.mkTool "web_search" (served_web_search duckduckgo_run)))
      as -> by reflexivity.
    cbn -[served_web_search]. rewrite served_web_search_result.
    destruct (duckduckgo_run (Workflow.content m)) as [[|c text]|e]; reflexivity.
Qed.

End DeploymentFacts.

(** ** The retriever object: loading once *)
Section RetrievalFacts.
Import Py Retrieval.

(** X18: [load_retriever] builds the store and the retriever once.  On the
    object that a successful call leaves behind, a further call returns the
    same retriever without reading the configuration, loading a model or
    printing, also when the loaders would now fail. *)
Theorem load_retriever_cached (load_embeddings load_llm load_embeddings' load_llm' : res ())
    (self self' : Retriever) (instance : CompressionRetriever) :
  result (load_retriever load_embeddings load_llm self) = Ok (self', instance) →
  load_retriever load_embeddings' load_llm' self' = ([], Ok (self', instance))
  ∧ config self' = config self
  ∧ retriever_instance self' = Some instance.
Proof.
  destruct self as [cfg vs ri a b c]. unfold load_retriever at 1.
  cbn [vstore retriever_instance config db_api_endpoint db_application_token db_keyspace].
  rewrite result_bind.
  destruct (result _) as [store|e] eqn:Hstore at 1; [|done].
  assert (Hdone : ∀ inst,
    load_retriever load_embeddings' load_llm'
      (mkRetriever cfg (Some store) (Some inst) a b c)
    = ([], Ok (mkRetriever cfg (Some store) (Some inst) a b c, inst))) by done.
  destruct ri as [inst|].
  - intros [= <- <-]. by rewrite Hdone.
  - msimpl. destruct (result _) as [top_k|e] eqn:Htop at 1; [|done].
    msimpl. destruct load_llm as [[]|e]; [|done]. msimpl.
    intros [= <- <-]. by rewrite Hdone.
Qed.

End RetrievalFacts.

(** ** The frame that [read_csv] returns *)
Section FrameFacts.
Import Text Py Csv Pandas.

Variable numeric : string → bool.

Lemma pad_lines_width (width : nat) (data padded : list (list string)) :
  pad_lines width data = Ok padded →
  length padded = length data ∧ Forall (λ row, length row = width) padded.
Proof.
  revert padded. induction data as [|r data IH]; intros padded; cbn [pad_lines].
  - by intros [= <-].
  - case_decide as Hw; [done|]. destruct (pad_lines width data) as [rest|e]; [|done].
    intros [= <-]. destruct (IH rest eq_refl) as [Hl Hall]. split; [cbn; by rewrite Hl|].
    constructor; [|done]. rewrite length_app, length_replicate. lia.
Qed.

(** In a frame that [read_csv] returns, the columns are the fields of the
    first line, there is one row for every further line of the file, and
    every row has one cell for every column. *)
Lemma read_csv_shape (text : string) (df : DataFrame) :
  read_csv numeric text = Ok df →
  ∃ data, tokenize text = Ok (columns df :: data)
        ∧ length (rows df) = length data
        ∧ Forall (λ row, length row = length (columns df)) (rows df).
Proof.
  unfold read_csv. destruct (tokenize text) as [[|header data]|e]; try done.
  set (width := match data with
                | [] => length header
                | first :: _ => length header `max` length first
                end).
  assert (Hw : length header ≤ width) by (unfold width; destruct data; lia).
  destruct (pad_lines width data) as [padded|e] eqn:Hp; [|done].
  apply pad_lines_width in Hp as [Hl Hall]. intros [= <-]. exists data.
  cbn [columns rows]. split; [done|]. split; [by rewrite !length_fmap|].
  rewrite Forall_fmap, Forall_fmap. eapply Forall_impl; [exact Hall|].
  intros row Hrow. cbn in Hrow |- *. clearbody width. rewrite length_zip_with, length_fmap, length_seq, length_drop.
  lia.
Qed.

End FrameFacts.

(** ** Ingestion: from the frame to the store *)
Section IngestionFacts.
Import Text Py Pandas Ingestion.

Lemma make_document_spec (cols : list string) (row : list Cell) :
  match result (make_document cols row) with
  | Ok doc => carries cols row doc ∧ events (make_document cols row) = [NewDocument doc]
  | Raise e =>
      events (make_document cols row) = []
      ∧ ((∃ key, key ∈ expected_columns ∧ row_get cols row key = Raise e)
         ∨ (e = validation_error
            ∧ ∃ c, row_get cols row "top_reviews" = Ok c ∧ ∀ s, c ≠ Text s))
  end.
Proof.
  assert (Hkey : ∀ key e, key ∈ Scrapper.header → row_get cols row key = Raise e →
            ([] : list Event) = []
            ∧ ((∃ key, key ∈ expected_columns ∧ row_get cols row key = Raise e)
               ∨ (e = validation_error
                  ∧ ∃ c, row_get cols row "top_reviews" = Ok c ∧ ∀ s, c ≠ Text s))).
  { intros key e Hk He. split; [done|]. left. exists key. split; [|done].
    revert Hk. unfold Scrapper.header, expected_columns. set_unfold. tauto. }
  unfold make_document. msimpl.
  destruct (row_get cols row "product_id") as [v1|e] eqn:H1;
    [|apply (Hkey "product_id"); [set_unfold; tauto | done]].
  msimpl. destruct (row_get cols row "product_title") as [v2|e] eqn:H2;
    [|apply (Hkey "product_title"); [set_unfold; tauto | done]].
  msimpl. destruct (row_get cols row "rating") as [v3|e] eqn:H3;
    [|apply (Hkey "rating"); [set_unfold; tauto | done]].
  msimpl. destruct (row_get cols row "total_reviews") as [v4|e] eqn:H4;
    [|apply (Hkey "total_reviews"); [set_unfold; tauto | done]].
  msimpl. destruct (row_get cols row "price") as [v5|e] eqn:H5;
    [|apply (Hkey "price"); [set_unfold; tauto | done]].
  msimpl. destruct (row_get cols row "top_reviews") as [v6|e] eqn:H6;
    [|apply (Hkey "top_reviews"); [set_unfold; tauto | done]].
  destruct v6 as [s| | |]; msimpl;
    try (split; [done|]; right; split; [done|]; eexists; split; [done|]; by intros s).
  split; [|done]. split; [done|]. cbn [metadata]. intros key v.
  unfold metadata_keys. rewrite !elem_of_cons, elem_of_nil.
  rewrite !lookup_insert_Some, lookup_singleton_Some.
  split.
  - intros [[<- <-]|[_ [[<- <-]|[_ [[<- <-]|[_ [[<- <-]|[_ [<- <-]]]]]]]]]; tauto.
  - intros [[->|[->|[->|[->|[->|[]]]]]] Hv];
      rewrite ?H1, ?H2, ?H3, ?H4, ?H5 in Hv; injection Hv as <-;
      repeat first [by left | right; split; [done|] | done].
Qed.

Lemma constructed_app (a b : list Event) :
  constructed (a ++ b) = constructed a ++ constructed b.
Proof. apply omap_app. Qed.

Lemma stored_app (a b : list Event) : stored (a ++ b) = stored a ++ stored b.
Proof. unfold stored. by rewrite omap_app, join_app. Qed.

(** The loop of [transform_data]: the documents it constructs are those
    it returns, each carrying its row; nothing reaches the store. *)
Lemma for_each_make_document (cols : list string) (rows : list (list Cell)) :
  stored (events (for_each (make_document cols) rows)) = []
  ∧ match result (for_each (make_document cols) rows) with
    | Ok docs =>
        Forall2 (carries cols) rows docs
        ∧ constructed (events (for_each (make_document cols) rows)) = docs
    | Raise e =>
        ∃ row, row ∈ rows
             ∧ ((∃ key, key ∈ expected_columns ∧ row_get cols row key = Raise e)
                ∨ (e = validation_error
                   ∧ ∃ c, row_get cols row "top_reviews" = Ok c ∧ ∀ s, c ≠ Text s))
    end.
Proof.
  induction rows as [|row rows [IHs IH]]; [by repeat split|].
  cbn [for_each]. msimpl. pose proof (make_document_spec cols row) as Hm.
  destruct (result (make_document cols row)) as [doc|e].
  - destruct Hm as [Hc ->]. msimpl.
    destruct (result (for_each (make_document cols) rows)) as [docs|e].
    + destruct IH as [Hall Hcon]. msimpl.
      rewrite app_nil_r, stored_app, constructed_app, IHs, Hcon.
      split; [done|]. split; [by constructor | done].
    + destruct IH as (r & Hr & Hwhy). rewrite app_nil_r, stored_app, IHs.
      split; [done|]. exists r. split; [by right | done].
  - destruct Hm as [-> Hwhy]. split; [done|]. exists row. split; [by left | done].
Qed.

(** X19: the documents that [transform_data] returns are one for every
    row of the frame, in order: the content of each is the review text of
    its row and its metadata are the five other columns of that row.  They
    are exactly the documents constructed, and none is stored yet. *)
Theorem transform_data_documents (self : DataIngestion) (docs : list Document) :
  result (transform_data self) = Ok docs →
  Forall2 (carries (columns (product_data self))) (rows (product_data self)) docs
  ∧ length docs = length (rows (product_data self))
  ∧ constructed (events (transform_data self)) = docs
  ∧ stored (events (transform_data self)) = [].
Proof.
  unfold transform_data. msimpl.
  destruct (for_each_make_document (columns (product_data self))
              (rows (product_data self))) as [Hs H].
  destruct (result (for_each _ _)) as [docs'|e]; [|done]. destruct H as [Hall Hcon].
  msimpl. intros [= <-]. split; [done|].
  split; [symmetry; by eapply Forall2_length|].
  rewrite !constructed_app, !stored_app, Hcon, Hs. split; [|done].
  cbn. by rewrite app_nil_r.
Qed.

Lemma row_get_found (cols : list string) (row : list Cell) (name : string) :
  name ∈ cols → length row = length cols → ∃ c, row_get cols row name = Ok c.
Proof.
  revert row. induction cols as [|c cols IH]; intros row Hin Hlen.
  - by apply elem_of_nil in Hin.
  - destruct row as [|v row]; [done|]. cbn [row_get]. case_decide; [by eauto|].
    apply IH; [|by injection Hlen]. apply elem_of_cons in Hin as [->|Hin]; done.
Qed.

Lemma load_csv_ok (files : gmap string string) (read_csv : string → res DataFrame)
    (path : string) (df : DataFrame) :
  result (_load_csv files read_csv path) = Ok df →
  ∃ text, files !! path = Some text ∧ read_csv text = Ok df
        ∧ expected_columns ⊆ list_to_set (columns df).
Proof.
  unfold _load_csv. msimpl. destruct (files !! path) as [text|]; [|done]. msimpl.
  destruct (read_csv text) as [df'|e] eqn:Hr; [|done].
  case_bool_decide as Hs; [|done]. msimpl. intros [= <-]. by exists text.
Qed.

(** X20: on a frame that [_load_csv] accepted, [transform_data] cannot
    fail for a missing column or a short row.  It returns one document for
    every row, or raises the validation error of a row whose review text is
    not a string, which is a missing value, a number or a boolean. *)
Theorem loaded_frame_transforms (numeric : string → bool) (files : gmap string string)
    (path : string) (cfg : gmap string (gmap string string)) (df : DataFrame) :
  result (_load_csv files (Pandas.read_csv numeric) path) = Ok df →
  match result (transform_data (mkDataIngestion path df cfg)) with
  | Ok docs => length docs = length (rows df)
  | Raise e =>
      e = validation_error
      ∧ ∃ row c, row ∈ rows df
               ∧ row_get (columns df) row "top_reviews" = Ok c ∧ ∀ s, c ≠ Text s
  end.
Proof.
  intros (text & _ & Hread & Hsub)%load_csv_ok.
  apply read_csv_shape in Hread as (data & _ & _ & Hall).
  unfold transform_data. cbn [product_data]. msimpl.
  destruct (for_each_make_document (columns df) (rows df)) as [_ H].
  destruct (result (for_each _ _)) as [docs|e].
  - msimpl. destruct H as [H _]. symmetry. by eapply Forall2_length.
  - destruct H as (row & Hrow & [(key & Hkey & He)|[-> (c & Hc & Hn)]]).
    + exfalso. rewrite Forall_forall in Hall.
      destruct (row_get_found (columns df) row key) as [c Hc]; [|by apply Hall|congruence].
      apply Hsub in Hkey. by apply elem_of_list_to_set in Hkey.
    + split; [done|]. by exists row, c.
Qed.

End IngestionFacts.

Section PipelineFacts.
Import Text Py Pandas Ingestion.

Variable model_loader : res ().
Variable environ : gmap string string.
Variable files : gmap string string.
Variable read_csv : string → res DataFrame.
Variable load_config : res (gmap string (gmap string string)).
Variable add_documents : list Document → res (list string).
Variable similarity_search : string → res (list Document).

Local Abbreviation __init__ :=
  (Ingestion.__init__ model_loader environ files read_csv load_config).
Local Abbreviation run_pipeline :=
  (Ingestion.run_pipeline add_documents similarity_search).

Lemma print_hits (results : list Document) :
  constructed (events (for_each (λ res, tell (PrintHit res)) results)) = []
  ∧ stored (events (for_each (λ res, tell (PrintHit res)) results)) = [].
Proof.
  induction results as [|res results [IH1 IH2]]; [done|].
  cbn [for_each]. msimpl.
  assert (result (for_each (λ res, tell (PrintHit res)) results)
          = Ok (replicate (length results) ())) as ->.
  { clear. induction results as [|res results IH]; [done|].
    cbn [for_each]. msimpl. rewrite IH. by msimpl. }
  msimpl. by rewrite app_nil_r, constructed_app, stored_app, IH1, IH2.
Qed.

(** X21: the pipeline stores all documents or none.  What reaches the
    vector store is the whole list that [transform_data] returned, which is
    every document constructed, one for each row; when a row fails or the
    configuration names no collection, nothing is stored. *)
Theorem pipeline_stores_all_or_nothing (self : DataIngestion) :
  let evs := events (run_pipeline self) in
  stored evs = []
  ∨ (result (transform_data self) = Ok (stored evs)
     ∧ constructed evs = stored evs
     ∧ length (stored evs) = length (rows (product_data self))).
Proof.
  cbn zeta. unfold Ingestion.run_pipeline, transform_data, store_in_vector_db. msimpl.
  destruct (for_each_make_document (columns (product_data self))
              (rows (product_data self))) as [Hs H].
  destruct (result (for_each (make_document _) _)) as [docs|e].
  2:{ left. by rewrite !stored_app, Hs. }
  destruct H as [Hall Hcon]. msimpl.
  destruct (Retrieval.getitem (config self) "astra_db") as [section|e].
  2:{ left. by rewrite !stored_app, Hs. }
  msimpl. destruct (Retrieval.getitem section "collection_name") as [name|e].
  2:{ left. by rewrite !stored_app, Hs. }
  msimpl. right.
  assert (Hlen : length docs = length (rows (product_data self)))
    by (symmetry; by eapply Forall2_length).
  destruct (add_documents docs) as [ids|e].
  2:{ rewrite !stored_app, !constructed_app, Hs, Hcon. cbn. by rewrite !app_nil_r. }
  msimpl. destruct (similarity_search _) as [results|e].
  2:{ rewrite !stored_app, !constructed_app, Hs, Hcon. cbn. by rewrite !app_nil_r. }
  msimpl. destruct (print_hits results) as [Hc0 Hs0].
  rewrite !stored_app, !constructed_app, Hs, Hcon, Hc0, Hs0.
  destruct (result (for_each _ results)); cbn; by rewrite !app_nil_r.
Qed.

Lemma load_env_missing (var : string) :
  var ∈ required_vars → environ !! var = None →
  result (_load_env_variables environ)
  = Raise (mkExc "OSError" "Missing environment variables").
Proof.
  intros Hv He. unfold _load_env_variables. msimpl.
  destruct (List.filter _ required_vars) as [|v vs] eqn:Hm; [|done]. exfalso.
  assert (Hin : In var (List.filter (λ var, bool_decide (environ !! var = None))
                          required_vars)).
  { apply filter_In. split; [by apply list_elem_of_In | by apply bool_decide_eq_true]. }
  by rewrite Hm in Hin.
Qed.

(** X22: the constructor checks the environment before it looks for the
    file.  With a required variable unset it raises [OSError] and the path
    is not computed; with the variables set and no file at the expected
    path it raises [FileNotFoundError] and nothing is read. *)
Theorem init_fails_early :
  model_loader = Ok () →
  ((∃ var, var ∈ required_vars ∧ environ !! var = None) →
   result __init__ = Raise (mkExc "OSError" "Missing environment variables")
   ∧ calls (events __init__) = ["_load_env_variables"])
  ∧ ((∀ var, var ∈ required_vars → is_Some (environ !! var)) →
     files !! "data/product_reviews.csv" = None →
     result __init__ = Raise (mkExc "FileNotFoundError" "CSV file not found")
     ∧ calls (events __init__) = ["_load_env_variables"; "_get_csv_path"]).
Proof.
  intros Hm. unfold Ingestion.__init__. rewrite Hm. msimpl.
  rewrite (load_env_events environ). split.
  - intros (var & Hv & He). rewrite (load_env_missing var Hv He). done.
  - intros Hall Hf. rewrite (load_env_ok environ Hall). msimpl.
    unfold _get_csv_path. rewrite Hf. msimpl.
    rewrite bool_decide_eq_false_2 by (by intros [? ?]). msimpl. done.
Qed.

End PipelineFacts.

(** ** From the scraper to the ingestion *)
Section ScrapedToStore.
Import Text Py Csv Pandas Scrapper Ingestion.

Variable numeric : string → bool.
Variable decimal : string → bool.
Variable search : string → string → res (list Item).
Variable load_page : string → res Soup.





(** X24: a table saved by [save_to_csv] is read back line by line: the
    header first, then the rows as they were given, whatever commas, quotes
    and line breaks their fields contain, when every row has at least two
    fields.  Only the file written changes; a file name with a directory or
    an absolute one is used as it is. *)
Theorem saved_table_tokenizes (output_dir : string) (files : gmap string string)
    (data : list (list string)) (filename : string) :
  Forall (λ row, 2 ≤ length row) data →
  ∃ path text,
    save_to_csv output_dir files data filename !! path = Some text
    ∧ tokenize text = Ok (header :: data)
    ∧ (∀ other, other ≠ path →
                save_to_csv output_dir files data filename !! other = files !! other)
    ∧ (isabs filename || has_dirname filename = true → path = filename).
Proof.
  intros Hrows. unfold save_to_csv.
  set (path := if isabs filename then filename
               else if has_dirname filename then filename
               else path_join output_dir filename).
  exists path, (writerow header +:+ writerows data).
  split; [apply lookup_insert_eq|]. split.
  - change (writerow header +:+ writerows data) with (writerows (header :: data)).
    apply tokenize_writerows. constructor; [cbn; lia | done].
  - split; [intros other Hne; by apply lookup_insert_ne|].
    unfold path. by destruct (isabs filename), (has_dirname filename).
Qed.

End ScrapedToStore.

(** ** The further properties on concrete inputs *)
Section ScraperExamples.
Import Text Py Csv Pandas Scrapper.

Lemma extracted_reviews_complete_witness :
  (Z.of_nat (length (_extract_reviews_by_platform "alza" review_page 5)) < 5)%Z
  ∧ ("div.review-item" ∈ review_selectors "alza")
  ∧ ("Camera is superb in low light" ∈ review_page "div.review-item")
  ∧ 10 < len "Camera is superb in low light"
  ∧ ("Camera is superb in low light" ∈ _extract_reviews_by_platform "alza" review_page 5).
Proof.
  assert (H1 : (Z.of_nat (length (_extract_reviews_by_platform "alza" review_page 5)) < 5)%Z)
    by (vm_compute; reflexivity).
  assert (H2 : "div.review-item" ∈ review_selectors "alza")
    by (apply list_elem_of_In; vm_compute; tauto).
  assert (H3 : "Camera is superb in low light" ∈ review_page "div.review-item")
    by (apply list_elem_of_In; vm_compute; tauto).
  assert (H4 : 10 < len "Camera is superb in low light") by (vm_compute; lia).
  split; [exact H1|]. split; [exact H2|]. split; [exact H3|]. split; [exact H4|].
  exact (extracted_reviews_complete "alza" review_page 5 "div.review-item"
           "Camera is superb in low light" H1 H2 H3 H4).
Defined.

(** Lengths are counted in characters: a text of ten characters is not
    long enough for a review, whatever the number of its bytes. *)
Example ten_characters_dropped :
  let text := utf8 [83; 107; 118; 196; 155; 108; 195; 189; 32; 196; 141; 97; 106]%N in
  len text = 10 ∧ String.length text = 13
  ∧ _extract_reviews_by_platform "alza"
      (λ selector, if bool_decide (selector = "div.review-item") then [text] else []) 5
    = [].
Proof. vm_compute. done. Qed.

(** The review count is matched with [\d], which takes the digits of every
    script. *)
Example arabic_indic_count :
  search_count sample_decimal
    (utf8 [217; 161; 217; 162; 217; 163; 32; 114; 101; 118; 105; 101; 119; 115]%N)
  = Some (utf8 [217; 161; 217; 162; 217; 163]%N)
  ∧ search_count sample_decimal "(1,204 reviews)" = Some "1,204"
  ∧ search_count sample_decimal "12, then 7" = Some "12"
  ∧ search_count sample_decimal "no reviews yet" = None.
Proof. vm_compute. done. Qed.

(** One product of the example shop, scraped, saved and read again. *)
Example phone_scraped :
  result (scrape_products sample_decimal phone_shop phone_pages (Ok ()) (λ _, Ok ()) "alza" "iphone 15" 1 2)
  = Ok [["iphone-15-d123"; "iPhone 15"; "N/A"; "1,204"; "999";
         "Battery lasts two days || Camera is superb in low light"]].
Proof. vm_compute. reflexivity. Qed.

Lemma saved_table_tokenizes_witness :
  Forall (λ row, 2 ≤ length row) [Ingestion.row_of_texts]
  ∧ ∃ path text,
      save_to_csv "data" ∅ [Ingestion.row_of_texts] "out/reviews.csv" !! path = Some text
      ∧ tokenize text = Ok (header :: [Ingestion.row_of_texts])
      ∧ (∀ other, other ≠ path →
                  save_to_csv "data" ∅ [Ingestion.row_of_texts] "out/reviews.csv" !! other
                  = (∅ : gmap string string) !! other)
      ∧ (isabs "out/reviews.csv" || has_dirname "out/reviews.csv" = true →
         path = "out/reviews.csv").
Proof.
  assert (H : Forall (λ row, 2 ≤ length row) [Ingestion.row_of_texts])
    by (repeat constructor).
  split; [exact H|].
  exact (saved_table_tokenizes "data" ∅ [Ingestion.row_of_texts] "out/reviews.csv" H).
Defined.

End ScraperExamples.

Section ClientServerExamples.
Import Text Py.

Lemma no_fallback_after_failure_witness :
  let tools := [Client.slow_retriever; Client.web_tool] in
  List.find (λ t, bool_decide (Client.name t = "get_product_info")) tools
  = Some Client.slow_retriever
  ∧ List.find (λ t, bool_decide (Client.name t = "web_search")) tools = Some Client.web_tool
  ∧ Client.ainvoke Client.slow_retriever Client.query = Raise (mkExc "TimeoutError" "")
  ∧ Client.invoked (events (Client.main (Ok tools))) = [("get_product_info", Client.query)]
  ∧ last (events (Client.main (Ok tools)))
    = Some (if decide (exc_class (mkExc "TimeoutError" "") = "TimeoutError")
            then Client.Print [Client.Str "Retriever timed out after 30 seconds"]
            else Client.PrintExc).
Proof.
  cbv zeta. split; [reflexivity|]. split; [reflexivity|]. split; [reflexivity|].
  apply (no_fallback_after_failure [Client.slow_retriever; Client.web_tool]
           Client.slow_retriever Client.web_tool (mkExc "TimeoutError" ""));
    reflexivity.
Defined.

Lemma empty_retrieval_falls_back_witness :
  let retriever_invoke : string → res (list Server.Document) := λ _, Ok [] in
  let duckduckgo_run : string → res string := λ q, Ok ("Results for " +:+ q) in
  retriever_invoke Client.query = Ok []
  ∧ events (Client.main (Ok (Deployment.client_tools retriever_invoke duckduckgo_run)))
    = [ Client.Print [Client.Str "Creating MCP client..."];
        Client.Print [Client.Str "Connecting to MCP server and discovering tools..."];
        Client.Print [Client.Str "Available tools:";
                      Client.Names ["get_product_info"; "web_search"]];
        Client.Print [Client.Str ("Querying retriever with: " +:+ Client.query)];
        Client.Invoke "get_product_info" Client.query;
        Client.Print [Client.Str (NL +:+ "Retriever Result:" +:+ NL);
                      Client.Str Server.sentinel];
        Client.Print [Client.Str (NL +:+ " No local results, falling back to web search..."
                                  +:+ NL)];
        Client.Invoke "web_search" Client.query;
        Client.Print [Client.Str ("Web Search Result:" +:+ NL);
                      Client.Str (match duckduckgo_run Client.query with
                                  | Ok text => text
                                  | Raise e => "Error during web search: " +:+ exc_str e
                                  end)] ].
Proof.
  cbv zeta. split; [reflexivity|].
  exact (empty_retrieval_falls_back (λ _, Ok []) (λ q, Ok ("Results for " +:+ q)) eq_refl).
Defined.

Lemma served_tool_nodes_witness :
  let retriever_invoke : string → res (list Server.Document) := λ _, Ok [] in
  let duckduckgo_run : string → res string := λ _, Ok "" in
  let tools := Deployment.workflow_tools retriever_invoke duckduckgo_run in
  let state := [Workflow.HumanMessage "TOOL: retriever"] in
  let m := Workflow.HumanMessage "TOOL: retriever" in
  last state = Some m
  ∧ (∃ text,
        result (Server.get_product_info retriever_invoke (Workflow.content m)) = Ok text
        ∧ text ≠ ""
        ∧ Workflow._vector_retriever tools state
          = ([Workflow.ToolCall "get_product_info" (Workflow.content m)],
             Ok [Workflow.HumanMessage text]))
  ∧ Workflow._web_search tools state
    = ([Workflow.ToolCall "web_search" (Workflow.content m)],
       Ok [Workflow.HumanMessage
             (match duckduckgo_run (Workflow.content m) with
              | Ok "" => "No data from web"
              | Ok text => text
              | Raise e => "Error during web search: " +:+ exc_str e
              end)]).
Proof.
  cbv zeta. split; [reflexivity|].
  exact (served_tool_nodes (λ _, Ok []) (λ _, Ok "")
           [Workflow.HumanMessage "TOOL: retriever"]
           (Workflow.HumanMessage "TOOL: retriever") eq_refl).
Defined.

End ClientServerExamples.

Section WorkflowRunExamples.
Import Text Py Workflow.

Lemma direct_answer_returned_witness :
  let query := "Hello there" in
  existsb (λ word, contains word (lower query)) keywords = false
  ∧ llm_yes (assistant_prompt query) = Ok "Yes."
  ∧ contains "TOOL" "Yes." = false
  ∧ run llm_yes echo_tools ∅ query default_thread
    = (<[default_thread := initial_state ∅ query default_thread ++ [HumanMessage "Yes."]]> ∅,
       [Visit Assistant; LLMCall (assistant_prompt query)],
       Ok "Yes.").
Proof.
  cbv zeta. split; [reflexivity|]. split; [reflexivity|]. split; [reflexivity|].
  apply (direct_answer_returned llm_yes echo_tools ∅ "Hello there" default_thread "Yes.");
    reflexivity.
Defined.

Lemma accepted_context_run_witness :
  let query := "What is the price of iPhone 16?" in
  let first := HumanMessage query in
  let r := "Title: N/A" +:+ NL +:+ "Reviews: TOOL: retriever" in
  let state := initial_state ∅ query default_thread in
  let context := if truthy r then r else "No data" in
  head state = Some first
  ∧ existsb (λ word, contains word (lower query)) keywords = true
  ∧ List.find (λ t, bool_decide (name t = "get_product_info")) echo_tools
    = Some echo_retriever
  ∧ ainvoke echo_retriever "TOOL: retriever" = Ok r
  ∧ llm_yes (grader_prompt (content first) context) = Ok "Yes."
  ∧ contains "yes" (lower "Yes.") = true
  ∧ llm_yes (product_bot_prompt context (content first)) = Ok "Yes."
  ∧ run llm_yes echo_tools ∅ query default_thread
    = (<[default_thread := state ++ [HumanMessage "TOOL: retriever"; HumanMessage context;
                                     HumanMessage "Yes."]]> ∅,
       [Visit Assistant;
        Visit Retriever; ToolCall "get_product_info" "TOOL: retriever";
        LLMCall (grader_prompt (content first) context); Grade generator;
        Visit Generator; LLMCall (product_bot_prompt context (content first))],
       Ok "Yes.").
Proof.
  cbv zeta. split; [reflexivity|]. split; [reflexivity|]. split; [reflexivity|].
  split; [reflexivity|]. split; [reflexivity|]. split; [reflexivity|].
  split; [reflexivity|].
  apply (accepted_context_run llm_yes echo_tools ∅ "What is the price of iPhone 16?"
           default_thread (HumanMessage "What is the price of iPhone 16?") echo_retriever
           ("Title: N/A" +:+ NL +:+ "Reviews: TOOL: retriever") "Yes." "Yes.");
    reflexivity.
Defined.

Lemma rejected_context_rewritten_witness :
  let query := "Any review of the Pixel 9?" in
  let first := HumanMessage query in
  let r := "Title: N/A" +:+ NL +:+ "Reviews: TOOL: retriever" in
  let w := "web: No." in
  let state := initial_state ∅ query default_thread in
  let context := if truthy r then r else "No data" in
  let web := if truthy w then w else "No data from web" in
  head state = Some first
  ∧ existsb (λ word, contains word (lower query)) keywords = true
  ∧ List.find (λ t, bool_decide (name t = "get_product_info")) echo_tools
    = Some echo_retriever
  ∧ ainvoke echo_retriever "TOOL: retriever" = Ok r
  ∧ llm_no (grader_prompt (content first) context) = Ok "No."
  ∧ contains "yes" (lower "No.") = false
  ∧ llm_no (rewrite_prompt (content first)) = Ok "No."
  ∧ List.find (λ t, bool_decide (name t = "web_search")) echo_tools = Some echo_web
  ∧ ainvoke echo_web (strip "No.") = Ok w
  ∧ llm_no (product_bot_prompt web (content first)) = Ok "No."
  ∧ run llm_no echo_tools ∅ query default_thread
    = (<[default_thread := state ++ [HumanMessage "TOOL: retriever"; HumanMessage context;
                                     HumanMessage (strip "No."); HumanMessage web;
                                     HumanMessage "No."]]> ∅,
       [Visit Assistant;
        Visit Retriever; ToolCall "get_product_info" "TOOL: retriever";
        LLMCall (grader_prompt (content first) context); Grade rewriter;
        Visit Rewriter; LLMCall (rewrite_prompt (content first));
        Visit WebSearch; ToolCall "web_search" (strip "No.");
        Visit Generator; LLMCall (product_bot_prompt web (content first))],
       Ok "No.").
Proof.
  cbv zeta. split; [reflexivity|]. split; [reflexivity|]. split; [reflexivity|].
  split; [reflexivity|]. split; [reflexivity|]. split; [reflexivity|].
  split; [reflexivity|]. split; [reflexivity|]. split; [reflexivity|].
  split; [reflexivity|].
  apply (rejected_context_rewritten llm_no echo_tools ∅ "Any review of the Pixel 9?"
           default_thread (HumanMessage "Any review of the Pixel 9?") echo_retriever
           echo_web ("Title: N/A" +:+ NL +:+ "Reviews: TOOL: retriever") "No." "No."
           "web: No." "No.");
    reflexivity.
Defined.

Lemma missing_retriever_tool_witness :
  let query := "What is the price of iPhone 16?" in
  existsb (λ word, contains word (lower query)) keywords = true
  ∧ List.find (λ t, bool_decide (name t = "get_product_info")) [echo_web] = None
  ∧ run llm_yes [echo_web] ∅ query default_thread
    = (<[default_thread := initial_state ∅ query default_thread
                           ++ [HumanMessage "TOOL: retriever"]]> ∅,
       [Visit Assistant; Visit Retriever],
       Raise (mkExc "RuntimeError" "coroutine raised StopIteration")).
Proof.
  cbv zeta. split; [reflexivity|]. split; [reflexivity|].
  apply (missing_retriever_tool llm_yes [echo_web] ∅ "What is the price of iPhone 16?"
           default_thread); reflexivity.
Defined.

Lemma run_completes_witness :
  let query := "What is the price of iPhone 16?" in
  (∀ prompt, ∃ reply, llm_yes prompt = Ok reply)
  ∧ List.find (λ t, bool_decide (name t = "get_product_info")) echo_tools
    = Some echo_retriever
  ∧ (∀ q, ∃ r, ainvoke echo_retriever q = Ok r)
  ∧ List.find (λ t, bool_decide (name t = "web_search")) echo_tools = Some echo_web
  ∧ (∀ q, ∃ r, ainvoke echo_web q = Ok r)
  ∧ ∃ answer state,
      (run llm_yes echo_tools ∅ query default_thread).2 = Ok answer
      ∧ (run llm_yes echo_tools ∅ query default_thread).1.1 !! default_thread = Some state
      ∧ last state = Some (HumanMessage answer).
Proof.
  cbv zeta.
  assert (H1 : ∀ prompt, ∃ reply, llm_yes prompt = Ok reply)
    by (intros prompt; eexists; reflexivity).
  assert (H3 : ∀ q, ∃ r, ainvoke echo_retriever q = Ok r)
    by (intros q; eexists; reflexivity).
  assert (H5 : ∀ q, ∃ r, ainvoke echo_web q = Ok r)
    by (intros q; eexists; reflexivity).
  split; [exact H1|]. split; [reflexivity|]. split; [exact H3|].
  split; [reflexivity|]. split; [exact H5|].
  exact (run_completes llm_yes echo_tools ∅ "What is the price of iPhone 16?"
           default_thread echo_retriever echo_web H1 eq_refl H3 eq_refl H5).
Defined.

(** The rewriter hands on its reply stripped: here a reply with a space in
    front and a no-break space and a line feed behind. *)
Example rewritten_query_stripped :
  (superstep (λ _, Ok (utf8 [32; 80; 105; 120; 101; 108; 32; 57; 194; 160; 10]%N))
     echo_tools Rewriter [HumanMessage "pixel"]).2
  = Ok (WebSearch, [HumanMessage "pixel"; HumanMessage "Pixel 9"]).
Proof. vm_compute. reflexivity. Qed.

(** C3 (as stated) fails: the grader decides [rewriter], the web search
    raises, and the run ends at WebSearch with that exception; Generator is
    not entered and [END] is not reached. *)
Lemma C3_rewrite_branch_counterexample :
  let r := pregel llm_no [echo_retriever; failing_web] (S recursion_limit) START
             [HumanMessage "Any review of the Pixel 9?"] in
  grades (run_events r) = [rewriter]
  ∧ visited (run_events r) = [Assistant; Retriever; Rewriter; WebSearch]
  ∧ run_outcome r = Raise (mkExc "ToolException" "web search failed")
  ∧ ¬ rewrite_branch_traversed r.
Proof.
  cbv zeta.
  assert (Hg : grades (run_events (pregel llm_no [echo_retriever; failing_web]
                                     (S recursion_limit) START
                                     [HumanMessage "Any review of the Pixel 9?"]))
               = [rewriter]) by (vm_compute; reflexivity).
  assert (Ho : run_outcome (pregel llm_no [echo_retriever; failing_web]
                              (S recursion_limit) START
                              [HumanMessage "Any review of the Pixel 9?"])
               = Raise (mkExc "ToolException" "web search failed"))
    by (vm_compute; reflexivity).
  split; [exact Hg|]. split; [vm_compute; reflexivity|]. split; [exact Ho|].
  unfold rewrite_branch_traversed. rewrite Hg, Ho.
  intros H. destruct H as [_ H]; [by apply list_elem_of_singleton | discriminate H].
Qed.

Lemma C3_rewrite_branch_and_termination_witness :
  let r := pregel llm_no echo_tools (S recursion_limit) START
             [HumanMessage "Any review of the Pixel 9?"] in
  rewriter ∈ grades (run_events r)
  ∧ (∀ prompt, ∃ reply, llm_no prompt = Ok reply)
  ∧ (∃ wt, List.find (λ t, bool_decide (name t = "web_search")) echo_tools = Some wt
           ∧ ∀ q, ∃ w, ainvoke wt q = Ok w)
  ∧ run_outcome r = Ok ()
  ∧ visited (run_events r) = [Assistant; Retriever; Rewriter; WebSearch; Generator].
Proof.
  cbv zeta.
  assert (H1 : rewriter ∈ grades (run_events (pregel llm_no echo_tools (S recursion_limit)
                                                START
                                                [HumanMessage "Any review of the Pixel 9?"])))
    by (apply list_elem_of_In; vm_compute; tauto).
  assert (H2 : ∀ prompt, ∃ reply, llm_no prompt = Ok reply) by (intros; by eexists).
  assert (H3 : ∃ wt, List.find (λ t, bool_decide (name t = "web_search")) echo_tools
                     = Some wt ∧ ∀ q, ∃ w, ainvoke wt q = Ok w)
    by (exists echo_web; split; [reflexivity | intros; by eexists]).
  split; [exact H1|]. split; [exact H2|]. split; [exact H3|].
  exact (proj2 (proj2 (proj2 (proj2
           (proj2 (proj2 (proj2 (proj2 (proj2 (proj2
              (C3_rewrite_branch_and_termination llm_no echo_tools
                 [HumanMessage "Any review of the Pixel 9?"])))))) H1)))) H2 H3).
Defined.

End WorkflowRunExamples.

Section StoreExamples.
Import Text Py Csv Pandas Scrapper Ingestion.

Lemma load_retriever_cached_witness :
  let store :=
    Retrieval.mkVectorStore (Retrieval.VStr "products") "https://db.example" "token"
      "keyspace" in
  let instance :=
    Retrieval.mkCompressionRetriever store "mmr"
      (Retrieval.mkSearchKwargs (Retrieval.VInt 10) 20 (7, 10)%Z (6, 10)%Z) in
  let self' :=
    Retrieval.mkRetriever Retrieval.cfg_top_k (Some store) (Some instance)
      "https://db.example" "token" "keyspace" in
  result (Retrieval.load_retriever (Ok ()) (Ok ()) (Retrieval.fresh Retrieval.cfg_top_k))
  = Ok (self', instance)
  ∧ Retrieval.load_retriever (Raise (mkExc "RuntimeError" "no embeddings"))
      (Raise (mkExc "RuntimeError" "no model")) self'
    = ([], Ok (self', instance))
  ∧ Retrieval.config self' = Retrieval.config (Retrieval.fresh Retrieval.cfg_top_k)
  ∧ Retrieval.retriever_instance self' = Some instance.
Proof.
  cbv zeta. split; [vm_compute; reflexivity|].
  apply (load_retriever_cached (Ok ()) (Ok ())
           (Raise (mkExc "RuntimeError" "no embeddings"))
           (Raise (mkExc "RuntimeError" "no model"))
           (Retrieval.fresh Retrieval.cfg_top_k)).
  vm_compute. reflexivity.
Defined.

Lemma transform_data_documents_witness :
  let self := mkDataIngestion "data/product_reviews.csv" frame_of_texts ∅ in
  result (transform_data self) = Ok [document_of_texts]
  ∧ Forall2 (carries (columns (product_data self))) (rows (product_data self))
      [document_of_texts]
  ∧ length [document_of_texts] = length (rows (product_data self))
  ∧ constructed (events (transform_data self)) = [document_of_texts]
  ∧ stored (events (transform_data self)) = [].
Proof.
  cbv zeta.
  assert (H : result (transform_data
                        (mkDataIngestion "data/product_reviews.csv" frame_of_texts ∅))
              = Ok [document_of_texts]).
  { vm_compute. reflexivity. }
  split; [exact H|].
  exact (transform_data_documents
           (mkDataIngestion "data/product_reviews.csv" frame_of_texts ∅)
           [document_of_texts] H).
Defined.

Lemma loaded_frame_transforms_witness :
  let files := save_to_csv default_output_dir ∅ [row_of_texts] default_filename in
  result (_load_csv files (read_csv decimal_literal) "data/product_reviews.csv")
  = Ok frame_of_texts
  ∧ match result (transform_data
                    (mkDataIngestion "data/product_reviews.csv" frame_of_texts ∅)) with
    | Ok docs => length docs = length (rows frame_of_texts)
    | Raise e =>
        e = validation_error
        ∧ ∃ row c, row ∈ rows frame_of_texts
                 ∧ row_get (columns frame_of_texts) row "top_reviews" = Ok c
                 ∧ ∀ s, c ≠ Text s
    end.
Proof.
  cbv zeta.
  assert (H : result (_load_csv
                        (save_to_csv default_output_dir ∅ [row_of_texts] default_filename)
                        (read_csv decimal_literal) "data/product_reviews.csv")
              = Ok frame_of_texts).
  { vm_compute. reflexivity. }
  split; [exact H|].
  exact (loaded_frame_transforms decimal_literal
           (save_to_csv default_output_dir ∅ [row_of_texts] default_filename)
           "data/product_reviews.csv" ∅ frame_of_texts H).
Defined.

Lemma init_fails_early_witness :
  let init := __init__ (Ok ()) ∅ ∅ (read_csv decimal_literal) (Ok ∅) in
  (Ok () : res ()) = Ok ()
  ∧ ((∃ var, var ∈ required_vars ∧ (∅ : gmap string string) !! var = None) →
     result init = Raise (mkExc "OSError" "Missing environment variables")
     ∧ calls (events init) = ["_load_env_variables"])
  ∧ ((∀ var, var ∈ required_vars → is_Some ((∅ : gmap string string) !! var)) →
     (∅ : gmap string string) !! "data/product_reviews.csv" = None →
     result init = Raise (mkExc "FileNotFoundError" "CSV file not found")
     ∧ calls (events init) = ["_load_env_variables"; "_get_csv_path"]).
Proof.
  cbv zeta. split; [reflexivity|].
  exact (init_fails_early (Ok ()) ∅ ∅ (read_csv decimal_literal) (Ok ∅) eq_refl).
Defined.



End StoreExamples.
